(** * Smart-University-Scheduler: the two genetic-algorithm schedulers

    Shallow embedding of [genetic_algorithm_schedulerPYGAD.py] (institution
    timetable) and [student_scheduler_ga.py] (per-student timetable), and the
    properties of their encoding, decoding and penalty functions.

    Conventions of the embedding:
    - Python [int] is [Z]; a gene handed over by the engine is a number that
      the code truncates with [int(...)], so genes are rationals ([Q]);
    - Python [str] is [string], compared by code point ([String.compare]);
    - a [dict] is a [gmap], a [set] a [gset], a [list] a [list];
    - a raised exception is the [Raise] branch of [result];
    - DataFrame columns are the fields of a row record, a DataFrame is the
      list of its rows in order. *)

From Stdlib Require Import ZArith QArith Qround String Ascii List Lia.
From stdpp Require Import base decidable option list gmap strings pretty sorting.

Local Open Scope string_scope.
Local Open Scope list_scope.
Local Open Scope Z_scope.

(** ** Python values and failures *)

Module Py.

Inductive exn : Type :=
| IndexError
| ValueError (msg : string).

Inductive result (A : Type) : Type :=
| Ok (a : A)
| Raise (e : exn).
Arguments Ok {A} a.
Arguments Raise {A} e.

Definition bind {A B} (m : result A) (k : A → result B) : result B :=
  match m with
  | Ok a => k a
  | Raise e => Raise e
  end.

(** [l[i]] on a list: a negative index counts from the end, anything
    outside [-len, len) raises IndexError. *)
Definition index {A} (l : list A) (i : Z) : result A :=
  let n := Z.of_nat (length l) in
  let j := if 0 <=? i then i else n + i in
  if (0 <=? j) && (j <? n)
  then match l !! Z.to_nat j with
       | Some x => Ok x
       | None => Raise IndexError
       end
  else Raise IndexError.

(** [arr[i]] for a non-negative position computed by the code. *)
Definition at_pos {A} (l : list A) (i : nat) : result A :=
  match l !! i with
  | Some x => Ok x
  | None => Raise IndexError
  end.

(** [int(x)] on a number: truncation toward zero. *)
Definition int (x : Q) : Z := Z.quot (Qnum x) (Zpos (Qden x)).

(** [s.split(sep)] for a one-character separator. *)
Fixpoint split (sep : ascii) (s : string) : list string :=
  match s with
  | EmptyString => [EmptyString]
  | String c s' =>
      if Ascii.eqb c sep then EmptyString :: split sep s'
      else match split sep s' with
           | h :: t => String c h :: t
           | [] => [String c EmptyString]
           end
  end.

(** The format spec [{n:02d}]: decimal digits, sign included in the
    width, padded with a zero up to two characters. *)
Definition format_02d (n : Z) : string :=
  let s := pretty n in
  if (String.length s <? 2)%nat then "0" +:+ s else s.

(** [range(n)] as a repetition count: empty when [n <= 0]. *)
Definition range_len (n : Z) : nat := Z.to_nat n.

End Py.

Global Instance result_ret : MRet Py.result := @Py.Ok.
Global Instance result_bind : MBind Py.result := fun A B k m => Py.bind m k.

Abbreviation Ok := Py.Ok.
Abbreviation Raise := Py.Raise.

(** ** Pieces shared by the two schedulers *)

(** A loop whose body may raise: the first exception ends it. *)
Fixpoint for_each {A B} (body : B → A → Py.result B) (b : B) (l : list A)
  : Py.result B :=
  match l with
  | [] => Ok b
  | x :: l' => b' ← body b x; for_each body b' l'
  end.

Record GeneBound : Type := mkBound { low : Z; high : Z }.

Record GAParams : Type := mkParams {
  generations : Z;
  parents_mating : Z;
  sol_per_pop : Z;
  mutation_percent : Q
}.

(** The constant [1e-9]. *)
Definition epsilon : Q := 1 # 1000000000.

(** The quotient [1.0 / (penalty + 1e-9)] as an exact rational.  The code
    evaluates the same expression in binary64, so what it returns is a
    rounding of this value; the development uses the exact value as the
    reference and states nothing about the rounding. *)
Definition fitness_of_penalty (penalty : Z) : Q :=
  (1 / (inject_Z penalty + epsilon))%Q.

(** ** genetic_algorithm_schedulerPYGAD.py *)

Module Institution.

(** *** DataPreparer *)

(** One entry of [lectures_to_schedule]. *)
Record LectureReq : Type := mkReq {
  req_course_id : string;
  req_teacher_id : string
}.

(** One decoded lecture of a schedule. *)
Record Lecture : Type := mkLecture {
  course_id : string;
  teacher_id : string;
  room_id : string;
  timeslot : string
}.

(** Rows of the input tables. *)
Record CourseRow : Type := mkCourse {
  c_course_id : string;
  lectures_per_week : Z
}.

Record TeacherCourseRow : Type := mkTC {
  tc_teacher_id : string;
  tc_course_id : string
}.

Record PreferenceRow : Type := mkPref {
  p_teacher_id : string;
  p_day : string;
  preferred_start_time : string;
  preferred_end_time : string
}.

Global Instance LectureReq_eq_dec : EqDecision LectureReq.
Proof. solve_decision. Defined.
Global Instance TeacherCourseRow_eq_dec : EqDecision TeacherCourseRow.
Proof. solve_decision. Defined.
Global Instance Lecture_eq_dec : EqDecision Lecture.
Proof. solve_decision. Defined.

Definition days : list string :=
  ["Sunday"; "Monday"; "Tuesday"; "Wednesday"; "Thursday"].

(** [range(8, 17)] *)
Definition hours : list Z := (fun k => 8 + Z.of_nat k) <$> seq 0 9.

Definition slot_name (day : string) (hour : Z) : string :=
  day +:+ "_" +:+ Py.format_02d hour +:+ ":00".

(** The nested loop over [days] and [hours], appending to [timeslots]. *)
Definition build_timeslots : list string :=
  foldl (fun acc day =>
           foldl (fun acc' hour => acc' ++ [slot_name day hour]) acc hours)
        [] days.

(** [courses[courses['course_id'] == course_id]['lectures_per_week'].iloc[0]] *)
Definition lookup_lectures_per_week (courses : list CourseRow) (cid : string)
  : Py.result Z :=
  match filter (fun r => c_course_id r = cid) courses with
  | r :: _ => Ok (lectures_per_week r)
  | [] => Raise Py.IndexError
  end.

(** The body of the loop over [teacher_courses]. *)
Definition add_lectures (courses : list CourseRow)
    (lectures_to_schedule : list LectureReq) (row : TeacherCourseRow)
  : Py.result (list LectureReq) :=
  let teacher_id := tc_teacher_id row in
  let course_id := tc_course_id row in
  num_lectures ← lookup_lectures_per_week courses course_id;
  Ok (Nat.iter (Py.range_len num_lectures)
        (fun acc => acc ++ [mkReq course_id teacher_id])
        lectures_to_schedule).

(** The body of the loop over [teacher_preferences]. *)
Definition add_preference
    (teacher_pref_dict : gmap (string * string) (list (string * string)))
    (row : PreferenceRow)
  : gmap (string * string) (list (string * string)) :=
  let key := (p_teacher_id row, p_day row) in
  let d := match teacher_pref_dict !! key with
           | Some _ => teacher_pref_dict
           | None => <[key := []]> teacher_pref_dict
           end in
  alter (fun l => l ++ [(preferred_start_time row, preferred_end_time row)])
        key d.

Record DataPreparer : Type := mkDataPreparer {
  courses : list CourseRow;
  classrooms : list string;            (* the [room_id] column *)
  teacher_courses : list TeacherCourseRow;
  teacher_preferences : list PreferenceRow;
  lectures_to_schedule : list LectureReq;
  timeslots : list string;
  teacher_pref_dict : gmap (string * string) (list (string * string))
}.

(** [DataPreparer.__init__], which runs [_prepare_data]. *)
Definition prepare_data (courses : list CourseRow) (classrooms : list string)
    (teacher_courses : list TeacherCourseRow)
    (teacher_preferences : list PreferenceRow)
  : Py.result DataPreparer :=
  lectures ← for_each (add_lectures courses) [] teacher_courses;
  Ok {| courses := courses;
        classrooms := classrooms;
        teacher_courses := teacher_courses;
        teacher_preferences := teacher_preferences;
        lectures_to_schedule := lectures;
        timeslots := build_timeslots;
        teacher_pref_dict := foldl add_preference ∅ teacher_preferences |}.

(** *** SchedulerGA *)

Record SchedulerGA : Type := mkSchedulerGA {
  data_preparer : DataPreparer;
  ga_params : GAParams;
  num_lectures : nat;
  num_genes : nat;
  gene_space : list GeneBound
}.

(** [SchedulerGA.__init__], lines 61-76: the state in which line 78 calls
    [_create_ga_instance].  That call hands the parameters to [pygad.GA],
    which is not part of the sources and can reject them; it is not part of
    this definition. *)
Definition SchedulerGA_init (dp : DataPreparer) (params : GAParams)
  : SchedulerGA :=
  let n := length (lectures_to_schedule dp) in
  {| data_preparer := dp;
     ga_params := params;
     num_lectures := n;
     num_genes := n * 2;
     gene_space :=
       Nat.iter n
         (fun gs => (gs ++ [mkBound 0 (Z.of_nat (length (classrooms dp)))])
                       ++ [mkBound 0 (Z.of_nat (length (timeslots dp)))])
         [] |}.

(** The body of the loop of [_decode_solution]. *)
Definition decode_step (self : SchedulerGA) (solution : list Q)
    (schedule : list Lecture) (i : nat) : Py.result (list Lecture) :=
  let dp := data_preparer self in
  lecture_info ← Py.at_pos (lectures_to_schedule dp) i;
  room_gene ← Py.at_pos solution (i * 2);
  let room_index := Py.int room_gene in
  timeslot_gene ← Py.at_pos solution (i * 2 + 1);
  let timeslot_index := Py.int timeslot_gene in
  room ← Py.index (classrooms dp) room_index;
  slot ← Py.index (timeslots dp) timeslot_index;
  Ok (schedule ++ [ {| course_id := req_course_id lecture_info;
                       teacher_id := req_teacher_id lecture_info;
                       room_id := room;
                       timeslot := slot |} ]).

Definition decode_solution (self : SchedulerGA) (solution : list Q)
  : Py.result (list Lecture) :=
  for_each (decode_step self solution) [] (seq 0 (num_lectures self)).

(** The state of the scan of [_calculate_penalty]. *)
Record PenaltyState : Type := mkPS {
  penalty : Z;
  teacher_bookings : gmap (string * string) Z;
  room_bookings : gmap (string * string) Z
}.

(** [any(start <= time < end for start, end in windows)] *)
Definition within_any (time : string) (windows : list (string * string))
  : bool :=
  existsb (fun w => String.leb (fst w) time && String.ltb time (snd w)) windows.

(** The body of the loop of [_calculate_penalty]. *)
Definition penalty_step
    (prefs : gmap (string * string) (list (string * string)))
    (st : PenaltyState) (lecture : Lecture) : Py.result PenaltyState :=
  (* Teacher Conflict *)
  let teacher_key := (teacher_id lecture, timeslot lecture) in
  let st :=
    match teacher_bookings st !! teacher_key with
    | Some _ => mkPS (penalty st + 1000) (teacher_bookings st) (room_bookings st)
    | None => mkPS (penalty st) (<[teacher_key := 1]> (teacher_bookings st))
                   (room_bookings st)
    end in
  (* Room Conflict *)
  let room_key := (room_id lecture, timeslot lecture) in
  let st :=
    match room_bookings st !! room_key with
    | Some _ => mkPS (penalty st + 1000) (teacher_bookings st) (room_bookings st)
    | None => mkPS (penalty st) (teacher_bookings st)
                   (<[room_key := 1]> (room_bookings st))
    end in
  (* Teacher Availability *)
  match Py.split "_" (timeslot lecture) with
  | [day; time] =>
      let pref_key := (teacher_id lecture, day) in
      match prefs !! pref_key with
      | Some windows =>
          let is_within_preference := within_any time windows in
          if negb is_within_preference
          then Ok (mkPS (penalty st + 500) (teacher_bookings st) (room_bookings st))
          else Ok st
      | None =>
          Ok (mkPS (penalty st + 500) (teacher_bookings st) (room_bookings st))
      end
  | [_] => Raise (Py.ValueError "not enough values to unpack")
  | _ => Raise (Py.ValueError "too many values to unpack")
  end.

Definition calculate_penalty (self : SchedulerGA) (schedule : list Lecture)
  : Py.result Z :=
  st ← for_each (penalty_step (teacher_pref_dict (data_preparer self)))
                (mkPS 0 ∅ ∅) schedule;
  Ok (penalty st).

Definition fitness_function (self : SchedulerGA) (solution : list Q)
  : Py.result Q :=
  schedule ← decode_solution self solution;
  penalty ← calculate_penalty self schedule;
  Ok (fitness_of_penalty penalty).

End Institution.

(** ** student_scheduler_ga.py *)

Module Student.

(** A row of the master schedule, as [lecture.to_dict()] keeps it. *)
Record Offering : Type := mkOffering {
  course_id : string;
  teacher_id : string;
  room_id : string;
  timeslot : string;
  Day : string
}.

Record RegistrationRow : Type := mkReg {
  reg_student_id : string;
  reg_course_id : string
}.

(** The records the code hands to [logging.warning]. *)
Inductive LogRecord : Type :=
| Warning (msg : string).

(** *** StudentData *)

Record StudentData : Type := mkStudentData {
  student_id : string;
  master_schedule : list Offering;
  registrations : list RegistrationRow;
  lecture_groups : gmap string (list Offering);
  student_courses : list string
}.

(** [groups[key]] on a [defaultdict(list)]: a missing key is created with
    the empty list before it is read. *)
Definition touch (groups : gmap string (list Offering)) (key : string)
  : gmap string (list Offering) :=
  match groups !! key with
  | Some _ => groups
  | None => <[key := []]> groups
  end.

Definition get (groups : gmap string (list Offering)) (key : string)
  : list Offering :=
  default [] (groups !! key).

(** The body of the loop over the master schedule. *)
Definition group_lecture (student_courses : list string)
    (groups : gmap string (list Offering)) (lecture : Offering)
  : gmap string (list Offering) :=
  if bool_decide (course_id lecture ∈ student_courses)
  then alter (fun l => l ++ [lecture]) (course_id lecture)
             (touch groups (course_id lecture))
  else groups.

(** The body of the loop that checks every registered course. *)
Definition check_course
    (st : gmap string (list Offering) * list LogRecord) (course : string)
  : gmap string (list Offering) * list LogRecord :=
  let groups := touch (fst st) course in
  match get groups course with
  | [] => (groups,
           snd st ++ [Warning ("No lectures found in master_schedule for registered course: " +:+ course)])
  | _ :: _ => (groups, snd st)
  end.

(** [StudentData.__init__], which runs [_prepare_student_data]; the second
    component is what was logged at warning level. *)
Definition prepare_student_data (student_id : string)
    (master_schedule_df : list Offering) (registrations_df : list RegistrationRow)
  : Py.result StudentData * list LogRecord :=
  let student_regs :=
    filter (fun r => reg_student_id r = student_id) registrations_df in
  match student_regs with
  | [] => (Raise (Py.ValueError ("No registration data found for student_id: " +:+ student_id)), [])
  | _ :: _ =>
      let student_courses := reg_course_id <$> student_regs in
      let groups := foldl (group_lecture student_courses) ∅ master_schedule_df in
      let '(groups, log) := foldl check_course (groups, []) student_courses in
      (Ok {| student_id := student_id;
             master_schedule := master_schedule_df;
             registrations := registrations_df;
             lecture_groups := groups;
             student_courses := student_courses |}, log)
  end.

(** *** StudentSchedulerGA *)

Record StudentSchedulerGA : Type := mkStudentSchedulerGA {
  student_data : StudentData;
  ga_params : GAParams;
  num_genes : nat;
  gene_space : list GeneBound
}.

(** The body of the loop that builds [gene_space]. *)
Definition add_gene (groups : gmap string (list Offering))
    (gene_space : list GeneBound) (course_id : string)
  : Py.result (list GeneBound) :=
  let num_available_lectures := Z.of_nat (length (get groups course_id)) in
  if num_available_lectures =? 0
  then Raise (Py.ValueError ("Course " +:+ course_id +:+ " has no available lectures in the master schedule."))
  else Ok (gene_space ++ [mkBound 0 num_available_lectures]).

(** [StudentSchedulerGA.__init__], lines 50-65: [Ok] is the state in which
    line 67 calls [_create_ga_instance], [Raise] the exception of the
    gene-space loop.  The call of line 67 hands the parameters to [pygad.GA],
    which is not part of the sources and can reject them; it is not part of
    this definition (see [Construction.StudentSchedulerGA_new]). *)
Definition StudentSchedulerGA_init (sd : StudentData) (params : GAParams)
  : Py.result StudentSchedulerGA :=
  gs ← for_each (add_gene (lecture_groups sd)) [] (student_courses sd);
  Ok {| student_data := sd;
        ga_params := params;
        num_genes := length (student_courses sd);
        gene_space := gs |}.

(** The body of the loop of [_decode_solution]. *)
Definition decode_step (self : StudentSchedulerGA) (solution : list Q)
    (student_schedule : list Offering) (ic : nat * string)
  : Py.result (list Offering) :=
  let '(i, course_id) := ic in
  gene ← Py.at_pos solution i;
  let chosen_lecture_index := Py.int gene in
  selected_lecture ←
    Py.index (get (lecture_groups (student_data self)) course_id)
             chosen_lecture_index;
  Ok (student_schedule ++ [selected_lecture]).

(** [enumerate(l)] *)
Definition enumerate {A} (l : list A) : list (nat * A) :=
  imap (fun i x => (i, x)) l.

Definition decode_solution (self : StudentSchedulerGA) (solution : list Q)
  : Py.result (list Offering) :=
  for_each (decode_step self solution) []
           (enumerate (student_courses (student_data self))).

(** The body of the time-conflict loop of [_fitness_function]. *)
Definition conflict_step (st : Z * gset string) (lecture : Offering)
  : Z * gset string :=
  let '(penalty, booked_timeslots) := st in
  if bool_decide (timeslot lecture ∈ booked_timeslots)
  then (penalty + 1000, booked_timeslots)
  else (penalty, {[timeslot lecture]} ∪ booked_timeslots).

(** The value of [penalty] when [_fitness_function] reaches its last
    statement. *)
Definition schedule_penalty (proposed_schedule : list Offering) : Z :=
  let penalty := fst (foldl conflict_step (0, ∅) proposed_schedule) in
  let study_days : gset string := list_to_set (Day <$> proposed_schedule) in
  penalty + Z.of_nat (size study_days) * 10.

Definition fitness_function (self : StudentSchedulerGA) (solution : list Q)
  : Py.result Q :=
  proposed_schedule ← decode_solution self solution;
  Ok (fitness_of_penalty (schedule_penalty proposed_schedule)).

(** Building the data and then running [StudentSchedulerGA.__init__] up to
    its line 67, where the engine is requested. *)
Definition construct (student_id : string) (master_schedule_df : list Offering)
    (registrations_df : list RegistrationRow) (params : GAParams)
  : Py.result StudentSchedulerGA * list LogRecord :=
  let '(r, log) := prepare_student_data student_id master_schedule_df registrations_df in
  (sd ← r; StudentSchedulerGA_init sd params, log).

End Student.

(** ** Reference definitions used to state the properties *)

(** Clock times written as zero-padded [HH:MM]. *)
Module Clock.

Definition is_digit (c : ascii) : bool :=
  (48 <=? N_of_ascii c)%N && (N_of_ascii c <=? 57)%N.

Definition digit (c : ascii) : Z := Z.of_N (N_of_ascii c) - 48.

(** Hour and minute of a five-character [HH:MM] string. *)
Definition parse (s : string) : option (Z * Z) :=
  match s with
  | String h1 (String h0 (String sep (String m1 (String m0 EmptyString)))) =>
      if is_digit h1 && is_digit h0 && Ascii.eqb sep ":"
         && is_digit m1 && is_digit m0
      then Some (10 * digit h1 + digit h0, 10 * digit m1 + digit m0)
      else None
  | _ => None
  end.

(** A time of day: hour below 24, minute below 60. *)
Definition valid (s : string) : bool :=
  match parse s with
  | Some (h, m) => (h <? 24) && (m <? 60)
  | None => false
  end.

(** Minutes since midnight; 0 for a string that is no [HH:MM]. *)
Definition minutes (s : string) : Z :=
  match parse s with
  | Some (h, m) => 60 * h + m
  | None => 0
  end.

(** The availability test on times of day as numbers. *)
Definition within_numeric (start time end_ : string) : bool :=
  (minutes start <=? minutes time) && (minutes time <? minutes end_).

(** The availability test as the code writes it, on strings. *)
Definition within_lexicographic (start time end_ : string) : bool :=
  String.leb start time && String.ltb time end_.

End Clock.

(** ** Sample instances *)

Module Sample.

Definition params : GAParams :=
  {| generations := 50; parents_mating := 4; sol_per_pop := 10;
     mutation_percent := 10 # 1 |}.

(** One teacher, one course with two lectures a week, one room. *)
Definition courses : list Institution.CourseRow :=
  [Institution.mkCourse "CS101" 2].
Definition classrooms : list string := ["R1"].
Definition teacher_courses : list Institution.TeacherCourseRow :=
  [Institution.mkTC "T1" "CS101"].
Definition teacher_preferences : list Institution.PreferenceRow :=
  [Institution.mkPref "T1" "Sunday" "08:00" "12:00";
   Institution.mkPref "T1" "Monday" "10:00" "16:00"].

(** A chromosome for the two lectures: room gene, timeslot gene, twice. *)
Definition solution : list Q := [0 # 1; 3 # 1; 1 # 2; 89 # 2].

(** The same two lectures placed inside the windows of the teacher. *)
Definition solution_feasible : list Q := [0 # 1; 0 # 1; 0 # 1; 11 # 1].

(** A student with two courses, the first offered twice. *)
Definition master_schedule : list Student.Offering :=
  [Student.mkOffering "CS101" "T1" "R1" "Sunday_08:00" "Sunday";
   Student.mkOffering "MA201" "T2" "R2" "Sunday_08:00" "Sunday";
   Student.mkOffering "CS101" "T1" "R1" "Monday_09:00" "Monday"].
Definition registrations : list Student.RegistrationRow :=
  [Student.mkReg "S1" "CS101"; Student.mkReg "S2" "CS101";
   Student.mkReg "S1" "MA201"].
Definition student_solution : list Q := [3 # 2; 0 # 1].

(** Two courses with one offering each, both at the same timeslot. *)
Definition master_overlap : list Student.Offering :=
  [Student.mkOffering "CS101" "T1" "R1" "Sunday_08:00" "Sunday";
   Student.mkOffering "MA201" "T2" "R2" "Sunday_08:00" "Sunday"].
Definition registrations_pair : list Student.RegistrationRow :=
  [Student.mkReg "S1" "CS101"; Student.mkReg "S1" "MA201"].
Definition pair_solution : list Q := [1 # 3; 0 # 1].

(** A student registered for a course the master schedule does not offer. *)
Definition registrations_unmatched : list Student.RegistrationRow :=
  [Student.mkReg "S1" "CS101"; Student.mkReg "S1" "PH301"].

End Sample.

(** ** Chromosomes within their gene space *)

(** Every gene lies in the half-open range its [low]/[high] entry declares,
    and there is one gene per entry. *)
Definition in_bounds (gene_space : list GeneBound) (solution : list Q) : Prop :=
  Forall2 (fun g b => (inject_Z (low b) <= g)%Q ∧ (g < inject_Z (high b))%Q)
          solution gene_space.

(** ** Reference notions for the institution scheduler *)

Module InstitutionSpec.
Import Institution.

(** The lecture that position [i] of a chromosome stands for. *)
Definition decodes_to (self : SchedulerGA) (solution : list Q) (i : nat)
    (l : Lecture) : Prop :=
  ∃ info room_gene timeslot_gene,
    lectures_to_schedule (data_preparer self) !! i = Some info
    ∧ solution !! (i * 2)%nat = Some room_gene
    ∧ solution !! (i * 2 + 1)%nat = Some timeslot_gene
    ∧ classrooms (data_preparer self) !! Z.to_nat (Py.int room_gene)
      = Some (room_id l)
    ∧ timeslots (data_preparer self) !! Z.to_nat (Py.int timeslot_gene)
      = Some (timeslot l)
    ∧ course_id l = req_course_id info
    ∧ teacher_id l = req_teacher_id info.

(** The requirement a row of [teacher_courses] asks for, how many times the
    course table asks for it, and the requirement a lecture fulfils. *)
Definition requirement_of (row : TeacherCourseRow) : LectureReq :=
  mkReq (tc_course_id row) (tc_teacher_id row).

Definition required_count (courses : list CourseRow) (row : TeacherCourseRow)
  : nat :=
  match lookup_lectures_per_week courses (tc_course_id row) with
  | Py.Ok n => Z.to_nat n
  | Py.Raise _ => 0%nat
  end.

Definition expected_requirements (courses : list CourseRow)
    (teacher_courses : list TeacherCourseRow) : list LectureReq :=
  row ← teacher_courses; replicate (required_count courses row) (requirement_of row).

Definition fulfils (l : Lecture) : LectureReq :=
  mkReq (course_id l) (teacher_id l).

(** How many lectures of a schedule fulfil a requirement. *)
Definition lectures_for (q : LectureReq) (schedule : list Lecture) : nat :=
  length (filter (fun l => fulfils l = q) schedule).

(** Day and start time named by a slot [Day_HH:MM]. *)
Definition slot_day (slot : string) : string :=
  nth 0 (Py.split "_" slot) "".

Definition slot_time (slot : string) : string :=
  nth 1 (Py.split "_" slot) "".

(** The slot of the lecture has exactly one underscore. *)
Definition well_slotted (l : Lecture) : Prop :=
  ∃ day time, Py.split "_" (timeslot l) = [day; time].

(** Some earlier lecture already holds this teacher at this timeslot. *)
Definition teacher_taken (earlier : list Lecture) (l : Lecture) : bool :=
  bool_decide (Exists (fun e => teacher_id e = teacher_id l
                                ∧ timeslot e = timeslot l) earlier).

(** Some earlier lecture already holds this room at this timeslot. *)
Definition room_taken (earlier : list Lecture) (l : Lecture) : bool :=
  bool_decide (Exists (fun e => room_id e = room_id l
                                ∧ timeslot e = timeslot l) earlier).

(** The start time lies in the half-open window [[start, end)]. *)
Definition in_window (time : string) (w : string * string) : bool :=
  String.leb (fst w) time && String.ltb time (snd w).

(** 500 when the teacher has no window for the day of the lecture, 500 when
    there are windows and the start time is in none of them, else 0. *)
Definition availability_charge
    (prefs : gmap (string * string) (list (string * string))) (l : Lecture) : Z :=
  match prefs !! (teacher_id l, slot_day (timeslot l)) with
  | None => 500
  | Some windows =>
      if bool_decide (Exists (fun w => in_window (slot_time (timeslot l)) w = true)
                             windows)
      then 0 else 500
  end.

(** What one lecture adds, given the lectures scanned before it. *)
Definition charge (prefs : gmap (string * string) (list (string * string)))
    (earlier : list Lecture) (l : Lecture) : Z :=
  (if teacher_taken earlier l then 1000 else 0)
  + (if room_taken earlier l then 1000 else 0)
  + availability_charge prefs l.

(** The sum of the charges of the lectures of [rest], scanned in order
    after the lectures of [earlier]. *)
Fixpoint charges (prefs : gmap (string * string) (list (string * string)))
    (earlier rest : list Lecture) : Z :=
  match rest with
  | [] => 0
  | l :: rest' => charge prefs earlier l + charges prefs (earlier ++ [l]) rest'
  end.

(** The two dictionaries of the scan hold exactly the keys of the lectures
    scanned so far. *)
Definition tracks (earlier : list Lecture) (st : PenaltyState) : Prop :=
  (∀ k, is_Some (teacher_bookings st !! k)
        ↔ ∃ e, e ∈ earlier ∧ k = (teacher_id e, timeslot e))
  ∧ (∀ k, is_Some (room_bookings st !! k)
          ↔ ∃ e, e ∈ earlier ∧ k = (room_id e, timeslot e)).

(** Two lectures of the schedule share a teacher and a timeslot. *)
Definition teacher_clash (schedule : list Lecture) : Prop :=
  ∃ i j a b, i ≠ j ∧ schedule !! i = Some a ∧ schedule !! j = Some b
             ∧ teacher_id a = teacher_id b ∧ timeslot a = timeslot b.

(** Two lectures of the schedule share a room and a timeslot. *)
Definition room_clash (schedule : list Lecture) : Prop :=
  ∃ i j a b, i ≠ j ∧ schedule !! i = Some a ∧ schedule !! j = Some b
             ∧ room_id a = room_id b ∧ timeslot a = timeslot b.

(** The teacher has windows declared for the day of the lecture and the
    start time of the lecture falls within one of them. *)
Definition within_preference
    (prefs : gmap (string * string) (list (string * string))) (l : Lecture)
  : Prop :=
  ∃ windows start end_,
    prefs !! (teacher_id l, slot_day (timeslot l)) = Some windows
    ∧ (start, end_) ∈ windows
    ∧ String.leb start (slot_time (timeslot l)) = true
    ∧ String.ltb (slot_time (timeslot l)) end_ = true.

End InstitutionSpec.

(** ** Reference notions for the student scheduler *)

Module StudentSpec.
Import Student.

(** How many lectures of [rest], scanned in order after [earlier], fall on
    a timeslot that an earlier lecture already has. *)
Fixpoint repeats (earlier rest : list Offering) : nat :=
  match rest with
  | [] => 0
  | l :: rest' =>
      (if bool_decide (timeslot l ∈ timeslot <$> earlier) then 1 else 0)
      + repeats (earlier ++ [l]) rest'
  end.

(** The number of distinct days on which the schedule has a lecture. *)
Definition distinct_days (schedule : list Offering) : nat :=
  length (remove_dups (Day <$> schedule)).

(** Some registered course has no offering in the prepared groups. *)
Definition unmatched (sd : StudentData) (course : string) : Prop :=
  course ∈ student_courses sd ∧ get (lecture_groups sd) course = [].

End StudentSpec.

Module Registration.
Import Student.

(** The text of the warning for a course. *)
Definition warning_for (course : string) : LogRecord :=
  Warning ("No lectures found in master_schedule for registered course: " +:+ course).

(** The text of the exception for a course. *)
Definition no_lectures_error (course : string) : Py.exn :=
  Py.ValueError ("Course " +:+ course +:+ " has no available lectures in the master schedule.").

(** The student is registered for the course and the master schedule has
    no offering of it. *)
Definition registered_unoffered (student_id : string)
    (master_schedule_df : list Offering)
    (registrations_df : list RegistrationRow) (course : string) : Prop :=
  mkReg student_id course ∈ registrations_df
  ∧ ∀ o, o ∈ master_schedule_df → course_id o ≠ course.

(** The statement that such a registration is only warned about: the
    warning is logged and a scheduler is built all the same. *)
Definition proceeds_with_warning (student_id : string)
    (master_schedule_df : list Offering)
    (registrations_df : list RegistrationRow) (params : GAParams)
    (course : string) : Prop :=
  ∃ self log,
    construct student_id master_schedule_df registrations_df params
    = (Py.Ok self, log)
    ∧ warning_for course ∈ log.

End Registration.

(** ** The evolution engine *)

(** Both schedulers hand the generational loop to [pygad.GA], configured in
    [_create_ga_instance] with steady-state selection, single-point
    crossover and random mutation; the library is not part of the
    repository sources.  The engine below follows section 4.3 of the
    specification.  Its random choices are an explicit argument: one list of
    draws per generation. *)
Module Engine.

Section WithProblem.

Variable fitness : list Q → Q.
Variable gene_space : list GeneBound.
Variable num_parents_mating : nat.
Variable sol_per_pop : nat.

(** Modelled from the spec: the ranking of [pygad.GA]'s selection step,
    "rank individuals by fitness descending". *)
Definition fitter (a b : list Q) : Prop := (fitness b <= fitness a)%Q.

#[local] Instance fitter_dec a b : Decision (fitter a b).
Proof.
  unfold fitter. destruct (Qlt_le_dec (fitness a) (fitness b)) as [Hlt|Hle].
  - right. by apply Qlt_not_le.
  - by left.
Defined.

(** Modelled from the spec: one insertion of the ranking, "ties broken by
    population order": the newcomer goes behind every individual that is at
    least as fit. *)
Fixpoint insert_ranked (x : list Q) (ranked : list (list Q))
  : list (list Q) :=
  match ranked with
  | [] => [x]
  | y :: ranked' =>
      if decide (fitter y x) then y :: insert_ranked x ranked'
      else x :: y :: ranked'
  end.

(** Modelled from the spec: the ranking of the population, "rank individuals
    by fitness descending", the individuals taken in population order. *)
Definition rank (population : list (list Q)) : list (list Q) :=
  foldl (λ ranked x, insert_ranked x ranked) [] population.

(** Modelled from the spec: the steady-state selection of [pygad.GA],
    "select the top [num_parents_mating] as the mating pool (deterministic
    given the population; ties broken by population order)". *)
Definition select (population : list (list Q)) : list (list Q) :=
  take num_parents_mating (rank population).

(** Modelled from the spec: the single-point crossover of [pygad.GA],
    "offspring takes parent-A genes before the index and parent-B genes
    from the index onward". *)
Definition crossover (a b : list Q) (point : nat) : list Q :=
  take point a ++ drop point b.

(** Modelled from the spec: the draw of [pygad.GA]'s random mutation, "a
    new uniformly drawn value within its own declared bound", from a uniform
    [u] of [[0, 1)]. *)
Definition redraw (b : GeneBound) (u : Q) : Q :=
  (inject_Z (low b) + u * (inject_Z (high b) - inject_Z (low b)))%Q.

(** Modelled from the spec: the random mutation of [pygad.GA], "a mutated
    gene is replaced by a new uniformly drawn value".  [changes] holds, per
    gene, the draw that replaces it if the gene is mutated. *)
Definition mutate (c : list Q) (changes : list (option Q)) : list Q :=
  imap (fun i g =>
          match gene_space !! i, changes !! i with
          | Some b, Some (Some u) => redraw b u
          | _, _ => g
          end) c.

(** Modelled from the spec: the random choices [pygad.GA] makes for one
    offspring: the two parents in the mating pool, the crossover index and
    the mutations. *)
Record OffspringDraw : Type := mkDraw {
  parent_a : nat;
  parent_b : nat;
  point : nat;
  changes : list (option Q)
}.

(** Modelled from the spec: steps 2 and 3 of a generation of [pygad.GA]
    for one offspring, crossover then mutation. *)
Definition make_offspring (parents : list (list Q)) (d : OffspringDraw)
  : option (list Q) :=
  a ← parents !! (parent_a d `mod` length parents)%nat;
  b ← parents !! (parent_b d `mod` length parents)%nat;
  Some (mutate (crossover a b (point d)) (changes d)).

(** Modelled from the spec: the comparison behind "the single best
    chromosome ever observed (by fitness)" of [pygad.GA]; the first of the
    two on a tie. *)
Definition better (a b : list Q) : list Q :=
  if Qlt_le_dec (fitness a) (fitness b) then b else a.

(** Modelled from the spec: the state of a run of [pygad.GA]: the
    population, the best chromosome observed so far, and the progress events
    "(generation_index, best_fitness_so_far)" emitted so far. *)
Record EngineState : Type := mkEngine {
  population : list (list Q);
  best_ever : list Q;
  generations_completed : nat;
  events : list (nat * Q)
}.

(** Modelled from the spec: the "Initialization" of [pygad.GA], the
    initial population being drawn by the caller. *)
Definition initialize (first : list Q) (others : list (list Q)) : EngineState :=
  {| population := first :: others;
     best_ever := foldl better first others;
     generations_completed := 0;
     events := [] |}.

(** Modelled from the spec: "One generation step" of [pygad.GA.run], steps
    1 to 6: selection, offspring for the non-elite part of the population by
    crossover and mutation, evaluation, the best chromosome observed so far
    kept in the next population, and the progress event. *)
Definition step (st : EngineState) (draws : list OffspringDraw) : EngineState :=
  let parents := select (population st) in
  let offspring :=
    take (sol_per_pop - 1) (omap (make_offspring parents) draws) in
  let elite := foldl better (best_ever st) offspring in
  let generation := S (generations_completed st) in
  {| population := elite :: offspring;
     best_ever := elite;
     generations_completed := generation;
     events := events st ++ [(generation, fitness elite)] |}.

(** Modelled from the spec: the loop of [pygad.GA.run], one step per
    generation, each with its own draws. *)
Definition run (st : EngineState) (draws : list (list OffspringDraw))
  : EngineState :=
  foldl step st draws.

(** Modelled from the spec: the "best-fitness-so-far sequence" of
    [pygad.GA], the fitness of the progress events in order. *)
Definition reported (st : EngineState) : list Q := snd <$> events st.

(** The engine state keeps the best chromosome unbeaten by the population,
    the last reported fitness is its own, and the reported fitness never
    decreases. *)
Definition elitist (st : EngineState) : Prop :=
  (∀ c, c ∈ population st → (fitness c <= fitness (best_ever st))%Q)
  ∧ (∀ f, last (reported st) = Some f → f = fitness (best_ever st))
  ∧ ∀ n f g, reported st !! n = Some f → reported st !! S n = Some g →
             (f <= g)%Q.

End WithProblem.

End Engine.

(** ** A sample run of the engine on the sample student *)

Module SampleRun.

(** The fitness the student scheduler gives the engine; 0 stands for a
    chromosome on which the fitness function raises. *)
Definition student_fitness (solution : list Q) : Q :=
  match Student.construct "S1" Sample.master_schedule Sample.registrations
                          Sample.params with
  | (Py.Ok self, _) =>
      match Student.fitness_function self solution with
      | Py.Ok f => f
      | Py.Raise _ => 0
      end
  | (Py.Raise _, _) => 0
  end.

Definition gene_space : list GeneBound := [mkBound 0 2; mkBound 0 1].

Definition first : list Q := [0 # 1; 0 # 1].
Definition others : list (list Q) := [[1 # 2; 0 # 1]].

(** Two generations, two offspring each. *)
Definition draws : list (list Engine.OffspringDraw) :=
  [[Engine.mkDraw 0 1 1 [Some (3 # 4); None]; Engine.mkDraw 1 0 1 []];
   [Engine.mkDraw 0 1 1 [Some (1 # 4); None]; Engine.mkDraw 1 1 1 []]].

End SampleRun.

(** ** Counting the distinct keys of a schedule *)

Module Counting.
Import Institution InstitutionSpec.

(** The number of distinct elements of a list. *)
Definition distinct {A} `{EqDecision A} (l : list A) : nat :=
  length (remove_dups l).

(** The dictionary keys of the lectures of a schedule, in order. *)
Definition teacher_keys (schedule : list Lecture) : list (string * string) :=
  (fun l => (teacher_id l, timeslot l)) <$> schedule.

Definition room_keys (schedule : list Lecture) : list (string * string) :=
  (fun l => (room_id l, timeslot l)) <$> schedule.

#[global] Instance within_preference_dec prefs l :
  Decision (within_preference prefs l).
Proof.
  unfold within_preference.
  destruct (prefs !! (teacher_id l, slot_day (timeslot l))) as [windows|].
  - destruct (decide (Exists (fun w =>
                String.leb (fst w) (slot_time (timeslot l)) = true
                ∧ String.ltb (slot_time (timeslot l)) (snd w) = true) windows))
      as [Hex|Hno].
    + left. apply Exists_exists in Hex as ([s e] & Hin & Hs & He).
      by exists windows, s, e.
    + right. intros (ws & s & e & [= <-] & Hin & Hs & He).
      apply Hno, Exists_exists. by exists (s, e).
  - right. by intros (ws & s & e & ? & _).
Defined.

(** The number of lectures charged for availability: the teacher has no
    window for the day, or the start time is in none of the windows. *)
Definition outside_preference
    (prefs : gmap (string * string) (list (string * string)))
    (schedule : list Lecture) : nat :=
  length (filter (fun l => ¬ within_preference prefs l) schedule).

End Counting.

(** ** More sample instances *)

Module Sample2.

(** The schedule that [Sample.solution] decodes to, and a third lecture
    that takes the room of the first at the same time. *)
Definition schedule : list Institution.Lecture :=
  [Institution.mkLecture "CS101" "T1" "R1" "Sunday_11:00";
   Institution.mkLecture "CS101" "T1" "R1" "Thursday_16:00";
   Institution.mkLecture "MA201" "T2" "R1" "Sunday_11:00"].

(** A lecture whose slot has no underscore, after a regular one. *)
Definition schedule_bad_slot : list Institution.Lecture :=
  [Institution.mkLecture "CS101" "T1" "R1" "Sunday_11:00";
   Institution.mkLecture "CS101" "T1" "R1" "Sunday"].

(** A scheduler for the sample data. *)
Definition scheduler : Py.result Institution.SchedulerGA :=
  dp ← Institution.prepare_data Sample.courses Sample.classrooms
         Sample.teacher_courses Sample.teacher_preferences;
  Ok (Institution.SchedulerGA_init dp Sample.params).

(** One room and one course that needs 46 lectures a week. *)
Definition crowded_courses : list Institution.CourseRow :=
  [Institution.mkCourse "CS101" 46].
Definition crowded_solution : list Q := replicate 92 (0 # 1).

End Sample2.

(** ** Reference notions for the prepared data *)

Module Prepared.
Import Institution.

(** The windows that the preference table lists for a teacher and a day,
    in table order. *)
Definition windows_of (teacher_preferences : list PreferenceRow)
    (key : string * string) : list (string * string) :=
  (fun row => (preferred_start_time row, preferred_end_time row))
    <$> filter (fun row => (p_teacher_id row, p_day row) = key)
               teacher_preferences.

(** The ids of the course table. *)
Definition course_ids (courses : list CourseRow) : list string :=
  c_course_id <$> courses.

End Prepared.

(** ** Reference notions for decoding *)

Module Decoding.
Import Institution.

(** Python accepts the position [i] in a sequence of [n] elements. *)
Definition indexable (n : nat) (i : Z) : Prop :=
  - Z.of_nat n ≤ i < Z.of_nat n.

(** The chromosome has the two genes of every lecture, and each truncates
    to a position that Python accepts in the room list and the timeslot
    list. *)
Definition readable (self : SchedulerGA) (solution : list Q) : Prop :=
  ∀ i, (i < num_lectures self)%nat →
       ∃ room_gene timeslot_gene,
         solution !! (i * 2)%nat = Some room_gene
         ∧ solution !! (i * 2 + 1)%nat = Some timeslot_gene
         ∧ indexable (length (classrooms (data_preparer self)))
                     (Py.int room_gene)
         ∧ indexable (length (timeslots (data_preparer self)))
                     (Py.int timeslot_gene).

(** The same for the student scheduler: one gene per registered course,
    truncating to a position in the offerings of the course. *)
Definition student_readable (self : Student.StudentSchedulerGA)
    (solution : list Q) : Prop :=
  ∀ i course,
    Student.student_courses (Student.student_data self) !! i = Some course →
    ∃ gene,
      solution !! i = Some gene
      ∧ indexable (length (Student.get
                             (Student.lecture_groups (Student.student_data self))
                             course))
                  (Py.int gene).

End Decoding.

(** ** Reference notions for the student data *)

Module Registered.
Import Student.

(** The courses of the registration rows of a student, in row order. *)
Definition courses_of (student_id : string)
    (registrations_df : list RegistrationRow) : list string :=
  reg_course_id <$> filter (fun r => reg_student_id r = student_id)
                           registrations_df.

(** The offerings of a course in the master schedule, in row order. *)
Definition offerings_of (course : string) (master_schedule_df : list Offering)
  : list Offering :=
  filter (fun o => course_id o = course) master_schedule_df.

End Registered.

(** ** A timetable of two courses *)

Module Sample3.

Import Institution.

Definition courses : list CourseRow :=
  [ {| c_course_id := "CS101"; lectures_per_week := 2 |};
    {| c_course_id := "MA201"; lectures_per_week := 1 |} ].

Definition teacher_courses : list TeacherCourseRow :=
  [ {| tc_teacher_id := "T1"; tc_course_id := "CS101" |};
    {| tc_teacher_id := "T2"; tc_course_id := "MA201" |} ].

Definition lectures_per_week_of (course_id : string) : Z :=
  if decide (course_id = "CS101") then 2 else 1.

Definition solution : list Q :=
  [inject_Z 0; inject_Z 0; inject_Z 0; inject_Z 1; inject_Z 0; inject_Z 2].

End Sample3.

(** ** The whole constructor of the student scheduler *)

Module Construction.

Import Student.

Section WithEngine.

(** The engine object of [pygad], and [_create_ga_instance] (lines 115-131),
    which builds it from the scheduler's state or raises what [pygad.GA]
    raises.  The library is not part of the sources: both are arguments. *)
Context {GA : Type}.
Variable create_ga_instance : StudentSchedulerGA → Py.result GA.

(** [StudentSchedulerGA.__init__], lines 50-67: the gene-space loop, then
    [self.ga_instance = self._create_ga_instance()]. *)
Definition StudentSchedulerGA_new (sd : StudentData) (params : GAParams)
  : Py.result (StudentSchedulerGA * GA) :=
  self ← StudentSchedulerGA_init sd params;
  ga_instance ← create_ga_instance self;
  Ok (self, ga_instance).

(** [StudentData(...)] and then [StudentSchedulerGA(...)], as a caller
    does. *)
Definition construct_with (student_id : string)
    (master_schedule_df : list Offering)
    (registrations_df : list RegistrationRow) (params : GAParams)
  : Py.result (StudentSchedulerGA * GA) * list LogRecord :=
  let '(r, log) :=
    prepare_student_data student_id master_schedule_df registrations_df in
  (sd ← r; StudentSchedulerGA_new sd params, log).

End WithEngine.

(** An example of an engine constructor, to run [construct_with] on: it
    rejects parameters that ask for more mating parents than the population
    has individuals. *)
Definition check_population (self : StudentSchedulerGA) : Py.result unit :=
  if decide (sol_per_pop (ga_params self) < parents_mating (ga_params self))
  then Raise (Py.ValueError "parents_mating exceeds sol_per_pop")
  else Ok ().

(** Parameters that ask for twenty mating parents out of ten individuals. *)
Definition greedy_params : GAParams :=
  {| generations := 50; parents_mating := 20; sol_per_pop := 10;
     mutation_percent := 10 # 1 |}.

End Construction.

(** * Properties *)

Section TimeslotFacts.
Import Institution.

Lemma build_timeslots_eq :
  build_timeslots = d ← days; (fun h => slot_name d h) <$> hours.
Proof. reflexivity. Qed.

Lemma prepare_data_timeslots c r tc tp dp :
  prepare_data c r tc tp = Ok dp → timeslots dp = build_timeslots.
Proof.
  unfold prepare_data. destruct (for_each _ _ _); simpl; [|discriminate].
  intros [= <-]. reflexivity.
Qed.

End TimeslotFacts.

(** ** Zero-padded clock strings order like the times they denote *)

Section ClockFacts.
Import Clock.

Lemma valid_inv s :
  valid s = true →
  ∃ a b c d,
    s = String a (String b (String ":" (String c (String d EmptyString))))
    ∧ is_digit a = true ∧ is_digit b = true
    ∧ is_digit c = true ∧ is_digit d = true
    ∧ parse s = Some (10 * digit a + digit b, 10 * digit c + digit d)
    ∧ 10 * digit a + digit b < 24 ∧ 10 * digit c + digit d < 60.
Proof.
  unfold valid.
  destruct s as [|a [|b [|k [|c [|d [|? ?]]]]]]; simpl; try discriminate.
  destruct (is_digit a) eqn:Ha; simpl; [|discriminate].
  destruct (is_digit b) eqn:Hb; simpl; [|discriminate].
  destruct (Ascii.eqb k ":") eqn:Hk; simpl; [|discriminate].
  destruct (is_digit c) eqn:Hc; simpl; [|discriminate].
  destruct (is_digit d) eqn:Hd; simpl; [|discriminate].
  apply Ascii.eqb_eq in Hk. subst k.
  intros [H1 H2]%andb_prop. apply Z.ltb_lt in H1, H2.
  exists a, b, c, d. rewrite Ha, Hb, Hc, Hd. simpl. by repeat split.
Qed.

Lemma is_digit_range c :
  is_digit c = true → 0 ≤ digit c ≤ 9.
Proof.
  unfold is_digit, digit. intros [H1 H2]%andb_prop.
  apply N.leb_le in H1, H2. lia.
Qed.

Lemma digit_compare a b :
  Ascii.compare a b = (digit a ?= digit b).
Proof.
  unfold Ascii.compare, digit.
  rewrite <- (N2Z.inj_compare (N_of_ascii a) (N_of_ascii b)).
  destruct (Z.compare_spec (Z.of_N (N_of_ascii a)) (Z.of_N (N_of_ascii b)));
    symmetry;
    first [ apply Z.compare_eq_iff; lia
          | apply Z.compare_lt_iff; lia
          | apply Z.compare_gt_iff; lia ].
Qed.

(** Comparing two valid clock strings character by character gives the
    order of their minutes since midnight. *)
Lemma compare_minutes s t :
  valid s = true → valid t = true →
  String.compare s t = (minutes s ?= minutes t).
Proof.
  intros (a1 & a2 & a3 & a4 & -> & ?%is_digit_range & ?%is_digit_range
          & ?%is_digit_range & ?%is_digit_range & Hs & ? & ?)%valid_inv.
  intros (b1 & b2 & b3 & b4 & -> & ?%is_digit_range & ?%is_digit_range
          & ?%is_digit_range & ?%is_digit_range & Ht & ? & ?)%valid_inv.
  unfold minutes. rewrite Hs, Ht. cbn [String.compare].
  rewrite !digit_compare.
  change (digit ":" ?= digit ":") with Eq.
  destruct (Z.compare_spec (digit a1) (digit b1));
    destruct (Z.compare_spec (digit a2) (digit b2));
    destruct (Z.compare_spec (digit a3) (digit b3));
    destruct (Z.compare_spec (digit a4) (digit b4));
    symmetry;
    first [ apply Z.compare_eq_iff; lia
          | apply Z.compare_lt_iff; lia
          | apply Z.compare_gt_iff; lia ].
Qed.

Lemma within_lexicographic_numeric start time end_ :
  valid start = true → valid time = true → valid end_ = true →
  within_lexicographic start time end_ = within_numeric start time end_.
Proof.
  intros Hs Ht He. unfold within_lexicographic, within_numeric.
  unfold String.leb, String.ltb, Z.leb, Z.ltb.
  by rewrite !compare_minutes.
Qed.

End ClockFacts.

(** ** The timeslot universe *)

Section TimeslotUniverse.
Import Institution.

Lemma hours_eq : hours = [8; 9; 10; 11; 12; 13; 14; 15; 16].
Proof. reflexivity. Qed.

Ltac elem_cases H :=
  repeat (apply elem_of_cons in H as [->|H]); [..|by apply elem_of_nil in H].

(** Every generated slot is a weekday, an underscore, and a valid clock
    string with a two-digit hour between 8 and 16. *)
Lemma timeslot_shape slot :
  slot ∈ build_timeslots →
  ∃ day hour,
    day ∈ days ∧ 8 ≤ hour ≤ 16
    ∧ slot = slot_name day hour
    ∧ Py.split "_" slot = [day; Py.format_02d hour +:+ ":00"]
    ∧ String.length (Py.format_02d hour) = 2%nat
    ∧ Clock.parse (Py.format_02d hour +:+ ":00") = Some (hour, 0)
    ∧ Clock.valid (Py.format_02d hour +:+ ":00") = true.
Proof.
  rewrite build_timeslots_eq. intros (d & Hslot & Hd)%list_elem_of_bind.
  apply list_elem_of_fmap in Hslot as (h & -> & Hh).
  exists d, h. split; [done|].
  rewrite hours_eq in Hh. unfold days in Hd.
  elem_cases Hd; elem_cases Hh; (split; [lia|]); by vm_compute.
Qed.

(** C5: the institution's timeslot list is the cross-product of the 5
    weekdays with the 9 hours 8..16: 45 pairwise distinct slots, all slots of
    a day in increasing hour order before the slots of the next day. *)
Theorem timeslot_universe c r tc tp dp :
  prepare_data c r tc tp = Ok dp →
  length (timeslots dp) = 45%nat
  ∧ NoDup (timeslots dp)
  ∧ length days = 5%nat
  ∧ hours = [8; 9; 10; 11; 12; 13; 14; 15; 16]
  ∧ timeslots dp = (day ← days; (fun hour => slot_name day hour) <$> hours)
  ∧ ∀ (d h : nat) day,
      days !! d = Some day → (h < 9)%nat →
      timeslots dp !! (d * 9 + h)%nat
      = Some (day +:+ "_" +:+ Py.format_02d (8 + Z.of_nat h) +:+ ":00").
Proof.
  intros ->%prepare_data_timeslots.
  split; [reflexivity|]. split.
  { apply (bool_decide_unpack _). by vm_compute. }
  split; [reflexivity|]. split; [reflexivity|]. split; [reflexivity|].
  intros d h day Hd Hh.
  do 5 (destruct d as [|d]; [injection Hd as <-;
        do 9 (destruct h as [|h]; [reflexivity|]); lia|]).
  discriminate.
Qed.

Lemma timeslot_universe_witness :
  ∃ dp,
    prepare_data Sample.courses Sample.classrooms Sample.teacher_courses
                 Sample.teacher_preferences = Ok dp
    ∧ length (timeslots dp) = 45%nat
    ∧ timeslots dp !! 10%nat = Some "Monday_09:00".
Proof.
  eexists. split; [reflexivity|].
  destruct (timeslot_universe Sample.courses Sample.classrooms
              Sample.teacher_courses Sample.teacher_preferences _ eq_refl)
    as (Hlen & _ & _ & _ & _ & Hat).
  split; [exact Hlen|]. exact (Hat 1%nat 1%nat "Monday" eq_refl ltac:(lia)).
Defined.

(** C10: the time part of every generated slot is a zero-padded two-digit
    hour followed by [:00], and on such a time the code's string test
    [start <= time < end] agrees with the comparison of minutes since
    midnight, for windows whose endpoints are valid [HH:MM] strings. *)
Theorem padded_comparison_agrees slot windows :
  slot ∈ build_timeslots →
  Forall (fun w => Clock.valid (fst w) = true ∧ Clock.valid (snd w) = true)
         windows →
  ∃ day hour,
    let time := Py.format_02d hour +:+ ":00" in
    8 ≤ hour ≤ 16
    ∧ Py.split "_" slot = [day; time]
    ∧ String.length (Py.format_02d hour) = 2%nat
    ∧ Clock.minutes time = 60 * hour
    ∧ within_any time windows
      = existsb (fun w => Clock.within_numeric (fst w) time (snd w)) windows.
Proof.
  intros (day & hour & _ & Hh & _ & Hsplit & Hlen & Hparse & Hvalid)%timeslot_shape
         Hw.
  exists day, hour. cbn zeta. split; [done|]. split; [done|]. split; [done|].
  split. { unfold Clock.minutes. rewrite Hparse. lia. }
  induction Hw as [|[s e] ws [Hs He] _ IH]; [done|].
  cbn [within_any existsb fst snd] in *. rewrite <- IH. f_equal.
  by apply within_lexicographic_numeric.
Qed.

Lemma padded_comparison_agrees_witness :
  ∃ day hour,
    Py.split "_" "Tuesday_09:00" = [day; Py.format_02d hour +:+ ":00"]
    ∧ within_any (Py.format_02d hour +:+ ":00")
                 [("08:30", "09:00"); ("09:00", "10:15")]
      = existsb (fun w => Clock.within_numeric (fst w)
                            (Py.format_02d hour +:+ ":00") (snd w))
                [("08:30", "09:00"); ("09:00", "10:15")].
Proof.
  destruct (padded_comparison_agrees "Tuesday_09:00"
              [("08:30", "09:00"); ("09:00", "10:15")])
    as (day & hour & _ & Hsplit & _ & _ & Hsame).
  - apply (bool_decide_unpack _). by vm_compute.
  - repeat constructor.
  - exists day, hour. by split.
Defined.

End TimeslotUniverse.

(** ** Loops, indexing and truncation *)

Section PythonFacts.

Lemma bind_Ok_inv {A B} (m : Py.result A) (k : A → Py.result B) b :
  (x ← m; k x) = Ok b → ∃ a, m = Ok a ∧ k a = Ok b.
Proof. destruct m as [a|e]; [by exists a | discriminate]. Qed.

(** A loop whose body appends one element per item, and never raises on the
    items of [xs], returns the accumulator extended by one element each. *)
Lemma for_each_total {A B} (body : list B → A → Py.result (list B))
    (P : A → B → Prop) xs :
  (∀ x, x ∈ xs → ∃ y, P x y ∧ ∀ acc, body acc x = Ok (acc ++ [y])) →
  ∀ acc, ∃ ys, for_each body acc xs = Ok (acc ++ ys) ∧ Forall2 P xs ys.
Proof.
  induction xs as [|x xs IH]; intros Hbody acc.
  - exists []. by rewrite app_nil_r.
  - destruct (Hbody x) as (y & Hy & Hstep); [left|].
    destruct (IH (fun x' Hx' => Hbody x' (list_elem_of_further _ _ _ Hx'))
                 (acc ++ [y])) as (ys & Hrun & Hall).
    exists (y :: ys). cbn [for_each]. rewrite Hstep. cbn.
    rewrite Hrun, <- app_assoc. by split; [|constructor].
Qed.

(** Conversely, what a finished appending loop returned. *)
Lemma for_each_inv {A B} (body : list B → A → Py.result (list B))
    (P : A → B → Prop) xs :
  (∀ x acc r, x ∈ xs → body acc x = Ok r → ∃ y, r = acc ++ [y] ∧ P x y) →
  ∀ acc r, for_each body acc xs = Ok r →
           ∃ ys, r = acc ++ ys ∧ Forall2 P xs ys.
Proof.
  induction xs as [|x xs IH]; intros Hbody acc r Hrun.
  - injection Hrun as <-. exists []. by rewrite app_nil_r.
  - cbn [for_each] in Hrun. apply bind_Ok_inv in Hrun as (r1 & Hstep & Hrest).
    destruct (Hbody x acc r1) as (y & -> & Hy); [left|done|].
    destruct (IH (fun x' a' r' Hx' => Hbody x' a' r' (list_elem_of_further _ _ _ Hx'))
                 _ _ Hrest) as (ys & -> & Hall).
    exists (y :: ys). rewrite <- app_assoc. by split; [|constructor].
Qed.

Lemma index_in_range {A} (l : list A) i :
  0 ≤ i < Z.of_nat (length l) →
  ∃ x, Py.index l i = Ok x ∧ l !! Z.to_nat i = Some x.
Proof.
  intros [Hlo Hhi]. unfold Py.index. cbn zeta.
  rewrite (proj2 (Z.leb_le 0 i) Hlo). cbv iota.
  rewrite (proj2 (Z.leb_le 0 i) Hlo), (proj2 (Z.ltb_lt _ _) Hhi).
  cbn [andb].
  destruct (lookup_lt_is_Some_2 l (Z.to_nat i)) as [x Hx]; [lia|].
  exists x. rewrite Hx. by split.
Qed.

Lemma index_Ok_elem {A} (l : list A) i x :
  Py.index l i = Ok x → x ∈ l.
Proof.
  unfold Py.index. cbn zeta. destruct (_ && _); [|discriminate].
  destruct (l !! _) as [y|] eqn:Hy; [|discriminate].
  intros [= <-]. by eapply list_elem_of_lookup_2.
Qed.

Lemma at_pos_Some {A} (l : list A) i x :
  l !! i = Some x → Py.at_pos l i = Ok x.
Proof. unfold Py.at_pos. by intros ->. Qed.

(** Truncating a number of [[0, n)] gives an integer of [[0, n)]. *)
Lemma int_in_range (g : Q) (n : Z) :
  (inject_Z 0 <= g)%Q → (g < inject_Z n)%Q → 0 ≤ Py.int g < n.
Proof.
  destruct g as [p q]. unfold Qle, Qlt, Py.int. cbn. intros Hlo Hhi.
  rewrite Z.quot_div_nonneg by lia. split.
  - apply Z.div_pos; lia.
  - apply Z.div_lt_upper_bound; lia.
Qed.

End PythonFacts.

(** ** Decoding an institution chromosome *)

Section InstitutionDecode.
Import Institution InstitutionSpec.

Lemma iter_pairs {A} (a b : A) n :
  let gs := Nat.iter n (fun gs => (gs ++ [a]) ++ [b]) [] in
  length gs = (n * 2)%nat
  ∧ ∀ i, (i < n)%nat → gs !! (i * 2)%nat = Some a ∧ gs !! (i * 2 + 1)%nat = Some b.
Proof.
  induction n as [|n [IHlen IH]]; cbn zeta.
  - split; [done|]. intros i Hi. lia.
  - cbn zeta in IHlen, IH. rewrite Nat.iter_succ.
    set (gs := Nat.iter n _ []) in *.
    rewrite <- (app_assoc gs [a] [b]). cbn [app]. split.
    { rewrite length_app. cbn. lia. }
    intros i Hi. destruct (decide (i < n)%nat) as [Hlt|Hge].
    + destruct (IH i Hlt) as [Ha Hb].
      rewrite !lookup_app_l by lia. done.
    + assert (i = n) as -> by lia.
      rewrite !lookup_app_r by lia.
      replace (n * 2 - length gs)%nat with 0%nat by lia.
      replace (n * 2 + 1 - length gs)%nat with 1%nat by lia. done.
Qed.

Lemma decode_step_in_bounds dp params solution i :
  in_bounds (gene_space (SchedulerGA_init dp params)) solution →
  (i < length (lectures_to_schedule dp))%nat →
  ∃ l, decodes_to (SchedulerGA_init dp params) solution i l
       ∧ ∀ acc, decode_step (SchedulerGA_init dp params) solution acc i
                = Ok (acc ++ [l]).
Proof.
  intros Hb Hi. unfold in_bounds in Hb. cbn [gene_space SchedulerGA_init] in Hb.
  destruct (iter_pairs (mkBound 0 (Z.of_nat (length (classrooms dp))))
              (mkBound 0 (Z.of_nat (length (timeslots dp))))
              (length (lectures_to_schedule dp))) as [_ Hgs].
  destruct (Hgs i Hi) as [Hroom Hslot].
  destruct (Forall2_lookup_r _ _ _ _ _ Hb Hroom) as (g1 & Hg1 & Hlo1 & Hhi1).
  destruct (Forall2_lookup_r _ _ _ _ _ Hb Hslot) as (g2 & Hg2 & Hlo2 & Hhi2).
  cbn [low high] in *.
  destruct (index_in_range (classrooms dp) (Py.int g1)) as (room & Hr & Hr');
    [by apply int_in_range|].
  destruct (index_in_range (timeslots dp) (Py.int g2)) as (slot & Hs & Hs');
    [by apply int_in_range|].
  destruct (lookup_lt_is_Some_2 (lectures_to_schedule dp) i Hi) as [info Hinfo].
  exists (mkLecture (req_course_id info) (req_teacher_id info) room slot).
  split.
  - exists info, g1, g2. by cbn.
  - intros acc. unfold decode_step. cbn [data_preparer SchedulerGA_init].
    rewrite (at_pos_Some _ _ _ Hinfo). cbn.
    rewrite (at_pos_Some _ _ _ Hg1). cbn.
    rewrite (at_pos_Some _ _ _ Hg2). cbn.
    rewrite Hr. cbn. rewrite Hs. done.
Qed.

(** Whatever a finished decoding returned, each lecture carries the
    requirement of its position and a slot of the timeslot list. *)
Lemma decode_solution_inv self solution schedule :
  decode_solution self solution = Ok schedule →
  Forall2 (fun i l =>
             (∃ info, lectures_to_schedule (data_preparer self) !! i = Some info
                      ∧ course_id l = req_course_id info
                      ∧ teacher_id l = req_teacher_id info)
             ∧ room_id l ∈ classrooms (data_preparer self)
             ∧ timeslot l ∈ timeslots (data_preparer self))
          (seq 0 (num_lectures self)) schedule.
Proof.
  intros Hrun. unfold decode_solution in Hrun.
  eapply for_each_inv in Hrun as (ys & -> & Hall); [exact Hall|].
  intros i acc r _ Hstep. unfold decode_step in Hstep.
  apply bind_Ok_inv in Hstep as (info & Hinfo & Hstep).
  apply bind_Ok_inv in Hstep as (g1 & _ & Hstep).
  apply bind_Ok_inv in Hstep as (g2 & _ & Hstep).
  apply bind_Ok_inv in Hstep as (room & Hroom & Hstep).
  apply bind_Ok_inv in Hstep as (slot & Hslot & Hstep).
  injection Hstep as <-. eexists. split; [done|]. cbn.
  unfold Py.at_pos in Hinfo. destruct (_ !! i) as [info'|] eqn:E; [|done].
  injection Hinfo as ->. split; [by exists info|].
  split; by eapply index_Ok_elem.
Qed.

End InstitutionDecode.

(** ** Every requirement is encoded exactly once *)

Section Requirements.
Import Institution InstitutionSpec.

Lemma iter_snoc {A} (x : A) n l :
  Nat.iter n (fun acc => acc ++ [x]) l = l ++ replicate n x.
Proof.
  induction n as [|n IH].
  - by rewrite app_nil_r.
  - rewrite Nat.iter_succ, IH, <- app_assoc. f_equal.
    clear. induction n as [|n IH]; [done|]. cbn in *. by rewrite IH.
Qed.

Lemma add_lectures_loop courses tc :
  ∀ acc r,
    for_each (add_lectures courses) acc tc = Ok r →
    r = acc ++ expected_requirements courses tc
    ∧ Forall (fun row => ∃ n, lookup_lectures_per_week courses (tc_course_id row)
                              = Ok n) tc.
Proof.
  induction tc as [|row tc IH]; intros acc r Hrun.
  - injection Hrun as <-. split; [by rewrite app_nil_r | constructor].
  - cbn [for_each] in Hrun. apply bind_Ok_inv in Hrun as (r1 & Hstep & Hrest).
    unfold add_lectures in Hstep.
    apply bind_Ok_inv in Hstep as (n & Hn & Hstep). injection Hstep as <-.
    apply IH in Hrest as [-> Hall]. split; [|constructor; eauto].
    rewrite iter_snoc, <- app_assoc. f_equal.
    unfold expected_requirements. rewrite bind_cons. f_equal.
    unfold required_count, requirement_of, Py.range_len. by rewrite Hn.
Qed.

Lemma prepare_data_lectures c r tc tp dp :
  prepare_data c r tc tp = Ok dp →
  lectures_to_schedule dp = expected_requirements c tc
  ∧ Forall (fun row => ∃ n, lookup_lectures_per_week c (tc_course_id row) = Ok n)
           tc.
Proof.
  unfold prepare_data. intros (ls & Hls & Hdp)%bind_Ok_inv.
  injection Hdp as <-. cbn. by apply add_lectures_loop in Hls.
Qed.

Lemma requirement_of_inj row row' :
  requirement_of row = requirement_of row' → row = row'.
Proof. destruct row, row'. unfold requirement_of. cbn. congruence. Qed.

Lemma filter_replicate_eq {A} `{EqDecision A} (q x : A) n :
  filter (fun y => y = q) (replicate n x)
  = if decide (x = q) then replicate n x else [].
Proof.
  induction n as [|n IH]; [by destruct (decide _)|].
  cbn [replicate]. rewrite filter_cons, IH.
  by destruct (decide (x = q)).
Qed.

Lemma count_absent courses tc row :
  row ∉ tc →
  filter (fun q => q = requirement_of row) (expected_requirements courses tc) = [].
Proof.
  induction tc as [|row' tc IH]; [done|].
  intros [Hne Hnot]%not_elem_of_cons.
  unfold expected_requirements in *. rewrite bind_cons, filter_app, IH by done.
  rewrite filter_replicate_eq. destruct (decide _) as [Heq|]; [|done].
  by apply requirement_of_inj in Heq.
Qed.

Lemma count_present courses tc row :
  NoDup tc → row ∈ tc →
  length (filter (fun q => q = requirement_of row)
                 (expected_requirements courses tc))
  = required_count courses row.
Proof.
  induction tc as [|row' tc IH]; intros Hnd Hin; [by apply elem_of_nil in Hin|].
  apply NoDup_cons in Hnd as [Hfresh Hnd].
  unfold expected_requirements in *. rewrite bind_cons, filter_app, length_app.
  rewrite filter_replicate_eq.
  destruct (decide (requirement_of row' = requirement_of row)) as [Heq|Hne].
  - apply requirement_of_inj in Heq as ->.
    fold (expected_requirements courses tc). rewrite count_absent by done.
    rewrite length_replicate. cbn. lia.
  - apply elem_of_cons in Hin as [->|Hin]; [done|].
    rewrite IH by done. done.
Qed.

Lemma lectures_for_fmap q schedule :
  lectures_for q schedule
  = length (filter (fun q' => q' = q) (fulfils <$> schedule)).
Proof.
  unfold lectures_for. induction schedule as [|l ls IH]; [done|].
  rewrite fmap_cons, !filter_cons.
  destruct (decide (fulfils l = q)); cbn; by rewrite IH.
Qed.

End Requirements.

(** ** Decoding a student chromosome *)

Section StudentDecode.
Import Student.

Lemma add_gene_loop groups courses gs :
  for_each (add_gene groups) [] courses = Ok gs →
  Forall2 (fun course b =>
             b = mkBound 0 (Z.of_nat (length (get groups course)))
             ∧ get groups course ≠ [])
          courses gs.
Proof.
  intros Hrun.
  eapply for_each_inv in Hrun as (ys & -> & Hall); [exact Hall|].
  intros course acc r _ Hstep. unfold add_gene in Hstep.
  destruct (Z.eqb_spec (Z.of_nat (length (get groups course))) 0) as [|Hne];
    [discriminate|].
  injection Hstep as <-. eexists. split; [done|]. split; [done|].
  intros Hnil. by rewrite Hnil in Hne.
Qed.

Lemma student_init_inv sd params self :
  StudentSchedulerGA_init sd params = Ok self →
  student_data self = sd
  ∧ num_genes self = length (student_courses sd)
  ∧ Forall2 (fun course b =>
               b = mkBound 0 (Z.of_nat (length (get (lecture_groups sd) course)))
               ∧ get (lecture_groups sd) course ≠ [])
            (student_courses sd) (gene_space self).
Proof.
  unfold StudentSchedulerGA_init. intros (gs & Hgs & Hself)%bind_Ok_inv.
  injection Hself as <-. cbn. by apply add_gene_loop in Hgs.
Qed.

Lemma student_decode_step_in_bounds sd params self solution i course :
  StudentSchedulerGA_init sd params = Ok self →
  in_bounds (gene_space self) solution →
  student_courses sd !! i = Some course →
  ∃ o g, solution !! i = Some g
         ∧ get (lecture_groups sd) course !! Z.to_nat (Py.int g) = Some o
         ∧ ∀ acc, decode_step self solution acc (i, course) = Ok (acc ++ [o]).
Proof.
  intros (Hsd & _ & Hgs)%student_init_inv Hb Hc.
  destruct (Forall2_lookup_l _ _ _ _ _ Hgs Hc) as (b & Hbound & -> & _).
  destruct (Forall2_lookup_r _ _ _ _ _ Hb Hbound) as (g & Hg & Hlo & Hhi).
  cbn [low high] in *.
  destruct (index_in_range (get (lecture_groups sd) course) (Py.int g))
    as (o & Ho & Ho'); [by apply int_in_range|].
  exists o, g. split; [done|]. split; [done|].
  intros acc. unfold decode_step. rewrite (at_pos_Some _ _ _ Hg), Hsd. cbn.
  by rewrite Ho.
Qed.

End StudentDecode.

(** ** Decoding never fails within bounds *)

Section DecodeTotal.
Import Institution InstitutionSpec.

Lemma decoded_fulfils self solution schedule :
  Forall2 (decodes_to self solution) (seq 0 (num_lectures self)) schedule →
  num_lectures self = length (lectures_to_schedule (data_preparer self)) →
  fulfils <$> schedule = lectures_to_schedule (data_preparer self).
Proof.
  intros Hall Hn. apply list_eq. intros i. rewrite list_lookup_fmap.
  pose proof (Forall2_length _ _ _ Hall) as Hlen. rewrite length_seq in Hlen.
  destruct (decide (i < num_lectures self)%nat) as [Hi|Hi].
  - destruct (Forall2_lookup_l _ _ _ i i Hall) as (l & Hl & Hdec);
      [by rewrite lookup_seq_lt|].
    destruct Hdec as (info & g1 & g2 & Hinfo & _ & _ & _ & _ & Hc & Ht).
    rewrite Hl, Hinfo. cbn. f_equal. unfold fulfils. rewrite Hc, Ht.
    by destruct info.
  - rewrite (lookup_ge_None_2 schedule) by lia.
    by rewrite lookup_ge_None_2 by lia.
Qed.

Lemma institution_decode_in_bounds c r tc tp dp params solution :
  prepare_data c r tc tp = Ok dp →
  in_bounds (gene_space (SchedulerGA_init dp params)) solution →
  ∃ schedule,
    decode_solution (SchedulerGA_init dp params) solution = Ok schedule
    ∧ length schedule = length (lectures_to_schedule dp)
    ∧ (∀ i, (i < length schedule)%nat →
            ∃ l, schedule !! i = Some l
                 ∧ decodes_to (SchedulerGA_init dp params) solution i l)
    ∧ fulfils <$> schedule = expected_requirements c tc
    ∧ (NoDup tc →
       ∀ row n, row ∈ tc →
                lookup_lectures_per_week c (tc_course_id row) = Ok n →
                0 ≤ n →
                Z.of_nat (lectures_for (requirement_of row) schedule) = n).
Proof.
  intros Hdp Hb.
  set (self := SchedulerGA_init dp params) in *.
  destruct (for_each_total (decode_step self solution)
              (decodes_to self solution) (seq 0 (num_lectures self)))
    with (acc := @nil Lecture) as (schedule & Hrun & Hall).
  { intros i [_ Hi]%elem_of_seq. by apply decode_step_in_bounds. }
  exists schedule. split; [exact Hrun|].
  pose proof (Forall2_length _ _ _ Hall) as Hlen. rewrite length_seq in Hlen.
  pose proof (decoded_fulfils _ _ _ Hall eq_refl) as Hful.
  destruct (prepare_data_lectures _ _ _ _ _ Hdp) as [Hexp _].
  cbn [data_preparer self SchedulerGA_init] in Hful.
  split; [done|]. split; [|split; [congruence|]].
  - intros i Hi. apply (Forall2_lookup_l _ _ _ i i Hall).
    apply lookup_seq_lt. by rewrite Hlen.
  - intros Hnd row n Hrow Hn Hpos.
    rewrite lectures_for_fmap, Hful, Hexp, count_present by done.
    unfold required_count. rewrite Hn. lia.
Qed.

Lemma student_decode_in_bounds sd params self solution :
  Student.StudentSchedulerGA_init sd params = Ok self →
  in_bounds (Student.gene_space self) solution →
  ∃ schedule,
    Student.decode_solution self solution = Ok schedule
    ∧ length schedule = length (Student.student_courses sd)
    ∧ ∀ i course,
        Student.student_courses sd !! i = Some course →
        ∃ g o, solution !! i = Some g
               ∧ schedule !! i = Some o
               ∧ Student.get (Student.lecture_groups sd) course
                   !! Z.to_nat (Py.int g) = Some o.
Proof.
  intros Hinit Hb.
  destruct (for_each_total (Student.decode_step self solution)
              (fun ic o => ∃ g, solution !! ic.1 = Some g
                 ∧ Student.get (Student.lecture_groups sd) ic.2
                     !! Z.to_nat (Py.int g) = Some o)
              (Student.enumerate (Student.student_courses (Student.student_data self))))
    with (acc := @nil Student.Offering) as (schedule & Hrun & Hall).
  { intros [i course] (i' & c' & [= -> ->] & Hc)%elem_of_lookup_imap.
    destruct (student_init_inv _ _ _ Hinit) as (Hsd & _). rewrite Hsd in Hc.
    destruct (student_decode_step_in_bounds _ _ _ _ _ _ Hinit Hb Hc)
      as (o & g & Hg & Ho & Hstep).
    exists o. split; [by exists g | done]. }
  destruct (student_init_inv _ _ _ Hinit) as (Hsd & _). rewrite Hsd in Hall.
  exists schedule. split; [exact Hrun|].
  pose proof (Forall2_length _ _ _ Hall) as Hlen.
  unfold Student.enumerate in Hlen. rewrite length_imap in Hlen.
  split; [done|]. intros i course Hc.
  destruct (Forall2_lookup_l _ _ _ i (i, course) Hall) as (o & Ho & g & Hg & Hgo).
  { unfold Student.enumerate. by rewrite list_lookup_imap, Hc. }
  by exists g, o.
Qed.

(** The count the code reads for a course is that of a row of the course
    table with this id. *)
Lemma lookup_Ok_row c cid n :
  lookup_lectures_per_week c cid = Ok n →
  ∃ cr, cr ∈ c ∧ c_course_id cr = cid ∧ lectures_per_week cr = n.
Proof.
  unfold lookup_lectures_per_week.
  destruct (filter _ c) as [|cr rows] eqn:Hf; [done|]. intros [= <-].
  assert (cr ∈ filter (fun r => c_course_id r = cid) c) as Hin
    by (rewrite Hf; by left).
  apply list_elem_of_filter in Hin as [Hid Hin]. by exists cr.
Qed.

(** The first row of the table with the course id decides. *)
Lemma lookup_first_row pre crow post :
  c_course_id crow ∉ c_course_id <$> pre →
  lookup_lectures_per_week (pre ++ crow :: post) (c_course_id crow)
  = Ok (lectures_per_week crow).
Proof.
  unfold lookup_lectures_per_week. induction pre as [|cr pre IH]; intros Hnot.
  - cbn [app]. by rewrite filter_cons, decide_True.
  - rewrite fmap_cons in Hnot. apply not_elem_of_cons in Hnot as [Hne Hnot].
    cbn [app]. rewrite filter_cons, decide_False by done. by apply IH.
Qed.

Lemma expected_requirements_mapping c tc (lpw : string → Z) :
  (∀ cr, cr ∈ c → lpw (c_course_id cr) = lectures_per_week cr) →
  Forall (fun row => ∃ n, lookup_lectures_per_week c (tc_course_id row) = Ok n)
         tc →
  expected_requirements c tc
  = row ← tc; replicate (Z.to_nat (lpw (tc_course_id row))) (requirement_of row).
Proof.
  intros Hmap Hall. induction Hall as [|row tc [n Hn] _ IH]; [done|].
  unfold expected_requirements in *. rewrite !bind_cons, IH. f_equal.
  unfold required_count. rewrite Hn.
  destruct (lookup_Ok_row _ _ _ Hn) as (cr & Hcr & Hid & Hlpw).
  by rewrite <- Hid, Hmap, Hlpw.
Qed.

(** C2: for a chromosome within its gene space, decoding returns a schedule
    (no exception) with one entry per decision unit.  Institution: entry [i]
    is requirement [i] with the room and timeslot its two genes index.  The
    requirements are measured against the course table itself: when the
    table is a mapping [lpw] from course ids to weekly counts, the
    requirements fulfilled are, in order and for each row of
    [teacher_courses], [lpw] of the row's own course copies of that
    (course, teacher) pair; and, the rows being pairwise distinct, a row
    whose course first appears in the table as [crow] gets exactly
    [lectures_per_week crow] lectures (none when that count is negative).
    Student: entry [i] is the offering of course [i] that gene [i] indexes. *)
Theorem decode_total :
  (∀ c r tc tp dp params solution,
     prepare_data c r tc tp = Ok dp →
     in_bounds (gene_space (SchedulerGA_init dp params)) solution →
     ∃ schedule,
       decode_solution (SchedulerGA_init dp params) solution = Ok schedule
       ∧ length schedule = length (lectures_to_schedule dp)
       ∧ (∀ i, (i < length schedule)%nat →
               ∃ l, schedule !! i = Some l
                    ∧ decodes_to (SchedulerGA_init dp params) solution i l)
       ∧ (∀ lpw : string → Z,
            (∀ cr, cr ∈ c → lpw (c_course_id cr) = lectures_per_week cr) →
            fulfils <$> schedule
            = row ← tc;
              replicate (Z.to_nat (lpw (tc_course_id row)))
                        (mkReq (tc_course_id row) (tc_teacher_id row)))
       ∧ (NoDup tc →
          ∀ row pre crow post,
            row ∈ tc →
            c = pre ++ crow :: post →
            c_course_id crow = tc_course_id row →
            tc_course_id row ∉ c_course_id <$> pre →
            lectures_for (mkReq (tc_course_id row) (tc_teacher_id row)) schedule
            = Z.to_nat (lectures_per_week crow)))
  ∧ (∀ sd params self solution,
       Student.StudentSchedulerGA_init sd params = Ok self →
       in_bounds (Student.gene_space self) solution →
       ∃ schedule,
         Student.decode_solution self solution = Ok schedule
         ∧ length schedule = length (Student.student_courses sd)
         ∧ ∀ i course,
             Student.student_courses sd !! i = Some course →
             ∃ g o, solution !! i = Some g
                    ∧ schedule !! i = Some o
                    ∧ Student.get (Student.lecture_groups sd) course
                        !! Z.to_nat (Py.int g) = Some o).
Proof.
  split.
  - intros c r tc tp dp params solution Hdp Hb.
    destruct (institution_decode_in_bounds _ _ _ _ _ params _ Hdp Hb)
      as (schedule & Hrun & Hlen & Hent & Hful & _).
    destruct (prepare_data_lectures _ _ _ _ _ Hdp) as [_ Hall].
    exists schedule. do 3 (split; [done|]). split.
    + intros lpw Hmap. rewrite Hful.
      by apply expected_requirements_mapping.
    + intros Hnd row pre crow post Hrow -> Hid Hnot.
      change (mkReq (tc_course_id row) (tc_teacher_id row))
        with (requirement_of row).
      rewrite lectures_for_fmap, Hful, count_present by done.
      unfold required_count. rewrite <- Hid in Hnot |- *.
      by rewrite lookup_first_row.
  - apply student_decode_in_bounds.
Qed.

Lemma decode_total_witness :
  (∃ dp schedule,
     prepare_data Sample3.courses Sample.classrooms Sample3.teacher_courses
                  Sample.teacher_preferences = Ok dp
     ∧ decode_solution (SchedulerGA_init dp Sample.params) Sample3.solution
       = Ok schedule
     ∧ length schedule = 3%nat
     ∧ fulfils <$> schedule
       = [mkReq "CS101" "T1"; mkReq "CS101" "T1"; mkReq "MA201" "T2"]
     ∧ lectures_for (mkReq "CS101" "T1") schedule = 2%nat
     ∧ lectures_for (mkReq "MA201" "T2") schedule = 1%nat)
  ∧ (∃ sd self schedule,
       Student.prepare_student_data "S1" Sample.master_schedule
                                    Sample.registrations = (Ok sd, [])
       ∧ Student.StudentSchedulerGA_init sd Sample.params = Ok self
       ∧ Student.decode_solution self Sample.student_solution = Ok schedule
       ∧ length schedule = 2%nat).
Proof.
  destruct decode_total as [Hinst Hstud]. split.
  - eassert (prepare_data Sample3.courses Sample.classrooms
               Sample3.teacher_courses Sample.teacher_preferences = Ok _) as Hdp
      by (vm_compute; reflexivity).
    destruct (Hinst _ _ _ _ _ Sample.params Sample3.solution Hdp)
      as (schedule & Hrun & Hlen & _ & Hful & Hcount).
    { repeat constructor; by vm_compute. }
    assert (NoDup Sample3.teacher_courses) as Hnd
      by (apply (bool_decide_unpack _); by vm_compute).
    eexists. exists schedule. split; [exact Hdp|]. split; [exact Hrun|].
    split; [exact Hlen|]. split; [|split].
    + apply (Hful Sample3.lectures_per_week_of).
      intros cr Hcr. unfold Sample3.courses in Hcr.
      repeat (apply elem_of_cons in Hcr as [-> | Hcr]; [reflexivity|]).
      by apply elem_of_nil in Hcr.
    + apply (Hcount Hnd {| tc_teacher_id := "T1"; tc_course_id := "CS101" |}
               [] {| c_course_id := "CS101"; lectures_per_week := 2 |}
               [{| c_course_id := "MA201"; lectures_per_week := 1 |}]).
      * by left.
      * reflexivity.
      * reflexivity.
      * apply not_elem_of_nil.
    + apply (Hcount Hnd {| tc_teacher_id := "T2"; tc_course_id := "MA201" |}
               [{| c_course_id := "CS101"; lectures_per_week := 2 |}]
               {| c_course_id := "MA201"; lectures_per_week := 1 |} []).
      * right. by left.
      * reflexivity.
      * reflexivity.
      * cbn. intros Hin. apply elem_of_cons in Hin as [Heq | Hin];
          [discriminate | by apply elem_of_nil in Hin].
  - eassert (Student.prepare_student_data "S1" Sample.master_schedule
               Sample.registrations = (Ok _, [])) as Hsd
      by (vm_compute; reflexivity).
    match type of Hsd with
    | _ = (Ok ?sd, _) =>
        eassert (Student.StudentSchedulerGA_init sd Sample.params = Ok _)
          as Hinit by (vm_compute; reflexivity)
    end.
    destruct (Hstud _ _ _ Sample.student_solution Hinit)
      as (schedule & Hrun & Hlen & _).
    { repeat constructor; by vm_compute. }
    eexists. eexists. exists schedule.
    split; [exact Hsd|]. split; [exact Hinit|]. by split.
Defined.

End DecodeTotal.

(** ** The penalty of an institution schedule *)

Section Penalty.
Import Institution InstitutionSpec.

Implicit Types prefs : gmap (string * string) (list (string * string)).

Lemma within_any_spec time windows :
  within_any time windows
  = bool_decide (Exists (fun w => in_window time w = true) windows).
Proof.
  induction windows as [|w ws IH]; [done|].
  cbn [within_any existsb]. fold (within_any time ws). rewrite IH.
  fold (in_window time w).
  destruct (in_window time w) eqn:Hw; cbn.
  - symmetry. apply bool_decide_eq_true. by left.
  - apply bool_decide_ext. split; [by right|].
    intros [Hw' | Hws]%Exists_cons; [congruence|done].
Qed.

Lemma tracks_nil : tracks [] (mkPS 0 ∅ ∅).
Proof.
  split; intros k; cbn; rewrite lookup_empty; split.
  1,3: by intros [? ?].
  all: by intros (e & ?%elem_of_nil & _).
Qed.

Lemma taken_lookup {K} `{Countable K} (m : gmap K Z) (key : Lecture → K)
    earlier l (P : Lecture → Prop) `{∀ e, Decision (P e)} :
  (∀ k, is_Some (m !! k) ↔ ∃ e, e ∈ earlier ∧ k = key e) →
  (∀ e, P e ↔ key e = key l) →
  bool_decide (Exists P earlier) = bool_decide (is_Some (m !! key l)).
Proof.
  intros Hm HP. apply bool_decide_ext. rewrite Hm, Exists_exists.
  split; intros (e & He & Hk); exists e; split; try done.
  - symmetry. by apply HP.
  - by apply HP.
Qed.

Lemma tracks_insert {K} `{Countable K} (m : gmap K Z) (key : Lecture → K)
    earlier l :
  (∀ k, is_Some (m !! k) ↔ ∃ e, e ∈ earlier ∧ k = key e) →
  ∀ k, is_Some (<[key l := 1]> m !! k) ↔ ∃ e, e ∈ earlier ++ [l] ∧ k = key e.
Proof.
  intros Hm k. rewrite lookup_insert_is_Some', Hm. split.
  - intros [<-|(e & He & ->)].
    + exists l. split; [|done]. apply elem_of_app. right. by left.
    + exists e. split; [|done]. apply elem_of_app. by left.
  - intros (e & [He | ->%list_elem_of_singleton]%elem_of_app & ->).
    + right. by exists e.
    + by left.
Qed.

Lemma tracks_keep {K} `{Countable K} (m : gmap K Z) (key : Lecture → K)
    earlier l :
  (∀ k, is_Some (m !! k) ↔ ∃ e, e ∈ earlier ∧ k = key e) →
  is_Some (m !! key l) →
  ∀ k, is_Some (m !! k) ↔ ∃ e, e ∈ earlier ++ [l] ∧ k = key e.
Proof.
  intros Hm Hl k. rewrite Hm. split.
  - intros (e & He & ->). exists e. split; [|done]. apply elem_of_app. by left.
  - intros (e & [He | ->%list_elem_of_singleton]%elem_of_app & ->).
    + by exists e.
    + by apply Hm.
Qed.

End Penalty.

Section PenaltyScan.
Import Institution InstitutionSpec.

Implicit Types prefs : gmap (string * string) (list (string * string)).

Lemma teacher_taken_lookup earlier st l :
  tracks earlier st →
  teacher_taken earlier l
  = bool_decide (is_Some (teacher_bookings st !! (teacher_id l, timeslot l))).
Proof.
  intros [Ht _]. unfold teacher_taken.
  apply (taken_lookup _ (fun e => (teacher_id e, timeslot e)) earlier l _ Ht).
  intros e. split; [by intros [-> ->] | by intros [= -> ->]].
Qed.

Lemma room_taken_lookup earlier st l :
  tracks earlier st →
  room_taken earlier l
  = bool_decide (is_Some (room_bookings st !! (room_id l, timeslot l))).
Proof.
  intros [_ Hr]. unfold room_taken.
  apply (taken_lookup _ (fun e => (room_id e, timeslot e)) earlier l _ Hr).
  intros e. split; [by intros [-> ->] | by intros [= -> ->]].
Qed.

(** One turn of the loop adds the charge of the lecture and extends the
    two dictionaries by its keys. *)
Lemma penalty_step_spec prefs earlier st l :
  well_slotted l → tracks earlier st →
  ∃ st', penalty_step prefs st l = Ok st'
         ∧ penalty st' = penalty st + charge prefs earlier l
         ∧ tracks (earlier ++ [l]) st'.
Proof.
  intros (day & time & Hsplit) Htr.
  unfold charge, availability_charge, slot_day, slot_time.
  rewrite (teacher_taken_lookup _ _ _ Htr), (room_taken_lookup _ _ _ Htr).
  unfold penalty_step. rewrite Hsplit. cbn [nth].
  destruct Htr as [Ht Hr].
  pose proof (tracks_insert _ (fun e => (teacher_id e, timeslot e)) _ l Ht) as Hti.
  pose proof (tracks_keep _ (fun e => (teacher_id e, timeslot e)) _ l Ht) as Htk.
  pose proof (tracks_insert _ (fun e => (room_id e, timeslot e)) _ l Hr) as Hri.
  pose proof (tracks_keep _ (fun e => (room_id e, timeslot e)) _ l Hr) as Hrk.
  cbn beta in *.
  destruct (teacher_bookings st !! (teacher_id l, timeslot l)) as [x|] eqn:Etk;
    destruct (room_bookings st !! (room_id l, timeslot l)) as [y|] eqn:Erk;
    cbn [penalty teacher_bookings room_bookings];
    rewrite ?Erk; cbn [penalty teacher_bookings room_bookings];
    destruct (prefs !! (teacher_id l, day)) as [windows|];
    try rewrite <- (within_any_spec time windows);
    try destruct (within_any time windows);
    cbn [negb];
    (eexists; split; [reflexivity|]; split;
     [cbn; repeat case_bool_decide;
      try (exfalso; eauto using is_Some_None; fail); lia
     |split; cbn; eauto]).
Qed.

Lemma penalty_loop prefs rest :
  Forall well_slotted rest →
  ∀ earlier st,
    tracks earlier st →
    ∃ st', for_each (penalty_step prefs) st rest = Ok st'
           ∧ penalty st' = penalty st + charges prefs earlier rest.
Proof.
  induction 1 as [|l rest Hl _ IH]; intros earlier st Htr.
  - exists st. cbn. split; [done|lia].
  - destruct (penalty_step_spec prefs earlier st l Hl Htr)
      as (st1 & Hstep & Hpen & Htr1).
    destruct (IH _ _ Htr1) as (st' & Hrun & Hpen').
    exists st'. cbn [for_each charges]. rewrite Hstep. cbn.
    split; [done|lia].
Qed.

(** A schedule with a slot that has no underscore, or more than one, makes
    the scan raise. *)
Lemma penalty_step_ill_slotted prefs st l st' :
  penalty_step prefs st l = Ok st' → well_slotted l.
Proof.
  unfold penalty_step, well_slotted.
  destruct (Py.split "_" (timeslot l)) as [|day [|time [|? ?]]]; try done.
  intros _. by exists day, time.
Qed.

Lemma calculate_penalty_charges self schedule :
  Forall well_slotted schedule →
  calculate_penalty self schedule
  = Ok (charges (teacher_pref_dict (data_preparer self)) [] schedule).
Proof.
  intros Hall. unfold calculate_penalty.
  destruct (penalty_loop (teacher_pref_dict (data_preparer self)) schedule
              Hall [] (mkPS 0 ∅ ∅) tracks_nil) as (st' & -> & Hpen).
  cbn in *. by rewrite Hpen.
Qed.

(** The slots of a decoded schedule come from the timeslot list, so each
    has exactly one underscore. *)
Lemma decoded_well_slotted c r tc tp dp params solution schedule :
  prepare_data c r tc tp = Ok dp →
  decode_solution (SchedulerGA_init dp params) solution = Ok schedule →
  Forall well_slotted schedule.
Proof.
  intros Hdp Hdec. apply decode_solution_inv in Hdec.
  apply prepare_data_timeslots in Hdp.
  eapply Forall2_Forall_r; [exact Hdec|]. apply Forall_forall.
  intros i _ l (_ & _ & Hslot). cbn in Hslot. rewrite Hdp in Hslot.
  apply timeslot_shape in Hslot as (day & hour & _ & _ & _ & Hsplit & _).
  unfold well_slotted. eauto.
Qed.

End PenaltyScan.

(** ** When the penalty is zero *)

Section ZeroPenalty.
Import Institution InstitutionSpec.

Implicit Types prefs : gmap (string * string) (list (string * string)).

Lemma availability_charge_range prefs l :
  availability_charge prefs l = 0 ∨ availability_charge prefs l = 500.
Proof.
  unfold availability_charge. destruct (prefs !! _); [|by right].
  case_bool_decide; auto.
Qed.

Lemma availability_charge_zero prefs l :
  availability_charge prefs l = 0 ↔ within_preference prefs l.
Proof.
  unfold availability_charge, within_preference. split.
  - destruct (prefs !! _) as [windows|]; [|done].
    case_bool_decide as Hex; [|done]. intros _.
    apply Exists_exists in Hex as ([s e] & Hin & Hw).
    unfold in_window in Hw. apply andb_prop in Hw as [Hs He].
    by exists windows, s, e.
  - intros (windows & s & e & -> & Hin & Hs & He).
    rewrite bool_decide_eq_true_2; [done|].
    apply Exists_exists. exists (s, e). split; [done|].
    unfold in_window. cbn. by rewrite Hs, He.
Qed.

Lemma charge_nonneg prefs earlier l : 0 ≤ charge prefs earlier l.
Proof.
  unfold charge. destruct (availability_charge_range prefs l) as [-> | ->];
    destruct (teacher_taken _ _), (room_taken _ _); lia.
Qed.

Lemma charges_nonneg prefs rest : ∀ earlier, 0 ≤ charges prefs earlier rest.
Proof.
  induction rest as [|l rest IH]; intros earlier; cbn; [lia|].
  pose proof (charge_nonneg prefs earlier l). specialize (IH (earlier ++ [l])).
  lia.
Qed.

Lemma charge_zero prefs earlier l :
  charge prefs earlier l = 0
  ↔ teacher_taken earlier l = false ∧ room_taken earlier l = false
    ∧ within_preference prefs l.
Proof.
  rewrite <- availability_charge_zero. unfold charge.
  destruct (availability_charge_range prefs l) as [-> | ->];
    destruct (teacher_taken _ _), (room_taken _ _); intuition (done || lia).
Qed.

Lemma charges_zero prefs rest :
  ∀ earlier,
    charges prefs earlier rest = 0
    ↔ ∀ i l, rest !! i = Some l → charge prefs (earlier ++ take i rest) l = 0.
Proof.
  induction rest as [|x rest IH]; intros earlier; cbn [charges].
  - split; [|done]. intros _ i l Hl. by rewrite lookup_nil in Hl.
  - pose proof (charge_nonneg prefs earlier x).
    pose proof (charges_nonneg prefs rest (earlier ++ [x])).
    split.
    + intros Hsum i l Hl. destruct i as [|i].
      * injection Hl as <-. cbn. rewrite app_nil_r. lia.
      * cbn in Hl. cbn [take]. rewrite (cons_middle x), app_assoc.
        apply IH; [lia|done].
    + intros Hall. assert (charge prefs earlier x = 0) as ->.
      { specialize (Hall 0%nat x eq_refl). cbn in Hall.
        by rewrite app_nil_r in Hall. }
      rewrite (proj2 (IH (earlier ++ [x]))); [done|].
      intros i l Hl. specialize (Hall (S i) l Hl). cbn [take] in Hall.
      by rewrite (cons_middle x), app_assoc in Hall.
Qed.

(** The sum of charges written position by position. *)
Lemma charges_by_position prefs rest :
  ∀ earlier,
    charges prefs earlier rest
    = foldr Z.add 0
        (imap (fun i l => charge prefs (earlier ++ take i rest) l) rest).
Proof.
  induction rest as [|x rest IH]; intros earlier; [done|].
  cbn [charges]. rewrite imap_cons. cbn [foldr take]. rewrite app_nil_r.
  f_equal. rewrite IH. f_equal. apply imap_ext. intros i l _. cbn.
  by rewrite <- app_assoc.
Qed.

(** No lecture repeats an earlier one, for a symmetric way of repeating,
    exactly when no two positions of the schedule are related. *)
Lemma no_repeat_iff (R : Lecture → Lecture → Prop) schedule :
  (∀ a b, R a b → R b a) →
  (∀ i l, schedule !! i = Some l → ¬ Exists (fun e => R e l) (take i schedule))
  ↔ ¬ ∃ i j a b, i ≠ j ∧ schedule !! i = Some a ∧ schedule !! j = Some b
                 ∧ R a b.
Proof.
  intros Hsym. split.
  - intros Hno (i & j & a & b & Hij & Ha & Hb & Hab).
    destruct (decide (i < j)%nat).
    + apply (Hno j b Hb). apply Exists_exists. exists a. split; [|done].
      apply list_elem_of_lookup. exists i. by rewrite lookup_take_lt.
    + apply (Hno i a Ha). apply Exists_exists. exists b. split; [|auto].
      apply list_elem_of_lookup. exists j. rewrite lookup_take_lt; [done|lia].
  - intros Hno i l Hl (e & He & HR)%Exists_exists.
    apply list_elem_of_lookup in He as [j Hj].
    apply lookup_take_Some in Hj as [Hj Hlt].
    apply Hno. exists j, i, e, l. split; [lia|done].
Qed.

End ZeroPenalty.

Section PenaltyTheorems.
Import Institution InstitutionSpec.

(** C3: the penalty of a decoded schedule is the sum, over its lectures in
    order, of 1000 when an earlier lecture has the same teacher and
    timeslot, 1000 when an earlier lecture has the same room and timeslot,
    and 500 when the teacher has no window for the day of the lecture or has
    windows none of which contains the start time, a window containing the
    times [t] with [start <= t < end] in the order of strings. *)
Theorem penalty_is_sum_of_charges c r tc tp dp params solution schedule :
  prepare_data c r tc tp = Ok dp →
  decode_solution (SchedulerGA_init dp params) solution = Ok schedule →
  calculate_penalty (SchedulerGA_init dp params) schedule
  = Ok (foldr Z.add 0
          (imap (fun i l =>
                   (if teacher_taken (take i schedule) l then 1000 else 0)
                   + (if room_taken (take i schedule) l then 1000 else 0)
                   + match teacher_pref_dict dp
                             !! (teacher_id l, slot_day (timeslot l)) with
                     | None => 500
                     | Some windows =>
                         if bool_decide
                              (Exists (fun w =>
                                 String.leb (fst w) (slot_time (timeslot l))
                                 && String.ltb (slot_time (timeslot l)) (snd w)
                                 = true) windows)
                         then 0 else 500
                     end)
                schedule)).
Proof.
  intros Hdp Hdec.
  rewrite calculate_penalty_charges
    by (by eapply decoded_well_slotted).
  by rewrite charges_by_position.
Qed.

Lemma penalty_is_sum_of_charges_witness :
  ∃ dp schedule,
    prepare_data Sample.courses Sample.classrooms Sample.teacher_courses
                 Sample.teacher_preferences = Ok dp
    ∧ decode_solution (SchedulerGA_init dp Sample.params) Sample.solution
      = Ok schedule
    ∧ calculate_penalty (SchedulerGA_init dp Sample.params) schedule = Ok 500.
Proof.
  eassert (prepare_data Sample.courses Sample.classrooms
             Sample.teacher_courses Sample.teacher_preferences = Ok _) as Hdp
    by (vm_compute; reflexivity).
  match type of Hdp with
  | _ = Ok ?dp =>
      eassert (decode_solution (SchedulerGA_init dp Sample.params)
                 Sample.solution = Ok _) as Hdec by (vm_compute; reflexivity)
  end.
  eexists. eexists. split; [exact Hdp|]. split; [exact Hdec|].
  rewrite (penalty_is_sum_of_charges _ _ _ _ _ _ _ _ Hdp Hdec).
  by vm_compute.
Defined.

(** C1: the penalty of a decoded schedule is 0 exactly when no two of its
    lectures share a teacher and a timeslot, no two share a room and a
    timeslot, and every lecture starts within one of the windows its teacher
    declared for that day (so the teacher has a window for that day). *)
Theorem zero_penalty_iff_feasible c r tc tp dp params solution schedule :
  prepare_data c r tc tp = Ok dp →
  decode_solution (SchedulerGA_init dp params) solution = Ok schedule →
  calculate_penalty (SchedulerGA_init dp params) schedule = Ok 0
  ↔ ¬ teacher_clash schedule
    ∧ ¬ room_clash schedule
    ∧ Forall (within_preference (teacher_pref_dict dp)) schedule.
Proof.
  intros Hdp Hdec.
  rewrite calculate_penalty_charges by (by eapply decoded_well_slotted).
  cbn [data_preparer SchedulerGA_init].
  transitivity (charges (teacher_pref_dict dp) [] schedule = 0);
    [split; [by intros [= ->] | by intros ->]|].
  rewrite charges_zero. cbn [app].
  unfold teacher_clash, room_clash.
  rewrite <- (no_repeat_iff (fun a b => teacher_id a = teacher_id b
                                        ∧ timeslot a = timeslot b))
    by (by intros a b [-> ->]).
  rewrite <- (no_repeat_iff (fun a b => room_id a = room_id b
                                        ∧ timeslot a = timeslot b))
    by (by intros a b [-> ->]).
  rewrite Forall_lookup. split.
  - intros Hall. repeat split; intros i l Hl;
      apply Hall, charge_zero in Hl as (Ht & Hr & Hw); try done.
    + by apply bool_decide_eq_false in Ht.
    + by apply bool_decide_eq_false in Hr.
  - intros (Ht & Hr & Hw) i l Hl. apply charge_zero. repeat split.
    + apply bool_decide_eq_false. by apply Ht.
    + apply bool_decide_eq_false. by apply Hr.
    + by eapply Hw.
Qed.

Lemma zero_penalty_iff_feasible_witness :
  ∃ dp schedule,
    prepare_data Sample.courses Sample.classrooms Sample.teacher_courses
                 Sample.teacher_preferences = Ok dp
    ∧ decode_solution (SchedulerGA_init dp Sample.params)
                      Sample.solution_feasible = Ok schedule
    ∧ calculate_penalty (SchedulerGA_init dp Sample.params) schedule = Ok 0
    ∧ ¬ teacher_clash schedule
    ∧ ¬ room_clash schedule
    ∧ Forall (within_preference (teacher_pref_dict dp)) schedule.
Proof.
  eassert (prepare_data Sample.courses Sample.classrooms
             Sample.teacher_courses Sample.teacher_preferences = Ok _) as Hdp
    by (vm_compute; reflexivity).
  match type of Hdp with
  | _ = Ok ?dp =>
      eassert (decode_solution (SchedulerGA_init dp Sample.params)
                 Sample.solution_feasible = Ok _) as Hdec
        by (vm_compute; reflexivity)
  end.
  match type of Hdec with
  | decode_solution ?self _ = Ok ?schedule =>
      assert (calculate_penalty self schedule = Ok 0) as Hzero
        by (vm_compute; reflexivity)
  end.
  eexists. eexists. split; [exact Hdp|]. split; [exact Hdec|].
  split; [exact Hzero|].
  exact (proj1 (zero_penalty_iff_feasible _ _ _ _ _ _ _ _ Hdp Hdec) Hzero).
Defined.

End PenaltyTheorems.

(** ** Fitness *)

Section Fitness.

Lemma epsilon_pos : (0 < epsilon)%Q.
Proof. reflexivity. Qed.

Lemma denominator_pos p : 0 ≤ p → (0 < inject_Z p + epsilon)%Q.
Proof.
  intros Hp. apply Qlt_le_trans with (y := epsilon); [apply epsilon_pos|].
  rewrite <- (Qplus_0_l epsilon) at 1. apply Qplus_le_compat; [|apply Qle_refl].
  change 0%Q with (inject_Z 0). by rewrite <- Zle_Qle.
Qed.

Lemma fitness_of_penalty_pos p : 0 ≤ p → (0 < fitness_of_penalty p)%Q.
Proof.
  intros Hp. unfold fitness_of_penalty, Qdiv. rewrite Qmult_1_l.
  by apply Qinv_lt_0_compat, denominator_pos.
Qed.

Lemma fitness_of_penalty_lt p1 p2 :
  0 ≤ p1 → 0 ≤ p2 →
  p1 < p2 ↔ (fitness_of_penalty p2 < fitness_of_penalty p1)%Q.
Proof.
  intros H1 H2. unfold fitness_of_penalty, Qdiv. rewrite !Qmult_1_l.
  rewrite <- Qinv_lt_contravar by by apply denominator_pos.
  rewrite Zlt_Qlt. split; intros Hlt.
  - apply Qplus_lt_le_compat; [done | apply Qle_refl].
  - apply Qplus_lt_l in Hlt. done.
Qed.

Lemma penalty_step_grows prefs st l st' :
  Institution.penalty_step prefs st l = Ok st' →
  Institution.penalty st ≤ Institution.penalty st'.
Proof.
  unfold Institution.penalty_step.
  destruct (Institution.teacher_bookings st !! _);
    cbn [Institution.penalty Institution.teacher_bookings
         Institution.room_bookings];
    destruct (Institution.room_bookings st !! _);
    cbn [Institution.penalty Institution.teacher_bookings
         Institution.room_bookings];
    destruct (Py.split _ _) as [|day [|time [|? ?]]]; try done;
    destruct (prefs !! _); try destruct (negb _);
    intros [= <-]; cbn; lia.
Qed.

Lemma penalty_loop_grows prefs schedule :
  ∀ st st',
    for_each (Institution.penalty_step prefs) st schedule = Ok st' →
    Institution.penalty st ≤ Institution.penalty st'.
Proof.
  induction schedule as [|l ls IH]; intros st st' Hrun.
  - by injection Hrun as <-.
  - cbn [for_each] in Hrun. apply bind_Ok_inv in Hrun as (st1 & Hstep & Hrest).
    apply penalty_step_grows in Hstep. apply IH in Hrest. lia.
Qed.

Lemma calculate_penalty_nonneg self schedule p :
  Institution.calculate_penalty self schedule = Ok p → 0 ≤ p.
Proof.
  unfold Institution.calculate_penalty.
  intros (st & Hrun & [= <-])%bind_Ok_inv.
  by apply penalty_loop_grows in Hrun.
Qed.

Lemma conflict_loop_grows schedule :
  ∀ st, fst st ≤ fst (foldl Student.conflict_step st schedule).
Proof.
  induction schedule as [|l ls IH]; intros [p booked]; cbn [foldl]; [done|].
  etransitivity; [|apply IH]. unfold Student.conflict_step.
  case_bool_decide; cbn; lia.
Qed.

Lemma schedule_penalty_nonneg schedule :
  0 ≤ Student.schedule_penalty schedule.
Proof.
  unfold Student.schedule_penalty.
  pose proof (conflict_loop_grows schedule (0, ∅)). cbn in *. lia.
Qed.

End Fitness.

Section FitnessTheorem.

(** The exact quotient behind the fitness.  In both schedulers the value
    that [fitness_function] divides out is [1 / (penalty + 1e-9)] for the
    penalty of the decoded schedule; the penalty is never negative, so as
    rationals the denominator is not zero and the quotient is positive, also
    at penalty 0; every chromosome within its gene space has one; and
    between non-negative penalties a smaller penalty is exactly a larger
    quotient.  The code evaluates the expression in binary64: what it
    returns is a rounding of this quotient, about which nothing is stated
    here. *)
Theorem fitness_is_inverse_penalty :
  (∀ self solution f,
     Institution.fitness_function self solution = Ok f →
     ∃ schedule p,
       Institution.decode_solution self solution = Ok schedule
       ∧ Institution.calculate_penalty self schedule = Ok p
       ∧ 0 ≤ p
       ∧ f = (1 / (inject_Z p + (1 # 1000000000)))%Q
       ∧ ¬ (inject_Z p + (1 # 1000000000) == 0)%Q
       ∧ (0 < f)%Q)
  ∧ (∀ c r tc tp dp params solution,
       Institution.prepare_data c r tc tp = Ok dp →
       in_bounds (Institution.gene_space (Institution.SchedulerGA_init dp params))
                 solution →
       ∃ f, Institution.fitness_function
              (Institution.SchedulerGA_init dp params) solution = Ok f)
  ∧ (∀ self solution f,
       Student.fitness_function self solution = Ok f →
       ∃ schedule,
         Student.decode_solution self solution = Ok schedule
         ∧ 0 ≤ Student.schedule_penalty schedule
         ∧ f = (1 / (inject_Z (Student.schedule_penalty schedule)
                     + (1 # 1000000000)))%Q
         ∧ ¬ (inject_Z (Student.schedule_penalty schedule)
              + (1 # 1000000000) == 0)%Q
         ∧ (0 < f)%Q)
  ∧ (∀ sd params self solution,
       Student.StudentSchedulerGA_init sd params = Ok self →
       in_bounds (Student.gene_space self) solution →
       ∃ f, Student.fitness_function self solution = Ok f)
  ∧ (∀ p1 p2,
       0 ≤ p1 → 0 ≤ p2 →
       p1 < p2 ↔ (fitness_of_penalty p2 < fitness_of_penalty p1)%Q).
Proof.
  split; [|split; [|split; [|split]]].
  - intros self solution f Hf. unfold Institution.fitness_function in Hf.
    apply bind_Ok_inv in Hf as (schedule & Hdec & Hf).
    apply bind_Ok_inv in Hf as (p & Hp & [= <-]).
    pose proof (calculate_penalty_nonneg _ _ _ Hp) as Hpos.
    exists schedule, p. repeat split; try done.
    + intros Hz. pose proof (denominator_pos p Hpos) as Hd.
      unfold epsilon in Hd. rewrite Hz in Hd. by apply Qlt_irrefl in Hd.
    + by apply fitness_of_penalty_pos.
  - intros c r tc tp dp params solution Hdp Hb.
    destruct (institution_decode_in_bounds _ _ _ _ _ params _ Hdp Hb)
      as (schedule & Hdec & _).
    unfold Institution.fitness_function. rewrite Hdec. cbn.
    rewrite calculate_penalty_charges by (by eapply decoded_well_slotted).
    cbn. eauto.
  - intros self solution f Hf. unfold Student.fitness_function in Hf.
    apply bind_Ok_inv in Hf as (schedule & Hdec & [= <-]).
    pose proof (schedule_penalty_nonneg schedule) as Hpos.
    exists schedule. repeat split; try done.
    + intros Hz. pose proof (denominator_pos _ Hpos) as Hd.
      unfold epsilon in Hd. rewrite Hz in Hd. by apply Qlt_irrefl in Hd.
    + by apply fitness_of_penalty_pos.
  - intros sd params self solution Hinit Hb.
    destruct (student_decode_in_bounds _ _ _ _ Hinit Hb) as (schedule & Hdec & _).
    unfold Student.fitness_function. rewrite Hdec. cbn. eauto.
  - apply fitness_of_penalty_lt.
Qed.

Lemma fitness_is_inverse_penalty_witness :
  (∃ dp,
     Institution.prepare_data Sample.courses Sample.classrooms
       Sample.teacher_courses Sample.teacher_preferences = Ok dp
     ∧ Institution.fitness_function
         (Institution.SchedulerGA_init dp Sample.params) Sample.solution
       = Ok (1 / (inject_Z 500 + (1 # 1000000000)))%Q
     ∧ Institution.fitness_function
         (Institution.SchedulerGA_init dp Sample.params) Sample.solution_feasible
       = Ok (1 / (inject_Z 0 + (1 # 1000000000)))%Q)
  ∧ (fitness_of_penalty 500 < fitness_of_penalty 0)%Q
  ∧ (0 < fitness_of_penalty 0)%Q.
Proof.
  destruct fitness_is_inverse_penalty as (Hinst & _ & _ & _ & Hmono).
  eassert (Institution.prepare_data Sample.courses Sample.classrooms
             Sample.teacher_courses Sample.teacher_preferences = Ok _) as Hdp
    by (vm_compute; reflexivity).
  split; [|split].
  - eexists. split; [exact Hdp|]. split; by vm_compute.
  - apply (proj1 (Hmono 0 500 ltac:(lia) ltac:(lia))). lia.
  - match type of Hdp with
    | _ = Ok ?dp =>
        destruct (Hinst (Institution.SchedulerGA_init dp Sample.params)
                    Sample.solution_feasible (fitness_of_penalty 0))
          as (schedule & p & _ & _ & _ & _ & _ & Hpos);
          [by vm_compute | exact Hpos]
    end.
Defined.

End FitnessTheorem.

(** ** The penalty of a student schedule *)

Section StudentPenalty.
Import Student StudentSpec.

Lemma conflict_loop_repeats rest :
  ∀ earlier p,
    fst (foldl conflict_step (p, list_to_set (timeslot <$> earlier)) rest)
    = p + 1000 * Z.of_nat (repeats earlier rest).
Proof.
  induction rest as [|l rest IH]; intros earlier p; cbn [foldl repeats fst];
    [lia|].
  unfold conflict_step at 2.
  rewrite (bool_decide_ext (timeslot l ∈ list_to_set (timeslot <$> earlier))
             (timeslot l ∈ timeslot <$> earlier))
    by apply elem_of_list_to_set.
  assert (list_to_set (timeslot <$> earlier ++ [l])
          = ({[timeslot l]} ∪ list_to_set (timeslot <$> earlier) : gset string))
    as Hset.
  { rewrite fmap_app, list_to_set_app_L. cbn.
    rewrite (right_id_L ∅ (∪)). apply (comm_L (∪)). }
  destruct (bool_decide (timeslot l ∈ timeslot <$> earlier)) eqn:Hin.
  - assert (list_to_set (timeslot <$> earlier)
            = (list_to_set (timeslot <$> earlier ++ [l]) : gset string)) as ->.
    { rewrite Hset. apply bool_decide_eq_true in Hin.
      apply (elem_of_list_to_set (C := gset string)) in Hin.
      symmetry. apply subseteq_union_1_L. by apply singleton_subseteq_l. }
    rewrite IH. lia.
  - rewrite <- Hset, IH. lia.
Qed.

Lemma size_days schedule :
  size (list_to_set (Day <$> schedule) : gset string) = distinct_days schedule.
Proof.
  unfold distinct_days.
  rewrite <- (size_list_to_set (C := gset string) (remove_dups (Day <$> schedule)))
    by apply NoDup_remove_dups.
  f_equal. apply set_eq. intros x.
  by rewrite !elem_of_list_to_set, elem_of_remove_dups.
Qed.

(** 1000 per lecture on an already booked timeslot, 10 per distinct day. *)
Lemma schedule_penalty_formula schedule :
  schedule_penalty schedule
  = 1000 * Z.of_nat (repeats [] schedule)
    + 10 * Z.of_nat (distinct_days schedule).
Proof.
  unfold schedule_penalty. rewrite size_days.
  pose proof (conflict_loop_repeats schedule [] 0) as Hloop.
  change (list_to_set (timeslot <$> [])) with (∅ : gset string) in Hloop.
  rewrite Hloop. lia.
Qed.

(** Whatever a finished decoding returned has one entry per course, each
    taken from the offerings of that course. *)
Lemma student_decode_inv self solution schedule :
  decode_solution self solution = Ok schedule →
  Forall2 (fun course o => o ∈ get (lecture_groups (student_data self)) course)
          (student_courses (student_data self)) schedule.
Proof.
  intros Hrun. unfold decode_solution in Hrun.
  eapply for_each_inv
    with (P := fun ic o => o ∈ get (lecture_groups (student_data self)) ic.2)
    in Hrun as (ys & -> & Hall).
  - cbn. unfold enumerate in Hall.
    apply Forall2_same_length_lookup. split.
    { apply Forall2_length in Hall. by rewrite length_imap in Hall. }
    intros i course o Hc Ho.
    eapply (Forall2_lookup_lr _ _ _ i (i, course) o) in Hall; [done| |done].
    by rewrite list_lookup_imap, Hc.
  - intros [i course] acc r _ Hstep. unfold decode_step in Hstep.
    apply bind_Ok_inv in Hstep as (g & _ & Hstep).
    apply bind_Ok_inv in Hstep as (o & Ho & [= <-]).
    exists o. split; [done|]. by eapply index_Ok_elem.
Qed.

End StudentPenalty.

Section StudentScenario.
Import Student StudentSpec.

(** C9: a student with two registered courses, one offering each, both
    offerings at the same timeslot.  Every chromosome within the gene space
    decodes to these two offerings, every decoded schedule has exactly two
    entries, and its penalty is [1000 + 10 * d] for the number [d] of
    distinct days of the two offerings, which is 1 or 2.  In general the
    penalty is 1000 per lecture on an already booked timeslot plus 10 per
    distinct day. *)
Theorem overlapping_pair_penalty sd params self c1 c2 o1 o2 :
  StudentSchedulerGA_init sd params = Ok self →
  student_courses sd = [c1; c2] →
  get (lecture_groups sd) c1 = [o1] →
  get (lecture_groups sd) c2 = [o2] →
  timeslot o1 = timeslot o2 →
  (∀ solution,
     in_bounds (gene_space self) solution →
     decode_solution self solution = Ok [o1; o2])
  ∧ (∀ solution schedule,
       decode_solution self solution = Ok schedule →
       schedule = [o1; o2]
       ∧ length schedule = 2%nat
       ∧ schedule_penalty schedule
         = 1000 + 10 * Z.of_nat (distinct_days schedule)
       ∧ (distinct_days schedule = 1%nat ∨ distinct_days schedule = 2%nat)
       ∧ (distinct_days schedule = 1%nat ↔ Day o1 = Day o2)
       ∧ fitness_function self solution
         = Ok (fitness_of_penalty
                 (1000 + 10 * Z.of_nat (distinct_days schedule))))
  ∧ (∀ schedule,
       schedule_penalty schedule
       = 1000 * Z.of_nat (repeats [] schedule)
         + 10 * Z.of_nat (distinct_days schedule)).
Proof.
  intros Hinit Hcs Ho1 Ho2 Hslot.
  assert (∀ solution schedule,
            decode_solution self solution = Ok schedule → schedule = [o1; o2])
    as Hpair.
  { intros solution schedule Hdec. apply student_decode_inv in Hdec.
    destruct (student_init_inv _ _ _ Hinit) as (Hsd & _).
    rewrite Hsd, Hcs in Hdec.
    apply Forall2_cons_inv_l in Hdec as (a & rest & Ha & Hdec & ->).
    apply Forall2_cons_inv_l in Hdec as (b & rest' & Hb & Hdec & ->).
    apply Forall2_nil_inv_l in Hdec as ->.
    rewrite Ho1 in Ha. rewrite Ho2 in Hb.
    apply list_elem_of_singleton in Ha as ->.
    by apply list_elem_of_singleton in Hb as ->. }
  assert (repeats [] [o1; o2] = 1%nat) as Hrep.
  { cbn [repeats app fmap list_fmap]. rewrite Hslot.
    rewrite (bool_decide_eq_false_2 (timeslot o2 ∈ [])) by apply not_elem_of_nil.
    rewrite (bool_decide_eq_true_2 (timeslot o2 ∈ [timeslot o2])) by by left.
    done. }
  split; [|split].
  - intros solution Hb.
    destruct (student_decode_in_bounds _ _ _ _ Hinit Hb) as (schedule & Hdec & _).
    by rewrite Hdec, (Hpair _ _ Hdec).
  - intros solution schedule Hdec. pose proof (Hpair _ _ Hdec) as ->.
    split; [done|]. split; [done|].
    assert (schedule_penalty [o1; o2]
            = 1000 + 10 * Z.of_nat (distinct_days [o1; o2])) as Hpen.
    { rewrite schedule_penalty_formula, Hrep. lia. }
    split; [exact Hpen|].
    unfold fitness_function. rewrite Hdec. cbn [mbind result_bind Py.bind].
    rewrite Hpen.
    unfold distinct_days. cbn [fmap list_fmap remove_dups].
    destruct (decide_rel elem_of (Day o1) [Day o2]) as [Hin|Hin]; cbn.
    + apply list_elem_of_singleton in Hin. by repeat split; auto.
    + split; [by right|]. split; [|done]. split; [done|].
      intros Heq. exfalso. apply Hin. rewrite Heq. by left.
  - apply schedule_penalty_formula.
Qed.

Lemma overlapping_pair_penalty_witness :
  ∃ sd self,
    prepare_student_data "S1" Sample.master_overlap Sample.registrations_pair
    = (Ok sd, [])
    ∧ StudentSchedulerGA_init sd Sample.params = Ok self
    ∧ ∃ schedule,
        decode_solution self Sample.pair_solution = Ok schedule
        ∧ length schedule = 2%nat
        ∧ schedule_penalty schedule = 1010.
Proof.
  eassert (prepare_student_data "S1" Sample.master_overlap
             Sample.registrations_pair = (Ok _, [])) as Hsd
    by (vm_compute; reflexivity).
  match type of Hsd with
  | _ = (Ok ?sd, _) =>
      eassert (StudentSchedulerGA_init sd Sample.params = Ok _) as Hinit
        by (vm_compute; reflexivity)
  end.
  eexists. eexists. split; [exact Hsd|]. split; [exact Hinit|].
  match type of Hinit with
  | StudentSchedulerGA_init ?sd _ = _ =>
      assert (get (lecture_groups sd) "CS101"
              = [mkOffering "CS101" "T1" "R1" "Sunday_08:00" "Sunday"])
        as Ho1 by (by vm_compute);
      assert (get (lecture_groups sd) "MA201"
              = [mkOffering "MA201" "T2" "R2" "Sunday_08:00" "Sunday"])
        as Ho2 by (by vm_compute)
  end.
  destruct (overlapping_pair_penalty _ _ _ "CS101" "MA201" _ _
              Hinit eq_refl Ho1 Ho2 eq_refl) as (Hdec & Hall & _).
  match type of Hinit with
  | _ = Ok ?self =>
      assert (in_bounds (gene_space self) Sample.pair_solution) as Hb
        by (repeat constructor; by vm_compute)
  end.
  eexists. split; [exact (Hdec _ Hb)|]. split; [done|].
  destruct (Hall _ _ (Hdec _ Hb)) as (_ & _ & -> & _). by vm_compute.
Defined.

End StudentScenario.

(** ** A registered course without offerings *)

Section Unoffered.
Import Student StudentSpec Registration.

Lemma get_touch groups k c : get (touch groups k) c = get groups c.
Proof.
  unfold touch, get. destruct (groups !! k) eqn:Hk; [done|].
  destruct (decide (k = c)) as [->|Hne].
  - by rewrite lookup_insert_eq, Hk.
  - by rewrite lookup_insert_ne.
Qed.

Lemma get_append groups k o c :
  get (alter (fun l => l ++ [o]) k (touch groups k)) c
  = if decide (k = c) then get groups c ++ [o] else get groups c.
Proof.
  destruct (decide (k = c)) as [->|Hne].
  - unfold get at 1. rewrite lookup_alter_eq.
    unfold touch, get. destruct (groups !! c) eqn:Hc.
    + by rewrite Hc.
    + by rewrite lookup_insert_eq.
  - unfold get at 1. rewrite lookup_alter_ne by done.
    fold (get (touch groups k) c). apply get_touch.
Qed.

(** After the loop over the master schedule, the group of a course holds
    its offerings in master-schedule order, for the registered courses. *)
Lemma group_loop courses master :
  ∀ groups c,
    get (foldl (group_lecture courses) groups master) c
    = get groups c
      ++ filter (fun o => course_id o = c ∧ c ∈ courses) master.
Proof.
  induction master as [|o master IH]; intros groups c; cbn [foldl].
  - by rewrite app_nil_r.
  - rewrite IH, filter_cons. unfold group_lecture. case_bool_decide as Hreg.
    + rewrite get_append. destruct (decide (course_id o = c)) as [<-|Hne].
      * rewrite decide_True by done. by rewrite <- app_assoc.
      * rewrite decide_False by (by intros [? _]). done.
    + rewrite decide_False; [done|]. intros [<- ?]. done.
Qed.

(** The check loop leaves every group as it reads and logs one warning for
    each registered course whose group is empty. *)
Lemma check_loop courses :
  ∀ groups log,
    (∀ c, get (foldl check_course (groups, log) courses).1 c = get groups c)
    ∧ (foldl check_course (groups, log) courses).2
      = log ++ (warning_for <$> filter (fun c => get groups c = []) courses).
Proof.
  unfold warning_for.
  induction courses as [|course courses IH]; intros groups log; cbn [foldl].
  - by rewrite app_nil_r.
  - unfold check_course at 2 4. cbn [fst snd]. rewrite get_touch.
    rewrite filter_cons.
    destruct (get groups course) as [|o os] eqn:Hg.
    + rewrite decide_True by done.
      destruct (IH (touch groups course)
                  (log ++ [Warning ("No lectures found in master_schedule for registered course: " +:+ course)]))
        as [Hget Hlog].
      split.
      * intros c. by rewrite Hget, get_touch.
      * rewrite Hlog, <- app_assoc. cbn.
        do 3 f_equal. apply list_filter_iff. intros c.
        by rewrite get_touch.
    + rewrite decide_False by done.
      destruct (IH (touch groups course) log) as [Hget Hlog]. split.
      * intros c. by rewrite Hget, get_touch.
      * rewrite Hlog. do 2 f_equal. apply list_filter_iff. intros c.
        by rewrite get_touch.
Qed.

(** What [StudentData] holds for a student who has registrations. *)
Lemma prepare_student_data_spec sid master regs :
  let courses := reg_course_id <$> filter (fun r => reg_student_id r = sid) regs in
  courses ≠ [] →
  ∃ sd,
    prepare_student_data sid master regs
    = (Ok sd, warning_for <$> filter (fun c => get (lecture_groups sd) c = [])
                                     courses)
    ∧ student_courses sd = courses
    ∧ ∀ c, get (lecture_groups sd) c
           = filter (fun o => course_id o = c ∧ c ∈ courses) master.
Proof.
  intros courses Hne. unfold prepare_student_data.
  fold courses.
  destruct (filter (fun r => reg_student_id r = sid) regs) as [|r rs] eqn:Hregs;
    [done|].
  set (groups := foldl (group_lecture courses) ∅ master).
  destruct (check_loop courses groups []) as [Hget Hlog].
  destruct (foldl check_course (groups, []) courses) as [groups' log] eqn:Hloop.
  cbn [fst snd] in *.
  assert (∀ c, get groups' c
               = filter (fun o => course_id o = c ∧ c ∈ courses) master) as Hg.
  { intros c. rewrite Hget. unfold groups. by rewrite group_loop. }
  exists {| student_id := sid; master_schedule := master;
            registrations := regs; lecture_groups := groups';
            student_courses := courses |}.
  split; [|split; [reflexivity|exact Hg]]. cbn [lecture_groups].
  f_equal. rewrite Hlog. cbn [app]. f_equal. apply list_filter_iff. intros c.
  by rewrite Hget.
Qed.

Lemma add_gene_empty groups acc c :
  get groups c = [] → add_gene groups acc c = Raise (no_lectures_error c).
Proof. unfold add_gene. by intros ->. Qed.

Lemma add_gene_nonempty groups acc c :
  get groups c ≠ [] →
  add_gene groups acc c
  = Ok (acc ++ [mkBound 0 (Z.of_nat (length (get groups c)))]).
Proof.
  unfold add_gene. intros Hne.
  destruct (get groups c) as [|o os]; [done|].
  by rewrite (proj2 (Z.eqb_neq _ 0)) by (cbn [length]; lia).
Qed.

(** The loop that builds [gene_space] raises at the first course whose
    group is empty. *)
Lemma add_gene_loop_raises groups courses :
  Exists (fun c => get groups c = []) courses →
  ∀ acc, ∃ c, for_each (add_gene groups) acc courses
              = Raise (no_lectures_error c)
              ∧ c ∈ courses ∧ get groups c = [].
Proof.
  induction courses as [|course courses IH]; intros Hex acc.
  - by apply Exists_nil in Hex.
  - cbn [for_each].
    destruct (decide (get groups course = [])) as [Hg|Hg].
    + exists course. rewrite add_gene_empty by done.
      split; [done|]. split; [by left | done].
    + apply Exists_cons in Hex as [Hex|Hex]; [done|].
      rewrite add_gene_nonempty by done.
      destruct (IH Hex (acc ++ [mkBound 0 (Z.of_nat (length (get groups course)))]))
        as (c & Hrun & Hc & Hempty).
      exists c. split; [exact Hrun|]. split; [by right | done].
Qed.

Lemma filter_none {A} (P : A → Prop) `{∀ x, Decision (P x)} (l : list A) :
  (∀ x, x ∈ l → ¬ P x) → filter P l = [].
Proof.
  induction l as [|x l IH]; intros Hno; [done|].
  rewrite filter_cons, decide_False by (apply Hno; by left).
  apply IH. intros y Hy. apply Hno. by right.
Qed.

(** From registration and master schedule to the failed construction. *)
Lemma construct_unoffered sid master regs params course :
  registered_unoffered sid master regs course →
  ∃ sd log c,
    prepare_student_data sid master regs = (Ok sd, log)
    ∧ warning_for course ∈ log
    ∧ unmatched sd course
    ∧ unmatched sd c
    ∧ StudentSchedulerGA_init sd params = Raise (no_lectures_error c)
    ∧ construct sid master regs params = (Raise (no_lectures_error c), log).
Proof.
  intros [Hreg Hnone].
  assert (course ∈ reg_course_id <$> filter (fun r => reg_student_id r = sid) regs)
    as Hin.
  { apply list_elem_of_fmap. exists (mkReg sid course). split; [done|].
    by apply list_elem_of_filter. }
  destruct (prepare_student_data_spec sid master regs) as (sd & Hsd & Hcs & Hg).
  { intros Hnil. rewrite Hnil in Hin. by apply elem_of_nil in Hin. }
  assert (get (lecture_groups sd) course = []) as Hempty.
  { rewrite Hg. apply filter_none. intros o Ho [Hc _]. by apply (Hnone o). }
  destruct (add_gene_loop_raises (lecture_groups sd) (student_courses sd))
    with (acc := @nil GeneBound) as (c & Hrun & Hc & Hcempty).
  { apply Exists_exists. exists course. by rewrite Hcs. }
  assert (StudentSchedulerGA_init sd params = Raise (no_lectures_error c))
    as Hinit.
  { unfold StudentSchedulerGA_init. by rewrite Hrun. }
  eexists sd, _, c. split; [exact Hsd|]. split; [|split; [|split; [|split]]].
  - apply list_elem_of_fmap. exists course. split; [done|].
    by apply list_elem_of_filter.
  - unfold unmatched. by rewrite Hcs.
  - done.
  - done.
  - unfold construct. rewrite Hsd. cbn. by rewrite Hinit.
Qed.

End Unoffered.

Section UnofferedTheorems.
Import Student StudentSpec Registration.

(** C7: a student registered for a course that the master schedule does not
    offer.  Building the data succeeds, building the scheduler raises (the
    configuration error of the code is a [ValueError] naming the first
    registered course without offerings), so no scheduler and no engine
    exist; the same holds for any prepared data with an empty group; and a
    scheduler that was built has no empty gene range. *)
Theorem unoffered_course_fails_fast :
  (∀ sid master regs params course,
     registered_unoffered sid master regs course →
     ∃ sd log c,
       prepare_student_data sid master regs = (Ok sd, log)
       ∧ unmatched sd c
       ∧ StudentSchedulerGA_init sd params
         = Raise (Py.ValueError ("Course " +:+ c +:+ " has no available lectures in the master schedule."))
       ∧ construct sid master regs params
         = (Raise (Py.ValueError ("Course " +:+ c +:+ " has no available lectures in the master schedule.")), log))
  ∧ (∀ sd params course,
       unmatched sd course →
       ∃ c, unmatched sd c
            ∧ StudentSchedulerGA_init sd params = Raise (no_lectures_error c))
  ∧ (∀ sd params self,
       StudentSchedulerGA_init sd params = Ok self →
       length (gene_space self) = length (student_courses sd)
       ∧ Forall (fun b => low b = 0 ∧ 0 < high b) (gene_space self)).
Proof.
  split; [|split].
  - intros sid master regs params course Hun.
    destruct (construct_unoffered _ _ _ params _ Hun)
      as (sd & log & c & Hsd & _ & _ & Hc & Hinit & Hcon).
    by exists sd, log, c.
  - intros sd params course [Hin Hempty].
    destruct (add_gene_loop_raises (lecture_groups sd) (student_courses sd))
      with (acc := @nil GeneBound) as (c & Hrun & Hc & Hcempty).
    { apply Exists_exists. by exists course. }
    exists c. split; [done|].
    unfold StudentSchedulerGA_init. by rewrite Hrun.
  - intros sd params self (_ & _ & Hgs)%student_init_inv. split.
    + symmetry. by eapply Forall2_length.
    + eapply Forall2_Forall_r; [exact Hgs|]. apply Forall_forall.
      intros course _ b [-> Hne]. cbn. split; [done|].
      destruct (get (lecture_groups sd) course); [done | cbn; lia].
Qed.

Lemma unoffered_course_fails_fast_witness :
  ∃ log,
    construct "S1" Sample.master_schedule Sample.registrations_unmatched
              Sample.params
    = (Raise (Py.ValueError "Course PH301 has no available lectures in the master schedule."), log).
Proof.
  destruct unoffered_course_fails_fast as (Hfast & _ & _).
  destruct (Hfast "S1" Sample.master_schedule Sample.registrations_unmatched
              Sample.params "PH301") as (sd & log & c & _ & _ & _ & Hcon).
  - split.
    + right. left.
    + intros o Ho. unfold Sample.master_schedule in Ho.
      repeat (apply elem_of_cons in Ho as [->|Ho]); try done.
      by apply elem_of_nil in Ho.
  - exists log. rewrite Hcon.
    assert (fst (construct "S1" Sample.master_schedule
                   Sample.registrations_unmatched Sample.params)
            = Raise (Py.ValueError "Course PH301 has no available lectures in the master schedule."))
      as Hfst by (by vm_compute).
    rewrite Hcon in Hfst. cbn [fst] in Hfst. by rewrite Hfst.
Defined.

(** C8, as stated, fails: for a student registered for a course without
    offerings the warning is logged, but no scheduler is built. *)
Lemma warning_then_run_counterexample :
  registered_unoffered "S1" Sample.master_schedule
                       Sample.registrations_unmatched "PH301"
  ∧ ¬ proceeds_with_warning "S1" Sample.master_schedule
                            Sample.registrations_unmatched Sample.params "PH301".
Proof.
  split.
  - split.
    + right. left.
    + intros o Ho. unfold Sample.master_schedule in Ho.
      repeat (apply elem_of_cons in Ho as [->|Ho]); try done.
      by apply elem_of_nil in Ho.
  - intros (self & log & Hcon & _).
    apply (f_equal fst) in Hcon. vm_compute in Hcon. discriminate.
Qed.

(** C8, amended: the missing offerings are not fatal for [StudentData],
    which is built with an empty group for the course and logs the warning;
    the construction of the scheduler then raises, so that no run follows
    and no schedule is produced. *)
Theorem unoffered_course_warns_then_fails sid master regs params course :
  registered_unoffered sid master regs course →
  ∃ sd log c,
    prepare_student_data sid master regs = (Ok sd, log)
    ∧ Warning ("No lectures found in master_schedule for registered course: " +:+ course) ∈ log
    ∧ course ∈ student_courses sd
    ∧ get (lecture_groups sd) course = []
    ∧ construct sid master regs params = (Raise (no_lectures_error c), log)
    ∧ ¬ proceeds_with_warning sid master regs params course.
Proof.
  intros Hun.
  destruct (construct_unoffered _ _ _ params _ Hun)
    as (sd & log & c & Hsd & Hwarn & [Hin Hempty] & _ & _ & Hcon).
  exists sd, log, c. repeat split; try done.
  intros (self & log' & Hcon' & _). rewrite Hcon in Hcon'. discriminate.
Qed.

Lemma unoffered_course_warns_then_fails_witness :
  ∃ sd c,
    prepare_student_data "S1" Sample.master_schedule
                         Sample.registrations_unmatched
    = (Ok sd, [Warning "No lectures found in master_schedule for registered course: PH301"])
    ∧ construct "S1" Sample.master_schedule Sample.registrations_unmatched
                Sample.params
      = (Raise (no_lectures_error c),
         [Warning "No lectures found in master_schedule for registered course: PH301"]).
Proof.
  destruct (unoffered_course_warns_then_fails "S1" Sample.master_schedule
              Sample.registrations_unmatched Sample.params "PH301")
    as (sd & log & c & Hsd & _ & _ & _ & Hcon & _).
  - split.
    + right. left.
    + intros o Ho. unfold Sample.master_schedule in Ho.
      repeat (apply elem_of_cons in Ho as [->|Ho]); try done.
      by apply elem_of_nil in Ho.
  - assert (snd (prepare_student_data "S1" Sample.master_schedule
                   Sample.registrations_unmatched)
            = [Warning "No lectures found in master_schedule for registered course: PH301"])
      as Hlog by (by vm_compute).
    rewrite Hsd in Hlog. cbn [snd] in Hlog. subst log.
    by exists sd, c.
Defined.

End UnofferedTheorems.

(** ** Elitism in the evolution engine *)

Section Elitism.
Import Engine.

Variable fitness : list Q → Q.
Variable gene_space : list GeneBound.
Variable num_parents_mating : nat.
Variable sol_per_pop : nat.

Abbreviation better := (Engine.better fitness).
Abbreviation step :=
  (Engine.step fitness gene_space num_parents_mating sol_per_pop).
Abbreviation run :=
  (Engine.run fitness gene_space num_parents_mating sol_per_pop).
Abbreviation initialize := (Engine.initialize fitness).
Abbreviation elitist := (Engine.elitist fitness).

Lemma better_ge_l a b : (fitness a <= fitness (better a b))%Q.
Proof.
  unfold Engine.better. destruct (Qlt_le_dec _ _) as [Hlt|Hle].
  - by apply Qlt_le_weak.
  - apply Qle_refl.
Qed.

Lemma better_ge_r a b : (fitness b <= fitness (better a b))%Q.
Proof.
  unfold Engine.better. destruct (Qlt_le_dec _ _) as [Hlt|Hle].
  - apply Qle_refl.
  - done.
Qed.

Lemma best_ge_start l : ∀ b, (fitness b <= fitness (foldl better b l))%Q.
Proof.
  induction l as [|c l IH]; intros b; cbn [foldl]; [apply Qle_refl|].
  eapply Qle_trans; [apply (better_ge_l b c) | apply IH].
Qed.

Lemma best_ge_all l :
  ∀ b c, c ∈ l → (fitness c <= fitness (foldl better b l))%Q.
Proof.
  induction l as [|x l IH]; intros b c Hc; [by apply elem_of_nil in Hc|].
  cbn [foldl]. apply elem_of_cons in Hc as [->|Hc].
  - eapply Qle_trans; [apply (better_ge_r b x) | apply best_ge_start].
  - by apply IH.
Qed.

Lemma initialize_elitist first others : elitist (initialize first others).
Proof.
  split; [|split].
  - intros c [->|Hc]%elem_of_cons; [apply best_ge_start | by apply best_ge_all].
  - done.
  - intros n f g Hf. unfold reported in Hf. cbn in Hf.
    by rewrite lookup_nil in Hf.
Qed.

Lemma step_best_ever_in st draws :
  best_ever (step st draws) ∈ population (step st draws).
Proof.
  unfold Engine.step. cbn [population best_ever]. by left.
Qed.

Lemma step_best_ever_ge st draws :
  (fitness (best_ever st) <= fitness (best_ever (step st draws)))%Q.
Proof. apply best_ge_start. Qed.

Lemma step_elitist st draws : elitist st → elitist (step st draws).
Proof.
  intros (Hpop & Hlast & Hmono).
  pose proof (step_best_ever_ge st draws) as Hge.
  split; [|split].
  - intros c Hc. unfold Engine.step in Hc |- *. cbn [population best_ever] in *.
    apply elem_of_cons in Hc as [->|Hc]; [apply Qle_refl|].
    by apply best_ge_all.
  - intros f. unfold reported, Engine.step. cbn [events best_ever].
    rewrite fmap_app. cbn [fmap list_fmap snd]. rewrite last_snoc.
    by intros [= <-].
  - intros n f g. unfold reported in *. unfold Engine.step in Hge |- *.
    cbn [events best_ever] in *. rewrite fmap_app. cbn [fmap list_fmap].
    intros Hf Hg.
    destruct (decide (S n < length (snd <$> events st))%nat) as [Hlt|Hnlt].
    + rewrite lookup_app_l in Hf by lia. rewrite lookup_app_l in Hg by done.
      by eapply Hmono.
    + apply lookup_lt_Some in Hg as Hlen. rewrite length_app in Hlen.
      cbn in Hlen.
      assert (S n = length (snd <$> events st)) as Hn by lia.
      rewrite lookup_app_l in Hf by lia.
      rewrite Hn, list_lookup_middle in Hg by done. injection Hg as <-.
      assert (last (snd <$> events st) = Some f) as Hl.
      { rewrite last_lookup, <- Hn. done. }
      by rewrite (Hlast f Hl).
Qed.

Lemma run_snoc st gens draws :
  run st (gens ++ [draws]) = step (run st gens) draws.
Proof. unfold Engine.run. by rewrite foldl_app. Qed.

Lemma run_elitist st gens : elitist st → elitist (run st gens).
Proof.
  intros Hst. induction gens as [|draws gens IH] using rev_ind; [done|].
  rewrite run_snoc. by apply step_elitist.
Qed.

Lemma run_reported_length st gens :
  length (reported (run st gens)) = (length (reported st) + length gens)%nat.
Proof.
  induction gens as [|draws gens IH] using rev_ind; [cbn; lia|].
  rewrite run_snoc. unfold reported in *. unfold Engine.step at 1.
  cbn [events]. rewrite fmap_app, !length_app, IH. cbn. lia.
Qed.

(** C6: in a run of the engine, whatever the initial population and the
    random draws, the best fitness reported after generation [n + 1] is at
    least the one reported after generation [n]; one value is reported per
    generation; the best chromosome observed so far is a member of every
    population after the first step and no member of the population beats
    it. *)
Theorem best_fitness_non_decreasing first others gens :
  let st := run (initialize first others) gens in
  length (reported st) = length gens
  ∧ (∀ n f g,
       reported st !! n = Some f → reported st !! S n = Some g → (f <= g)%Q)
  ∧ (∀ f, last (reported st) = Some f → f = fitness (best_ever st))
  ∧ (∀ c, c ∈ population st → (fitness c <= fitness (best_ever st))%Q)
  ∧ (gens ≠ [] → best_ever st ∈ population st).
Proof.
  cbn zeta.
  destruct (run_elitist (initialize first others) gens
              (initialize_elitist first others)) as (Hpop & Hlast & Hmono).
  split; [by rewrite run_reported_length|].
  split; [exact Hmono|]. split; [exact Hlast|]. split; [exact Hpop|].
  intros Hne. destruct gens as [|d gens _] using rev_ind; [done|].
  rewrite run_snoc. apply step_best_ever_in.
Qed.

End Elitism.

Lemma best_fitness_non_decreasing_witness :
  let st := Engine.run SampleRun.student_fitness SampleRun.gene_space 2 2
              (Engine.initialize SampleRun.student_fitness SampleRun.first
                                 SampleRun.others)
              SampleRun.draws in
  length (Engine.reported st) = 2%nat
  ∧ Engine.best_ever st ∈ Engine.population st.
Proof.
  cbn zeta.
  destruct (best_fitness_non_decreasing SampleRun.student_fitness
              SampleRun.gene_space 2 2 SampleRun.first SampleRun.others
              SampleRun.draws) as (Hlen & _ & _ & _ & Hin).
  split; [exact Hlen|]. apply Hin. discriminate.
Defined.

(** ** Distinct elements *)

Section Distinct.
Import Counting.
Context {A : Type} `{Countable A}.

Lemma distinct_size (l : list A) :
  distinct l = size (list_to_set l : gset A).
Proof.
  unfold distinct.
  rewrite <- (size_list_to_set (C := gset A) (remove_dups l))
    by apply NoDup_remove_dups.
  f_equal. apply set_eq. intros x.
  by rewrite !elem_of_list_to_set, elem_of_remove_dups.
Qed.

Lemma distinct_snoc (l : list A) x :
  distinct (l ++ [x]) = (distinct l + if decide (x ∈ l) then 0 else 1)%nat.
Proof.
  rewrite !distinct_size, list_to_set_snoc_L.
  destruct (decide (x ∈ l)) as [Hin|Hnot].
  - rewrite Nat.add_0_r. f_equal. apply set_eq. intros y.
    rewrite elem_of_union, elem_of_singleton, !elem_of_list_to_set.
    split; [intros [?| ->]; done | by left].
  - rewrite size_union, size_singleton; [done|].
    intros y Hy ->%elem_of_singleton. by apply elem_of_list_to_set in Hy.
Qed.

Lemma distinct_perm (l k : list A) : l ≡ₚ k → distinct l = distinct k.
Proof.
  intros Hperm. rewrite !distinct_size. f_equal. apply set_eq. intros x.
  by rewrite !elem_of_list_to_set, Hperm.
Qed.

Lemma distinct_le_length (l : list A) : (distinct l ≤ length l)%nat.
Proof.
  unfold distinct. apply submseteq_length, NoDup_submseteq.
  - apply NoDup_remove_dups.
  - intros x. by rewrite elem_of_remove_dups.
Qed.

Lemma distinct_pos (l : list A) : l ≠ [] → (1 ≤ distinct l)%nat.
Proof.
  destruct l as [|x l]; [done|]. intros _. rewrite distinct_size.
  assert (size (list_to_set (x :: l) : gset A) ≠ 0%nat); [|lia].
  apply size_non_empty_iff. intros Hempty.
  assert (x ∈ (list_to_set (x :: l) : gset A)) as Hx
    by (apply elem_of_list_to_set; by left).
  rewrite Hempty in Hx. by apply elem_of_empty in Hx.
Qed.

(** A list all of whose elements come from [k] has at most [length k]
    distinct elements. *)
Lemma distinct_le_pool (l k : list A) :
  (∀ x, x ∈ l → x ∈ k) → (distinct l ≤ length k)%nat.
Proof.
  intros Hsub. unfold distinct. apply submseteq_length, NoDup_submseteq.
  - apply NoDup_remove_dups.
  - intros x Hx. apply Hsub. by apply elem_of_remove_dups.
Qed.

Lemma distinct_app_ge (l k : list A) : (distinct l ≤ distinct (l ++ k))%nat.
Proof.
  rewrite !distinct_size. apply subseteq_size. intros x.
  rewrite !elem_of_list_to_set, elem_of_app. by left.
Qed.

End Distinct.

(** ** The penalty in closed form *)

Section ClosedForm.
Import Institution InstitutionSpec Counting.

Implicit Types prefs : gmap (string * string) (list (string * string)).

Lemma teacher_taken_keys earlier l :
  teacher_taken earlier l
  = bool_decide ((teacher_id l, timeslot l) ∈ teacher_keys earlier).
Proof.
  unfold teacher_taken, teacher_keys. apply bool_decide_ext.
  rewrite Exists_exists, list_elem_of_fmap. split.
  - intros (e & He & Ht & Hs). exists e. by rewrite Ht, Hs.
  - intros (e & [= Ht Hs] & He). by exists e.
Qed.

Lemma room_taken_keys earlier l :
  room_taken earlier l
  = bool_decide ((room_id l, timeslot l) ∈ room_keys earlier).
Proof.
  unfold room_taken, room_keys. apply bool_decide_ext.
  rewrite Exists_exists, list_elem_of_fmap. split.
  - intros (e & He & Ht & Hs). exists e. by rewrite Ht, Hs.
  - intros (e & [= Ht Hs] & He). by exists e.
Qed.

Lemma availability_charge_decide prefs l :
  availability_charge prefs l
  = if decide (¬ within_preference prefs l) then 500 else 0.
Proof.
  destruct (decide (¬ within_preference prefs l)) as [Hout|Hin].
  - destruct (availability_charge_range prefs l) as [Hz|Hz]; [|done].
    by apply availability_charge_zero in Hz.
  - apply availability_charge_zero. by apply dec_stable.
Qed.

Lemma charges_closed prefs rest :
  ∀ earlier,
    charges prefs earlier rest
    = 1000 * (Z.of_nat (length rest)
              - (Z.of_nat (distinct (teacher_keys (earlier ++ rest)))
                 - Z.of_nat (distinct (teacher_keys earlier))))
      + 1000 * (Z.of_nat (length rest)
                - (Z.of_nat (distinct (room_keys (earlier ++ rest)))
                   - Z.of_nat (distinct (room_keys earlier))))
      + 500 * Z.of_nat (outside_preference prefs rest).
Proof.
  induction rest as [|l rest IH]; intros earlier.
  - rewrite app_nil_r. cbn. lia.
  - cbn [charges]. rewrite IH, <- app_assoc. cbn [app].
    unfold charge. rewrite teacher_taken_keys, room_taken_keys.
    rewrite availability_charge_decide.
    unfold outside_preference. rewrite filter_cons.
    unfold teacher_keys, room_keys. rewrite !(fmap_app _ earlier [l]).
    cbn [fmap list_fmap]. rewrite !distinct_snoc.
    destruct (decide (¬ within_preference prefs l));
      repeat case_bool_decide; repeat case_decide; try done;
      cbn [length]; lia.
Qed.

(** The penalty of a schedule whose slots all have one underscore. *)
Lemma calculate_penalty_closed self schedule :
  Forall well_slotted schedule →
  calculate_penalty self schedule
  = Ok (1000 * (Z.of_nat (length schedule)
                - Z.of_nat (distinct (teacher_keys schedule)))
        + 1000 * (Z.of_nat (length schedule)
                  - Z.of_nat (distinct (room_keys schedule)))
        + 500 * Z.of_nat (outside_preference
                            (teacher_pref_dict (data_preparer self)) schedule)).
Proof.
  intros Hall. rewrite calculate_penalty_charges by done.
  rewrite charges_closed. cbn [app]. f_equal. cbn. lia.
Qed.

End ClosedForm.

(** ** More on the penalty of the institution scheduler *)

Section PenaltyExtras.
Import Institution InstitutionSpec Counting.

Implicit Types prefs : gmap (string * string) (list (string * string)).

Lemma penalty_step_well_slotted prefs st l :
  well_slotted l → ∃ st', penalty_step prefs st l = Ok st'.
Proof.
  intros (day & time & Hsplit). unfold penalty_step. rewrite Hsplit.
  destruct (prefs !! _); [destruct (negb _)|]; eauto.
Qed.

Lemma penalty_step_no_underscore prefs st l x :
  Py.split "_" (timeslot l) = [x] →
  penalty_step prefs st l = Raise (Py.ValueError "not enough values to unpack").
Proof. intros Hsplit. unfold penalty_step. by rewrite Hsplit. Qed.

Lemma penalty_step_many_underscores prefs st l x y z rest :
  Py.split "_" (timeslot l) = x :: y :: z :: rest →
  penalty_step prefs st l = Raise (Py.ValueError "too many values to unpack").
Proof. intros Hsplit. unfold penalty_step. by rewrite Hsplit. Qed.

Lemma penalty_loop_prefix prefs good :
  Forall well_slotted good →
  ∀ st rest, ∃ st',
    for_each (penalty_step prefs) st (good ++ rest)
    = for_each (penalty_step prefs) st' rest.
Proof.
  induction 1 as [|l good Hl _ IH]; intros st rest; [by exists st|].
  destruct (penalty_step_well_slotted prefs st l Hl) as [st1 Hstep].
  destruct (IH st1 rest) as [st' Hrun]. exists st'.
  cbn [app for_each]. rewrite Hstep. exact Hrun.
Qed.

Lemma calculate_penalty_Ok_slots self schedule p :
  calculate_penalty self schedule = Ok p → Forall well_slotted schedule.
Proof.
  intros Hp. unfold calculate_penalty in Hp.
  apply bind_Ok_inv in Hp as (st & Hrun & _).
  revert Hrun. generalize (mkPS 0 ∅ ∅). clear p.
  induction schedule as [|l ls IH]; intros st0 Hrun; [constructor|].
  cbn [for_each] in Hrun. apply bind_Ok_inv in Hrun as (st1 & Hstep & Hrest).
  constructor; [by eapply penalty_step_ill_slotted | by eapply IH].
Qed.

(** X1: [_calculate_penalty] returns a number exactly when every slot of
    the schedule has one underscore.  At the first lecture whose slot has
    none, the unpacking of [split('_')] raises ValueError for too few
    values; at the first with two or more, for too many. *)
Theorem penalty_raises_on_bad_slot self schedule :
  ((∃ p, calculate_penalty self schedule = Ok p)
   ↔ Forall well_slotted schedule)
  ∧ (∀ good l rest x,
       schedule = good ++ l :: rest →
       Forall well_slotted good →
       Py.split "_" (timeslot l) = [x] →
       calculate_penalty self schedule
       = Raise (Py.ValueError "not enough values to unpack"))
  ∧ (∀ good l rest x y z more,
       schedule = good ++ l :: rest →
       Forall well_slotted good →
       Py.split "_" (timeslot l) = x :: y :: z :: more →
       calculate_penalty self schedule
       = Raise (Py.ValueError "too many values to unpack")).
Proof.
  split; [|split].
  - split.
    + intros [p Hp]. by eapply calculate_penalty_Ok_slots.
    + intros Hall. rewrite calculate_penalty_charges by done. eauto.
  - intros good l rest x -> Hgood Hsplit. unfold calculate_penalty.
    destruct (penalty_loop_prefix (teacher_pref_dict (data_preparer self))
                good Hgood (mkPS 0 ∅ ∅) (l :: rest)) as [st' ->].
    cbn [for_each]. by rewrite (penalty_step_no_underscore _ _ _ _ Hsplit).
  - intros good l rest x y z more -> Hgood Hsplit. unfold calculate_penalty.
    destruct (penalty_loop_prefix (teacher_pref_dict (data_preparer self))
                good Hgood (mkPS 0 ∅ ∅) (l :: rest)) as [st' ->].
    cbn [for_each].
    by rewrite (penalty_step_many_underscores _ _ _ _ _ _ _ Hsplit).
Qed.

Lemma penalty_raises_on_bad_slot_witness :
  match Sample2.scheduler with
  | Py.Ok self =>
      calculate_penalty self Sample2.schedule_bad_slot
      = Raise (Py.ValueError "not enough values to unpack")
  | Py.Raise _ => False
  end.
Proof.
  destruct Sample2.scheduler as [self|e] eqn:Hself;
    [|by vm_compute in Hself].
  destruct (penalty_raises_on_bad_slot self Sample2.schedule_bad_slot)
    as (_ & Hfew & _).
  apply (Hfew [mkLecture "CS101" "T1" "R1" "Sunday_11:00"]
              (mkLecture "CS101" "T1" "R1" "Sunday") [] "Sunday").
  - reflexivity.
  - repeat constructor. by exists "Sunday", "11:00".
  - reflexivity.
Defined.

End PenaltyExtras.

Section PenaltyCounting.
Import Institution InstitutionSpec Counting.

(** X2: on a schedule with regular slots the penalty is 1000 for every
    lecture beyond the distinct (teacher, timeslot) pairs, 1000 for every
    lecture beyond the distinct (room, timeslot) pairs, and 500 for every
    lecture outside the windows of its teacher. *)
Theorem penalty_counts_repeats self schedule :
  Forall well_slotted schedule →
  calculate_penalty self schedule
  = Ok (1000 * (Z.of_nat (length schedule)
                - Z.of_nat (distinct (teacher_keys schedule)))
        + 1000 * (Z.of_nat (length schedule)
                  - Z.of_nat (distinct (room_keys schedule)))
        + 500 * Z.of_nat (outside_preference
                            (teacher_pref_dict (data_preparer self)) schedule)).
Proof. apply calculate_penalty_closed. Qed.

Lemma penalty_counts_repeats_witness :
  match Sample2.scheduler with
  | Py.Ok self => calculate_penalty self Sample2.schedule = Ok 2000
  | Py.Raise _ => False
  end.
Proof.
  destruct Sample2.scheduler as [self|e] eqn:Hself;
    [|by vm_compute in Hself].
  rewrite (penalty_counts_repeats self Sample2.schedule).
  - vm_compute in Hself. injection Hself as <-. by vm_compute.
  - repeat constructor;
      [by exists "Sunday", "11:00" | by exists "Thursday", "16:00"
       | by exists "Sunday", "11:00"].
Defined.

(** X3: the penalty does not depend on the order of the lectures. *)
Theorem penalty_order_independent self schedule schedule' :
  Forall well_slotted schedule →
  schedule ≡ₚ schedule' →
  calculate_penalty self schedule = calculate_penalty self schedule'.
Proof.
  intros Hall Hperm.
  assert (Forall well_slotted schedule') as Hall' by by rewrite <- Hperm.
  rewrite !calculate_penalty_closed by done.
  unfold teacher_keys, room_keys, outside_preference.
  rewrite (distinct_perm (_ <$> schedule) (_ <$> schedule'))
    by by apply fmap_Permutation.
  rewrite (distinct_perm ((fun l => (room_id l, timeslot l)) <$> schedule)
                         ((fun l => (room_id l, timeslot l)) <$> schedule'))
    by by apply fmap_Permutation.
  by rewrite Hperm.
Qed.

Lemma penalty_order_independent_witness :
  match Sample2.scheduler with
  | Py.Ok self =>
      calculate_penalty self Sample2.schedule
      = calculate_penalty self (reverse Sample2.schedule)
  | Py.Raise _ => False
  end.
Proof.
  destruct Sample2.scheduler as [self|e] eqn:Hself;
    [|by vm_compute in Hself].
  apply penalty_order_independent.
  - repeat constructor;
      [by exists "Sunday", "11:00" | by exists "Thursday", "16:00"
       | by exists "Sunday", "11:00"].
  - symmetry. apply reverse_Permutation.
Defined.

(** X4: the penalty is a multiple of 500 between 0 and [2500 * n] for [n]
    lectures, and at most [2500 * n - 2000] when there is a lecture, the
    first lecture of a scan never being a repeat. *)
Theorem penalty_range self schedule p :
  calculate_penalty self schedule = Ok p →
  0 ≤ p ≤ 2500 * Z.of_nat (length schedule)
  ∧ (500 | p)
  ∧ (schedule ≠ [] → p ≤ 2500 * Z.of_nat (length schedule) - 2000).
Proof.
  intros Hp.
  assert (Forall well_slotted schedule) as Hall.
  { by eapply calculate_penalty_Ok_slots. }
  rewrite calculate_penalty_closed in Hp by done. injection Hp as <-.
  pose proof (distinct_le_length (teacher_keys schedule)) as Ht.
  pose proof (distinct_le_length (room_keys schedule)) as Hr.
  pose proof (length_filter (fun l => ¬ within_preference
                 (teacher_pref_dict (data_preparer self)) l) schedule) as Ho.
  fold (outside_preference (teacher_pref_dict (data_preparer self)) schedule)
    in Ho.
  unfold teacher_keys, room_keys in Ht, Hr. rewrite length_fmap in Ht, Hr.
  split; [unfold teacher_keys, room_keys; lia|]. split.
  - exists (2 * (Z.of_nat (length schedule)
                 - Z.of_nat (distinct (teacher_keys schedule)))
            + 2 * (Z.of_nat (length schedule)
                   - Z.of_nat (distinct (room_keys schedule)))
            + Z.of_nat (outside_preference
                          (teacher_pref_dict (data_preparer self)) schedule)).
    lia.
  - intros Hne.
    assert (teacher_keys schedule ≠ []) as Htk
      by (unfold teacher_keys; by destruct schedule).
    assert (room_keys schedule ≠ []) as Hrk
      by (unfold room_keys; by destruct schedule).
    apply distinct_pos in Htk, Hrk. lia.
Qed.

End PenaltyCounting.

Section Pigeonhole.
Import Institution InstitutionSpec Counting.

Lemma decoded_length self solution schedule :
  decode_solution self solution = Ok schedule →
  length schedule = num_lectures self.
Proof.
  intros Hdec%decode_solution_inv. apply Forall2_length in Hdec.
  by rewrite length_seq in Hdec.
Qed.

Lemma penalty_range_witness :
  match Sample2.scheduler with
  | Py.Ok self =>
      ∃ p, calculate_penalty self Sample2.schedule = Ok p
           ∧ 0 ≤ p ≤ 5500 ∧ (500 | p)
  | Py.Raise _ => False
  end.
Proof.
  destruct Sample2.scheduler as [self|e] eqn:Hself;
    [|by vm_compute in Hself].
  assert (calculate_penalty self Sample2.schedule = Ok 2000) as Hp.
  { vm_compute in Hself. injection Hself as <-. by vm_compute. }
  exists 2000. split; [exact Hp|].
  destruct (penalty_range self Sample2.schedule 2000 Hp) as (Hr & Hd & Hne).
  split; [|exact Hd]. split; [lia|]. specialize (Hne ltac:(done)).
  cbn in Hne. lia.
Defined.

(** X5: a decoded schedule places every lecture in one of the rooms at one
    of the 45 timeslots, so with more lectures than [45 * rooms] the penalty
    of every chromosome is at least 1000 per lecture in excess; likewise for
    more lectures than 45 per distinct teacher. *)
Theorem crowded_schedule_penalty c r tc tp dp params solution schedule p :
  prepare_data c r tc tp = Ok dp →
  decode_solution (SchedulerGA_init dp params) solution = Ok schedule →
  calculate_penalty (SchedulerGA_init dp params) schedule = Ok p →
  length schedule = length (lectures_to_schedule dp)
  ∧ 1000 * (Z.of_nat (length schedule) - 45 * Z.of_nat (length (classrooms dp)))
    ≤ p
  ∧ 1000 * (Z.of_nat (length schedule)
            - 45 * Z.of_nat (distinct (teacher_id <$> schedule)))
    ≤ p.
Proof.
  intros Hdp Hdec Hp.
  pose proof (decoded_length _ _ _ Hdec) as Hlen.
  pose proof (decode_solution_inv _ _ _ Hdec) as Hinv.
  pose proof (prepare_data_timeslots _ _ _ _ _ Hdp) as Hslots.
  cbn [data_preparer SchedulerGA_init num_lectures] in *.
  rewrite calculate_penalty_closed in Hp by (by eapply decoded_well_slotted).
  injection Hp as <-.
  assert (∀ l, l ∈ schedule →
               room_id l ∈ classrooms dp ∧ timeslot l ∈ timeslots dp) as Hin.
  { intros l Hl. apply list_elem_of_lookup in Hl as [i Hl].
    destruct (Forall2_lookup_r _ _ _ _ _ Hinv Hl) as (j & _ & _ & Hroom & Hslot).
    done. }
  assert (length (timeslots dp) = 45%nat) as H45 by by rewrite Hslots.
  assert (distinct (room_keys schedule) ≤ length (classrooms dp) * 45)%nat
    as Hrooms.
  { rewrite <- H45, <- length_prod, <- list_cprod_list_prod.
    apply distinct_le_pool. intros [room slot] Hk.
    apply list_elem_of_fmap in Hk as (l & [= -> ->] & Hl).
    apply list_elem_of_cprod. cbn. by apply Hin. }
  assert (distinct (teacher_keys schedule)
          ≤ distinct (teacher_id <$> schedule) * 45)%nat as Hteachers.
  { unfold distinct at 2.
    rewrite <- H45, <- length_prod, <- list_cprod_list_prod.
    apply distinct_le_pool. intros [teacher slot] Hk.
    apply list_elem_of_fmap in Hk as (l & [= -> ->] & Hl).
    apply list_elem_of_cprod. cbn. split; [|by apply Hin].
    apply elem_of_remove_dups. by apply list_elem_of_fmap_2. }
  pose proof (distinct_le_length (teacher_keys schedule)) as Ht.
  pose proof (distinct_le_length (room_keys schedule)) as Hr.
  unfold teacher_keys, room_keys in Ht, Hr. rewrite length_fmap in Ht, Hr.
  unfold teacher_keys, room_keys in *. split; [done|]. split; lia.
Qed.

Lemma crowded_schedule_penalty_witness :
  ∃ dp schedule p,
    prepare_data Sample2.crowded_courses Sample.classrooms
                 Sample.teacher_courses Sample.teacher_preferences = Ok dp
    ∧ decode_solution (SchedulerGA_init dp Sample.params)
                      Sample2.crowded_solution = Ok schedule
    ∧ calculate_penalty (SchedulerGA_init dp Sample.params) schedule = Ok p
    ∧ 1000 ≤ p.
Proof.
  eassert (prepare_data Sample2.crowded_courses Sample.classrooms
             Sample.teacher_courses Sample.teacher_preferences = Ok _) as Hdp
    by (vm_compute; reflexivity).
  match type of Hdp with
  | _ = Ok ?dp =>
      eassert (decode_solution (SchedulerGA_init dp Sample.params)
                 Sample2.crowded_solution = Ok _) as Hdec
        by (vm_compute; reflexivity)
  end.
  match type of Hdec with
  | decode_solution ?self _ = Ok ?schedule =>
      eassert (calculate_penalty self schedule = Ok _) as Hp
        by (vm_compute; reflexivity)
  end.
  eexists. eexists. eexists.
  split; [exact Hdp|]. split; [exact Hdec|]. split; [exact Hp|].
  destruct (crowded_schedule_penalty _ _ _ _ _ _ _ _ _ Hdp Hdec Hp)
    as (_ & Hrooms & _).
  etransitivity; [|exact Hrooms]. by vm_compute.
Defined.

End Pigeonhole.

(** ** The prepared institution data *)

Section PreparedData.
Import Institution InstitutionSpec Prepared.

Lemma add_preference_lookup m row k :
  add_preference m row !! k
  = if decide ((p_teacher_id row, p_day row) = k)
    then Some (default [] (m !! k)
               ++ [(preferred_start_time row, preferred_end_time row)])
    else m !! k.
Proof.
  unfold add_preference. cbn zeta.
  destruct (decide ((p_teacher_id row, p_day row) = k)) as [<-|Hne].
  - rewrite lookup_alter_eq.
    destruct (m !! (p_teacher_id row, p_day row)) as [ws|] eqn:Hm.
    + by rewrite Hm.
    + by rewrite lookup_insert_eq.
  - rewrite lookup_alter_ne by done.
    destruct (m !! (p_teacher_id row, p_day row)); [done|].
    by rewrite lookup_insert_ne.
Qed.

Lemma windows_of_cons row tp k :
  windows_of (row :: tp) k
  = if decide ((p_teacher_id row, p_day row) = k)
    then (preferred_start_time row, preferred_end_time row) :: windows_of tp k
    else windows_of tp k.
Proof.
  unfold windows_of. rewrite filter_cons. by destruct (decide _).
Qed.

Lemma preference_loop_lookup tp :
  ∀ m k,
    foldl add_preference m tp !! k
    = match windows_of tp k with
      | [] => m !! k
      | ws => Some (default [] (m !! k) ++ ws)
      end.
Proof.
  induction tp as [|row tp IH]; intros m k; [done|].
  cbn [foldl]. rewrite IH, add_preference_lookup, windows_of_cons.
  destruct (decide ((p_teacher_id row, p_day row) = k)) as [Hk|Hk];
    destruct (windows_of tp k) as [|w ws]; try done.
  change (default [] (Some ?x)) with x. by rewrite <- app_assoc.
Qed.

Lemma preference_lookup_prepared c r tc tp dp teacher day :
  prepare_data c r tc tp = Ok dp →
  teacher_pref_dict dp !! (teacher, day)
  = match windows_of tp (teacher, day) with
    | [] => None
    | ws => Some ws
    end.
Proof.
  unfold prepare_data. intros (ls & _ & [= <-])%bind_Ok_inv.
  cbn [teacher_pref_dict]. rewrite preference_loop_lookup, lookup_empty.
  by destruct (windows_of tp (teacher, day)).
Qed.

(** X6: the preference dictionary holds, for a teacher and a day, the list
    of the windows of the preference rows of that teacher and day in table
    order, and has no entry for a teacher and day without rows. *)
Theorem teacher_pref_dict_lookup c r tc tp dp teacher day :
  prepare_data c r tc tp = Ok dp →
  teacher_pref_dict dp !! (teacher, day)
  = match windows_of tp (teacher, day) with
    | [] => None
    | ws => Some ws
    end.
Proof. apply preference_lookup_prepared. Qed.

Lemma teacher_pref_dict_lookup_witness :
  ∃ dp,
    prepare_data Sample.courses Sample.classrooms Sample.teacher_courses
                 Sample.teacher_preferences = Ok dp
    ∧ teacher_pref_dict dp !! ("T1", "Monday") = Some [("10:00", "16:00")]
    ∧ teacher_pref_dict dp !! ("T1", "Tuesday") = None.
Proof.
  eassert (prepare_data Sample.courses Sample.classrooms
             Sample.teacher_courses Sample.teacher_preferences = Ok _) as Hdp
    by (vm_compute; reflexivity).
  eexists. split; [exact Hdp|].
  rewrite !(teacher_pref_dict_lookup _ _ _ _ _ _ _ Hdp). by split.
Defined.

End PreparedData.

Section CourseLookup.
Import Institution InstitutionSpec Prepared.

Lemma lookup_missing c cid :
  cid ∉ course_ids c → lookup_lectures_per_week c cid = Raise Py.IndexError.
Proof.
  intros Hnot. unfold lookup_lectures_per_week.
  rewrite filter_none; [done|]. intros row Hrow Hid. apply Hnot.
  unfold course_ids. rewrite <- Hid. by apply list_elem_of_fmap_2.
Qed.

(** The first row of the table with the course id decides. *)
Lemma lookup_first pre row post :
  c_course_id row ∉ course_ids pre →
  lookup_lectures_per_week (pre ++ row :: post) (c_course_id row)
  = Ok (lectures_per_week row).
Proof.
  intros Hnot. unfold lookup_lectures_per_week.
  rewrite filter_app, filter_cons, decide_True by done.
  rewrite filter_none; [done|]. intros row' Hrow' Hid. apply Hnot.
  unfold course_ids. rewrite <- Hid. by apply list_elem_of_fmap_2.
Qed.

Lemma lookup_present c cid :
  cid ∈ course_ids c → ∃ n, lookup_lectures_per_week c cid = Ok n.
Proof.
  intros (row & -> & Hrow)%list_elem_of_fmap. unfold lookup_lectures_per_week.
  destruct (filter _ c) as [|row' rows] eqn:Hf; [|eauto].
  assert (row ∈ filter (fun r => c_course_id r = c_course_id row) c) as Hin
    by by apply list_elem_of_filter.
  rewrite Hf in Hin. by apply elem_of_nil in Hin.
Qed.

Lemma add_lectures_found c acc row n :
  lookup_lectures_per_week c (tc_course_id row) = Ok n →
  ∃ ls, add_lectures c acc row = Ok ls.
Proof. intros Hn. unfold add_lectures. cbn zeta. rewrite Hn. cbn. eauto. Qed.

Lemma add_lectures_missing c acc row :
  tc_course_id row ∉ course_ids c →
  add_lectures c acc row = Raise Py.IndexError.
Proof.
  intros Hnot. unfold add_lectures. cbn zeta. by rewrite lookup_missing.
Qed.

Lemma add_lectures_loop_ok c tc :
  Forall (fun row => tc_course_id row ∈ course_ids c) tc →
  ∀ acc, ∃ ls, for_each (add_lectures c) acc tc = Ok ls.
Proof.
  induction 1 as [|row tc Hrow _ IH]; intros acc; [by exists acc|].
  destruct (lookup_present _ _ Hrow) as [n Hn].
  destruct (add_lectures_found c acc row n Hn) as [ls Hls].
  cbn [for_each]. rewrite Hls. cbn. apply IH.
Qed.

Lemma add_lectures_loop_raises c tc :
  Exists (fun row => tc_course_id row ∉ course_ids c) tc →
  ∀ acc, for_each (add_lectures c) acc tc = Raise Py.IndexError.
Proof.
  induction tc as [|row tc IH]; intros Hex acc; [by apply Exists_nil in Hex|].
  cbn [for_each].
  destruct (decide (tc_course_id row ∈ course_ids c)) as [Hin|Hnot].
  - destruct (lookup_present _ _ Hin) as [n Hn].
    destruct (add_lectures_found c acc row n Hn) as [ls ->]. cbn.
    apply Exists_cons in Hex as [Hex|Hex]; [done|]. by apply IH.
  - by rewrite add_lectures_missing.
Qed.

(** X7: [DataPreparer] is built exactly when every row of [teacher_courses]
    names a course of the course table; otherwise its construction raises
    IndexError (the empty [.iloc[0]]).  When the table lists a course id
    more than once, the first row gives [lectures_per_week]. *)
Theorem prepare_data_needs_courses c r tc tp :
  ((∃ dp, prepare_data c r tc tp = Ok dp)
   ↔ ∀ row, row ∈ tc → tc_course_id row ∈ course_ids c)
  ∧ ((∃ row, row ∈ tc ∧ tc_course_id row ∉ course_ids c)
     → prepare_data c r tc tp = Raise Py.IndexError)
  ∧ (∀ pre row post,
       c = pre ++ row :: post →
       c_course_id row ∉ course_ids pre →
       lookup_lectures_per_week c (c_course_id row)
       = Ok (lectures_per_week row)).
Proof.
  split; [|split].
  - split.
    + intros [dp Hdp] row Hrow.
      destruct (prepare_data_lectures _ _ _ _ _ Hdp) as [_ Hall].
      destruct (proj1 (Forall_forall _ tc) Hall row Hrow) as [n Hn].
      destruct (decide (tc_course_id row ∈ course_ids c)) as [|Hnot]; [done|].
      by rewrite lookup_missing in Hn.
    + intros Hall. unfold prepare_data.
      destruct (add_lectures_loop_ok c tc) with (acc := @nil LectureReq)
        as [ls ->]; [by apply Forall_forall|].
      cbn. eauto.
  - intros (row & Hrow & Hnot). unfold prepare_data.
    rewrite add_lectures_loop_raises; [done|].
    apply Exists_exists. by exists row.
  - intros pre row post -> Hnot. by apply lookup_first.
Qed.

Lemma prepare_data_needs_courses_witness :
  prepare_data Sample.courses Sample.classrooms
               [mkTC "T1" "CS101"; mkTC "T9" "XX999"]
               Sample.teacher_preferences
  = Raise Py.IndexError
  ∧ lookup_lectures_per_week [mkCourse "CS101" 2; mkCourse "CS101" 5] "CS101"
    = Ok 2.
Proof.
  split.
  - apply prepare_data_needs_courses.
    exists (mkTC "T9" "XX999"). split; [right; left|].
    unfold course_ids, Sample.courses. cbn.
    by intros ?%list_elem_of_singleton.
  - apply (proj2 (proj2 (prepare_data_needs_courses
             [mkCourse "CS101" 2; mkCourse "CS101" 5] [] [] []))
             [] (mkCourse "CS101" 2) [mkCourse "CS101" 5]);
      [done | apply not_elem_of_nil].
Defined.

End CourseLookup.

(** ** The chromosomes that decode *)

Section DecodeDomain.
Import Institution InstitutionSpec Decoding.

Lemma index_Ok_iff {A} (l : list A) i :
  (∃ x, Py.index l i = Ok x) ↔ indexable (length l) i.
Proof.
  unfold Py.index, indexable. cbn zeta. split.
  - intros [x Hx]. destruct (Z.leb_spec 0 i).
    + destruct (Z.leb_spec 0 i); [|lia]. destruct (Z.ltb_spec i (Z.of_nat (length l)));
        [lia | done].
    + destruct (Z.leb_spec 0 (Z.of_nat (length l) + i)); [|done].
      destruct (Z.ltb_spec (Z.of_nat (length l) + i) (Z.of_nat (length l)));
        [lia | done].
  - intros [Hlo Hhi]. destruct (Z.leb_spec 0 i).
    + destruct (Z.leb_spec 0 i); [|lia].
      destruct (Z.ltb_spec i (Z.of_nat (length l))); [|lia]. cbn [andb].
      destruct (lookup_lt_is_Some_2 l (Z.to_nat i)) as [x ->]; [lia|]. eauto.
    + destruct (Z.leb_spec 0 (Z.of_nat (length l) + i)); [|lia].
      destruct (Z.ltb_spec (Z.of_nat (length l) + i) (Z.of_nat (length l)));
        [|lia]. cbn [andb].
      destruct (lookup_lt_is_Some_2 l (Z.to_nat (Z.of_nat (length l) + i)))
        as [x ->]; [lia|]. eauto.
Qed.

Lemma index_Raise {A} (l : list A) i e :
  Py.index l i = Raise e → e = Py.IndexError.
Proof.
  unfold Py.index. cbn zeta. destruct (_ && _); [|by intros [= <-]].
  destruct (l !! _); [done | by intros [= <-]].
Qed.

Lemma at_pos_Raise {A} (l : list A) i e :
  Py.at_pos l i = Raise e → e = Py.IndexError.
Proof. unfold Py.at_pos. destruct (l !! i); [done | by intros [= <-]]. Qed.

Lemma at_pos_Ok {A} (l : list A) i x :
  Py.at_pos l i = Ok x → l !! i = Some x.
Proof. unfold Py.at_pos. destruct (l !! i); [by intros [= ->] | done]. Qed.

Lemma bind_Raise_inv {A B} (m : Py.result A) (k : A → Py.result B) e :
  (x ← m; k x) = Raise e → m = Raise e ∨ ∃ a, m = Ok a ∧ k a = Raise e.
Proof.
  destruct m as [a|e']; intros Hm; [right; by exists a|].
  left. by injection Hm as ->.
Qed.

(** A loop raises what one of its turns raises. *)
Lemma for_each_Raise {A B} (body : B → A → Py.result B) (Q : Py.exn → Prop) xs :
  (∀ acc x e, x ∈ xs → body acc x = Raise e → Q e) →
  ∀ acc e, for_each body acc xs = Raise e → Q e.
Proof.
  induction xs as [|x xs IH]; intros Hbody acc e Hrun; [done|].
  cbn [for_each] in Hrun. apply bind_Raise_inv in Hrun as [Hx|(b & _ & Hrest)].
  - eapply Hbody; [by left | exact Hx].
  - eapply IH; [|exact Hrest]. intros acc' x' e' Hx'. apply Hbody. by right.
Qed.

Lemma for_each_ext {A B} (body body' : B → A → Py.result B) xs :
  (∀ acc x, x ∈ xs → body acc x = body' acc x) →
  ∀ acc, for_each body acc xs = for_each body' acc xs.
Proof.
  induction xs as [|x xs IH]; intros Hext acc; [done|].
  cbn [for_each]. rewrite Hext by by left.
  destruct (body' acc x) as [b|e]; [|done]. cbn.
  apply IH. intros acc' x' Hx'. apply Hext. by right.
Qed.

Lemma decode_step_Raise self solution acc i e :
  decode_step self solution acc i = Raise e → e = Py.IndexError.
Proof.
  unfold decode_step. intros Hstep.
  apply bind_Raise_inv in Hstep as [Hstep|(info & _ & Hstep)];
    [by eapply at_pos_Raise|].
  apply bind_Raise_inv in Hstep as [Hstep|(g1 & _ & Hstep)];
    [by eapply at_pos_Raise|].
  apply bind_Raise_inv in Hstep as [Hstep|(g2 & _ & Hstep)];
    [by eapply at_pos_Raise|].
  apply bind_Raise_inv in Hstep as [Hstep|(room & _ & Hstep)];
    [by eapply index_Raise|].
  apply bind_Raise_inv in Hstep as [Hstep|(slot & _ & Hstep)];
    [by eapply index_Raise|].
  discriminate.
Qed.

Lemma decode_step_readable self solution i :
  (i < length (lectures_to_schedule (data_preparer self)))%nat →
  (∃ room_gene timeslot_gene,
      solution !! (i * 2)%nat = Some room_gene
      ∧ solution !! (i * 2 + 1)%nat = Some timeslot_gene
      ∧ indexable (length (classrooms (data_preparer self))) (Py.int room_gene)
      ∧ indexable (length (timeslots (data_preparer self)))
                  (Py.int timeslot_gene)) →
  ∃ l, ∀ acc, decode_step self solution acc i = Ok (acc ++ [l]).
Proof.
  intros Hi (g1 & g2 & Hg1 & Hg2 & [room Hroom]%index_Ok_iff
             & [slot Hslot]%index_Ok_iff).
  destruct (lookup_lt_is_Some_2 _ i Hi) as [info Hinfo].
  eexists. intros acc. unfold decode_step.
  rewrite (at_pos_Some _ _ _ Hinfo). cbn.
  rewrite (at_pos_Some _ _ _ Hg1). cbn.
  rewrite (at_pos_Some _ _ _ Hg2). cbn.
  rewrite Hroom. cbn. rewrite Hslot. done.
Qed.

Lemma decode_step_shape self solution acc i r :
  decode_step self solution acc i = Ok r → ∃ l, r = acc ++ [l].
Proof.
  unfold decode_step. intros Hl.
  apply bind_Ok_inv in Hl as (info & _ & Hl).
  apply bind_Ok_inv in Hl as (g1 & _ & Hl).
  apply bind_Ok_inv in Hl as (g2 & _ & Hl).
  apply bind_Ok_inv in Hl as (room & _ & Hl).
  apply bind_Ok_inv in Hl as (slot & _ & [= <-]). eauto.
Qed.

End DecodeDomain.

Section DecodeExtras.
Import Institution InstitutionSpec Decoding.

Lemma decode_step_Ok_genes self solution acc i r :
  decode_step self solution acc i = Ok r →
  ∃ room_gene timeslot_gene,
    solution !! (i * 2)%nat = Some room_gene
    ∧ solution !! (i * 2 + 1)%nat = Some timeslot_gene
    ∧ indexable (length (classrooms (data_preparer self))) (Py.int room_gene)
    ∧ indexable (length (timeslots (data_preparer self)))
                (Py.int timeslot_gene).
Proof.
  unfold decode_step. intros Hl.
  apply bind_Ok_inv in Hl as (info & _ & Hl).
  apply bind_Ok_inv in Hl as (g1 & Hg1%at_pos_Ok & Hl).
  apply bind_Ok_inv in Hl as (g2 & Hg2%at_pos_Ok & Hl).
  apply bind_Ok_inv in Hl as (room & Hroom & Hl).
  apply bind_Ok_inv in Hl as (slot & Hslot & _).
  exists g1, g2. split; [done|]. split; [done|].
  split; apply index_Ok_iff; eauto.
Qed.

Lemma decode_Ok_iff_readable dp params solution :
  (∃ schedule, decode_solution (SchedulerGA_init dp params) solution = Ok schedule)
  ↔ readable (SchedulerGA_init dp params) solution.
Proof.
  set (self := SchedulerGA_init dp params). split.
  - intros [schedule Hdec] i Hi. unfold decode_solution in Hdec.
    eapply for_each_inv
      with (P := fun i (_ : Lecture) =>
                   ∃ g1 g2, solution !! (i * 2)%nat = Some g1
                            ∧ solution !! (i * 2 + 1)%nat = Some g2
                            ∧ indexable (length (classrooms dp)) (Py.int g1)
                            ∧ indexable (length (timeslots dp)) (Py.int g2))
      in Hdec as (ys & _ & Hall).
    + destruct (Forall2_lookup_l _ _ _ i i Hall) as (l & _ & Hl);
        [by apply lookup_seq_lt | exact Hl].
    + intros j acc r _ Hstep.
      destruct (decode_step_shape _ _ _ _ _ Hstep) as [l ->].
      exists l. split; [done|].
      exact (decode_step_Ok_genes self solution acc j _ Hstep).
  - intros Hread.
    destruct (for_each_total (decode_step self solution) (fun _ _ => True)
                (seq 0 (num_lectures self))) with (acc := @nil Lecture)
      as (ys & Hrun & _); [|by exists ys].
    intros i [_ Hi]%elem_of_seq.
    destruct (decode_step_readable self solution i Hi (Hread i Hi)) as [l Hl].
    by exists l.
Qed.

Lemma decode_Raise dp params solution e :
  decode_solution (SchedulerGA_init dp params) solution = Raise e →
  e = Py.IndexError.
Proof.
  unfold decode_solution.
  apply (for_each_Raise _ (fun e => e = Py.IndexError)).
  intros acc i e' _. apply decode_step_Raise.
Qed.

Lemma decode_not_readable dp params solution :
  ¬ readable (SchedulerGA_init dp params) solution →
  decode_solution (SchedulerGA_init dp params) solution = Raise Py.IndexError.
Proof.
  intros Hnot.
  destruct (decode_solution (SchedulerGA_init dp params) solution)
    as [schedule|e] eqn:Hdec.
  - exfalso. apply Hnot, decode_Ok_iff_readable. eauto.
  - by rewrite (decode_Raise _ _ _ _ Hdec).
Qed.

(** X8: the institution decoder returns a schedule exactly for the
    chromosomes that hold two genes per lecture, each truncating to a
    position Python accepts, negative positions counting from the end; on
    every other chromosome, in particular a shorter one, it raises
    IndexError and nothing else. *)
Theorem decode_accepts_exactly dp params solution :
  ((∃ schedule,
      decode_solution (SchedulerGA_init dp params) solution = Ok schedule)
   ↔ readable (SchedulerGA_init dp params) solution)
  ∧ (¬ readable (SchedulerGA_init dp params) solution
     → decode_solution (SchedulerGA_init dp params) solution
       = Raise Py.IndexError)
  ∧ (lectures_to_schedule dp ≠ [] →
     (length solution < num_genes (SchedulerGA_init dp params))%nat →
     decode_solution (SchedulerGA_init dp params) solution
     = Raise Py.IndexError).
Proof.
  split; [apply decode_Ok_iff_readable|]. split; [apply decode_not_readable|].
  intros Hne Hshort. apply decode_not_readable. intros Hread.
  unfold readable in Hread.
  cbn [num_genes num_lectures SchedulerGA_init] in *.
  assert (length (lectures_to_schedule dp) ≠ 0%nat) as Hlen
    by (by destruct (lectures_to_schedule dp)).
  destruct (Hread (length (lectures_to_schedule dp) - 1)%nat)
    as (g1 & g2 & _ & Hg2 & _); [lia|].
  apply lookup_lt_Some in Hg2. lia.
Qed.

Lemma decode_accepts_exactly_witness :
  ∃ dp,
    prepare_data Sample.courses Sample.classrooms Sample.teacher_courses
                 Sample.teacher_preferences = Ok dp
    ∧ decode_solution (SchedulerGA_init dp Sample.params) [0 # 1; 3 # 1; 0 # 1]
      = Raise Py.IndexError
    ∧ decode_solution (SchedulerGA_init dp Sample.params)
                      [(-1) # 1; (-45) # 1; 0 # 1; 3 # 1]
      = Ok [mkLecture "CS101" "T1" "R1" "Sunday_08:00";
            mkLecture "CS101" "T1" "R1" "Sunday_11:00"].
Proof.
  eassert (prepare_data Sample.courses Sample.classrooms
             Sample.teacher_courses Sample.teacher_preferences = Ok _) as Hdp
    by (vm_compute; reflexivity).
  eexists. split; [exact Hdp|]. split.
  - apply decode_accepts_exactly; [done | cbn; lia].
  - by vm_compute.
Defined.

Lemma int_inject_Z z : Py.int (inject_Z z) = z.
Proof. unfold Py.int, inject_Z. cbn. apply Z.quot_1_r. Qed.

Lemma decode_step_ext self solution solution' acc i :
  Py.int <$> solution !! (i * 2)%nat = Py.int <$> solution' !! (i * 2)%nat →
  Py.int <$> solution !! (i * 2 + 1)%nat
  = Py.int <$> solution' !! (i * 2 + 1)%nat →
  decode_step self solution acc i = decode_step self solution' acc i.
Proof.
  intros H1 H2. unfold decode_step, Py.at_pos.
  destruct (lectures_to_schedule _ !! i) as [info|]; [|done]. cbn.
  destruct (solution !! (i * 2)%nat) as [g1|],
           (solution' !! (i * 2)%nat) as [g1'|]; try done. cbn.
  injection H1 as ->.
  destruct (solution !! (i * 2 + 1)%nat) as [g2|],
           (solution' !! (i * 2 + 1)%nat) as [g2'|]; try done. cbn.
  by injection H2 as ->.
Qed.

Lemma decode_ext self solution solution' :
  (∀ j, (j < num_lectures self * 2)%nat →
        Py.int <$> solution !! j = Py.int <$> solution' !! j) →
  decode_solution self solution = decode_solution self solution'.
Proof.
  intros Hext. unfold decode_solution. apply for_each_ext.
  intros acc i [_ Hi]%elem_of_seq. apply decode_step_ext; apply Hext; lia.
Qed.

(** X9: decoding reads the genes only through [int(...)] and reads only
    the first [num_genes] of them: a chromosome decodes like the chromosome
    of its truncated genes, and genes after the last lecture are ignored. *)
Theorem decode_reads_truncated_genes self solution :
  decode_solution self ((fun g => inject_Z (Py.int g)) <$> solution)
  = decode_solution self solution
  ∧ ∀ surplus,
      (num_lectures self * 2 ≤ length solution)%nat →
      decode_solution self (solution ++ surplus) = decode_solution self solution.
Proof.
  split.
  - apply decode_ext. intros j _. rewrite list_lookup_fmap.
    destruct (solution !! j); [|done]. cbn. by rewrite int_inject_Z.
  - intros surplus Hlen. apply decode_ext. intros j Hj.
    by rewrite lookup_app_l by lia.
Qed.

Lemma decode_reads_truncated_genes_witness :
  match Sample2.scheduler with
  | Py.Ok self =>
      decode_solution self (Sample.solution ++ [7 # 1])
      = decode_solution self Sample.solution
  | Py.Raise _ => False
  end.
Proof.
  destruct Sample2.scheduler as [self|e] eqn:Hself;
    [|by vm_compute in Hself].
  apply decode_reads_truncated_genes.
  vm_compute in Hself. injection Hself as <-. cbn. lia.
Defined.

(** X10: the institution scheduler is built also when there is no
    classroom; then no chromosome is within the gene space and, when there
    is a lecture to schedule, decoding raises IndexError on every
    chromosome. *)
Theorem no_classroom_no_schedule dp params solution :
  classrooms dp = [] →
  lectures_to_schedule dp ≠ [] →
  decode_solution (SchedulerGA_init dp params) solution = Raise Py.IndexError
  ∧ ¬ in_bounds (gene_space (SchedulerGA_init dp params)) solution.
Proof.
  intros Hrooms Hne.
  assert (0 < length (lectures_to_schedule dp))%nat as Hlen
    by (destruct (lectures_to_schedule dp); [done | cbn; lia]).
  split.
  - apply decode_not_readable. intros Hread.
    destruct (Hread 0%nat) as (g1 & g2 & _ & _ & Hidx & _); [done|].
    cbn [data_preparer SchedulerGA_init] in Hidx. rewrite Hrooms in Hidx.
    unfold indexable in Hidx. cbn in Hidx. lia.
  - intros Hb. unfold in_bounds in Hb. cbn [gene_space SchedulerGA_init] in Hb.
    destruct (iter_pairs (mkBound 0 (Z.of_nat (length (classrooms dp))))
                (mkBound 0 (Z.of_nat (length (timeslots dp))))
                (length (lectures_to_schedule dp))) as [_ Hgs].
    destruct (Hgs 0%nat Hlen) as [Hroom _].
    destruct (Forall2_lookup_r _ _ _ _ _ Hb Hroom) as (g & _ & Hlo & Hhi).
    rewrite Hrooms in Hhi. cbn in Hlo, Hhi.
    by apply (Qle_not_lt _ _ Hlo).
Qed.

Lemma no_classroom_no_schedule_witness :
  ∃ dp,
    prepare_data Sample.courses [] Sample.teacher_courses
                 Sample.teacher_preferences = Ok dp
    ∧ decode_solution (SchedulerGA_init dp Sample.params) Sample.solution
      = Raise Py.IndexError.
Proof.
  eassert (prepare_data Sample.courses [] Sample.teacher_courses
             Sample.teacher_preferences = Ok _) as Hdp
    by (vm_compute; reflexivity).
  eexists. split; [exact Hdp|].
  by apply no_classroom_no_schedule.
Defined.

End DecodeExtras.

Section SlotGenes.
Import Institution InstitutionSpec.

Lemma timeslots_NoDup : NoDup build_timeslots.
Proof. apply (bool_decide_unpack _). by vm_compute. Qed.

(** X11: in a chromosome within the gene space, two lectures are decoded to
    the same timeslot exactly when their timeslot genes truncate to the same
    integer. *)
Theorem same_slot_iff_same_gene
    c r tc tp dp params solution schedule i j li lj gi gj :
  prepare_data c r tc tp = Ok dp →
  in_bounds (gene_space (SchedulerGA_init dp params)) solution →
  decode_solution (SchedulerGA_init dp params) solution = Ok schedule →
  schedule !! i = Some li → schedule !! j = Some lj →
  solution !! (i * 2 + 1)%nat = Some gi →
  solution !! (j * 2 + 1)%nat = Some gj →
  timeslot li = timeslot lj ↔ Py.int gi = Py.int gj.
Proof.
  intros Hdp Hb Hdec Hli Hlj Hgi Hgj.
  destruct (institution_decode_in_bounds _ _ _ _ _ params _ Hdp Hb)
    as (schedule' & Hdec' & _ & Hat & _).
  rewrite Hdec in Hdec'. injection Hdec' as <-.
  destruct (Hat i) as (li' & Hli' & Hdi); [by eapply lookup_lt_Some|].
  destruct (Hat j) as (lj' & Hlj' & Hdj); [by eapply lookup_lt_Some|].
  rewrite Hli in Hli'. injection Hli' as <-.
  rewrite Hlj in Hlj'. injection Hlj' as <-.
  destruct Hdi as (_ & _ & gi' & _ & _ & Hgi' & _ & Hsi & _).
  destruct Hdj as (_ & _ & gj' & _ & _ & Hgj' & _ & Hsj & _).
  rewrite Hgi in Hgi'. injection Hgi' as <-.
  rewrite Hgj in Hgj'. injection Hgj' as <-.
  cbn [data_preparer SchedulerGA_init] in Hsi, Hsj.
  rewrite (prepare_data_timeslots _ _ _ _ _ Hdp) in Hsi, Hsj.
  assert (0 ≤ Py.int gi ∧ 0 ≤ Py.int gj) as [Hi0 Hj0].
  { unfold in_bounds in Hb. cbn [gene_space SchedulerGA_init] in Hb.
    destruct (iter_pairs (mkBound 0 (Z.of_nat (length (classrooms dp))))
                (mkBound 0 (Z.of_nat (length (timeslots dp))))
                (length (lectures_to_schedule dp))) as [Hlen Hgs].
    pose proof (Forall2_length _ _ _ Hb) as Hsol.
    apply lookup_lt_Some in Hgi as Hi. apply lookup_lt_Some in Hgj as Hj.
    destruct (Hgs i) as [_ Hbi]; [lia|]. destruct (Hgs j) as [_ Hbj]; [lia|].
    destruct (Forall2_lookup_lr _ _ _ _ _ _ Hb Hgi Hbi) as [Hloi Hhii].
    destruct (Forall2_lookup_lr _ _ _ _ _ _ Hb Hgj Hbj) as [Hloj Hhij].
    split; eapply int_in_range; eauto. }
  split.
  - intros Heq. rewrite Heq in Hsi.
    pose proof (NoDup_lookup _ _ _ _ timeslots_NoDup Hsi Hsj). lia.
  - intros Heq. rewrite Heq in Hsi. rewrite Hsi in Hsj. by injection Hsj.
Qed.

Lemma same_slot_iff_same_gene_witness :
  ∃ dp schedule li lj,
    prepare_data Sample.courses Sample.classrooms Sample.teacher_courses
                 Sample.teacher_preferences = Ok dp
    ∧ decode_solution (SchedulerGA_init dp Sample.params)
                      [0 # 1; 7 # 2; 0 # 1; 3 # 1] = Ok schedule
    ∧ schedule !! 0%nat = Some li ∧ schedule !! 1%nat = Some lj
    ∧ timeslot li = timeslot lj.
Proof.
  eassert (prepare_data Sample.courses Sample.classrooms
             Sample.teacher_courses Sample.teacher_preferences = Ok _) as Hdp
    by (vm_compute; reflexivity).
  match type of Hdp with
  | _ = Ok ?dp =>
      eassert (decode_solution (SchedulerGA_init dp Sample.params)
                 [0 # 1; 7 # 2; 0 # 1; 3 # 1] = Ok [_; _]) as Hdec
        by (vm_compute; reflexivity)
  end.
  match type of Hdec with
  | decode_solution ?self ?sol = _ =>
      assert (in_bounds (gene_space self) sol) as Hb
        by (repeat constructor; by vm_compute)
  end.
  eexists. eexists. eexists. eexists.
  split; [exact Hdp|]. split; [exact Hdec|].
  split; [reflexivity|]. split; [reflexivity|].
  exact (proj2 (same_slot_iff_same_gene _ _ _ _ _ _ _ _ 0%nat 1%nat _ _ _ _
                  Hdp Hb Hdec eq_refl eq_refl eq_refl eq_refl) eq_refl).
Defined.

End SlotGenes.

(** ** The prepared student data *)

Section StudentPrepared.
Import Student StudentSpec Registration Registered.

Lemma prepare_no_rows sid master regs :
  courses_of sid regs = [] →
  prepare_student_data sid master regs
  = (Raise (Py.ValueError ("No registration data found for student_id: " +:+ sid)), []).
Proof.
  unfold courses_of, prepare_student_data. cbn zeta.
  by destruct (filter _ regs).
Qed.

Lemma filter_registered c (courses : list string) master :
  c ∈ courses →
  filter (fun o => course_id o = c ∧ c ∈ courses) master = offerings_of c master.
Proof.
  intros Hc. unfold offerings_of. apply list_filter_iff. intros o.
  split; [by intros [Ho _] | by intros Ho].
Qed.

Lemma filter_unregistered c (courses : list string) master :
  c ∉ courses →
  filter (fun o => course_id o = c ∧ c ∈ courses) master = [].
Proof. intros Hc. apply filter_none. intros o _ [_ ?]. done. Qed.

(** What a successful preparation returned. *)
Lemma prepare_Ok_inv sid master regs sd log :
  prepare_student_data sid master regs = (Ok sd, log) →
  courses_of sid regs ≠ []
  ∧ student_id sd = sid
  ∧ student_courses sd = courses_of sid regs
  ∧ (∀ c, get (lecture_groups sd) c
          = filter (fun o => course_id o = c ∧ c ∈ courses_of sid regs) master)
  ∧ log = warning_for <$> filter (fun c => get (lecture_groups sd) c = [])
                                 (courses_of sid regs).
Proof.
  intros Hprep.
  destruct (decide (courses_of sid regs = [])) as [Hnil|Hne].
  { rewrite prepare_no_rows in Hprep by done. discriminate. }
  destruct (prepare_student_data_spec sid master regs Hne)
    as (sd' & Hsd' & Hcs & Hg).
  fold (courses_of sid regs) in Hsd', Hcs, Hg.
  rewrite Hprep in Hsd'. injection Hsd' as -> ->.
  repeat split; try done.
  revert Hprep. unfold prepare_student_data. cbn zeta.
  destruct (filter _ regs); [done|].
  destruct (foldl check_course _ _). by intros [= <-].
Qed.

End StudentPrepared.

Section StudentGroups.
Import Student StudentSpec Registration Registered.

Lemma touch_dom groups k k' :
  k' ∈ dom (touch groups k) ↔ k' = k ∨ k' ∈ dom groups.
Proof.
  unfold touch. destruct (groups !! k) eqn:Hk.
  - split; [by right|]. intros [->|Hin]; [|done].
    apply elem_of_dom. by rewrite Hk.
  - rewrite dom_insert_L, elem_of_union, elem_of_singleton. done.
Qed.

Lemma group_lecture_dom courses groups o k :
  k ∈ dom (group_lecture courses groups o)
  ↔ k ∈ dom groups ∨ (k = course_id o ∧ k ∈ courses).
Proof.
  unfold group_lecture. case_bool_decide as Hreg.
  - rewrite dom_alter_L, touch_dom. split.
    + intros [->|Hin]; [by right | by left].
    + intros [Hin|[-> _]]; [by right | by left].
  - split; [by left|]. intros [Hin|[-> Hin]]; done.
Qed.

Lemma group_loop_dom courses master :
  ∀ groups k,
    k ∈ dom (foldl (group_lecture courses) groups master)
    → k ∈ dom groups ∨ k ∈ courses.
Proof.
  induction master as [|o master IH]; intros groups k; cbn [foldl]; [by left|].
  intros [Hin|Hin]%IH; [|by right].
  apply group_lecture_dom in Hin as [Hin|[_ Hin]]; [by left | by right].
Qed.

Lemma check_loop_dom courses :
  ∀ groups log k,
    k ∈ dom (foldl check_course (groups, log) courses).1
    ↔ k ∈ dom groups ∨ k ∈ courses.
Proof.
  induction courses as [|course courses IH]; intros groups log k; cbn [foldl].
  - rewrite elem_of_nil. split; [by left | by intros [?|?]].
  - assert (∀ log', k ∈ dom (foldl check_course (touch groups course, log')
                               courses).1
                    ↔ k ∈ dom groups ∨ k ∈ course :: courses) as Hstep.
    { intros log'. rewrite IH, touch_dom, elem_of_cons. split.
      - intros [[->|Hin]|Hin]; [right; by left | by left | right; by right].
      - intros [Hin|[->|Hin]]; [left; by right | left; by left | by right]. }
    unfold check_course at 2. cbn [fst snd].
    destruct (get (touch groups course) course); apply Hstep.
Qed.

Lemma filter_ext_in {A} (P Q : A → Prop) `{∀ x, Decision (P x)}
    `{∀ x, Decision (Q x)} (l : list A) :
  (∀ x, x ∈ l → P x ↔ Q x) → filter P l = filter Q l.
Proof.
  induction l as [|x l IH]; intros Hext; [done|].
  rewrite !filter_cons, IH by (intros y Hy; apply Hext; by right).
  destruct (decide (P x)) as [HP|HP], (decide (Q x)) as [HQ|HQ]; try done.
  - exfalso. apply HQ, Hext; [by left | done].
  - exfalso. apply HP, Hext; [by left | done].
Qed.

Lemma prepare_Ok_dom sid master regs sd log :
  prepare_student_data sid master regs = (Ok sd, log) →
  ∀ k, k ∈ dom (lecture_groups sd) ↔ k ∈ courses_of sid regs.
Proof.
  unfold prepare_student_data, courses_of. cbn zeta. intros Hprep k.
  destruct (filter (fun r => reg_student_id r = sid) regs) as [|row rows];
    [done|].
  pose proof (check_loop_dom (reg_course_id <$> row :: rows)
                (foldl (group_lecture (reg_course_id <$> row :: rows)) ∅ master)
                [] k) as Hdom.
  destruct (foldl check_course _ _) as [groups log']. cbn [fst] in Hdom.
  injection Hprep as <- _. cbn [lecture_groups]. rewrite Hdom. split.
  - intros [Hin|Hin]; [|done].
    apply group_loop_dom in Hin as [Hin|Hin]; [|done].
    by rewrite dom_empty_L in Hin.
  - by right.
Qed.

(** X13: in the prepared data the group of a registered course holds the
    offerings of that course in master-schedule order, the group of any
    other course is empty, and the keys of [lecture_groups] are exactly the
    registered courses, those without offerings included. *)
Theorem lecture_groups_content sid master regs sd log :
  prepare_student_data sid master regs = (Ok sd, log) →
  (∀ c, c ∈ student_courses sd →
        get (lecture_groups sd) c = offerings_of c master)
  ∧ (∀ c, c ∉ student_courses sd → get (lecture_groups sd) c = [])
  ∧ dom (lecture_groups sd) = list_to_set (student_courses sd).
Proof.
  intros Hprep.
  destruct (prepare_Ok_inv _ _ _ _ _ Hprep) as (Hne & _ & Hcs & Hg & _).
  split; [|split].
  - intros c Hc. rewrite Hg. apply filter_registered. by rewrite <- Hcs.
  - intros c Hc. rewrite Hg. apply filter_unregistered. by rewrite <- Hcs.
  - apply set_eq. intros k.
    by rewrite (prepare_Ok_dom _ _ _ _ _ Hprep), elem_of_list_to_set, Hcs.
Qed.

Lemma lecture_groups_content_witness :
  ∃ sd log,
    prepare_student_data "S1" Sample.master_schedule
                         Sample.registrations_unmatched = (Ok sd, log)
    ∧ dom (lecture_groups sd) = list_to_set ["CS101"; "PH301"]
    ∧ get (lecture_groups sd) "MA201" = [].
Proof.
  eassert (prepare_student_data "S1" Sample.master_schedule
             Sample.registrations_unmatched = (Ok _, _)) as Hsd
    by (vm_compute; reflexivity).
  destruct (lecture_groups_content _ _ _ _ _ Hsd) as (_ & Hout & Hdom).
  eexists. eexists. split; [exact Hsd|]. split; [exact Hdom|].
  apply Hout. cbn. intros Hin.
  repeat (apply elem_of_cons in Hin as [Hin|Hin]; [discriminate|]).
  by apply elem_of_nil in Hin.
Defined.

(** X14: the warnings logged while [StudentData] is built are, in
    registration order, one per registered course without an offering in
    the master schedule, and nothing else. *)
Theorem warnings_name_unoffered sid master regs sd log :
  prepare_student_data sid master regs = (Ok sd, log) →
  log = (fun c => Warning ("No lectures found in master_schedule for registered course: " +:+ c))
          <$> filter (fun c => offerings_of c master = []) (student_courses sd).
Proof.
  intros Hprep.
  destruct (prepare_Ok_inv _ _ _ _ _ Hprep) as (_ & _ & Hcs & Hg & ->).
  rewrite Hcs. unfold warning_for. f_equal.
  apply filter_ext_in. intros c Hc.
  by rewrite Hg, filter_registered.
Qed.

Lemma warnings_name_unoffered_witness :
  ∃ sd log,
    prepare_student_data "S1" Sample.master_schedule
                         Sample.registrations_unmatched = (Ok sd, log)
    ∧ log = [Warning "No lectures found in master_schedule for registered course: PH301"].
Proof.
  eassert (prepare_student_data "S1" Sample.master_schedule
             Sample.registrations_unmatched = (Ok _, _)) as Hsd
    by (vm_compute; reflexivity).
  pose proof (warnings_name_unoffered _ _ _ _ _ Hsd) as Hlog.
  eexists. eexists. split; [exact Hsd|].
  etransitivity; [exact Hlog | by vm_compute].
Defined.

End StudentGroups.

Section StudentConstruction.
Import Student StudentSpec Registration Registered.

Lemma add_gene_loop_all groups courses :
  Forall (fun c => get groups c ≠ []) courses →
  ∀ acc,
    for_each (add_gene groups) acc courses
    = Ok (acc ++ ((fun c => mkBound 0 (Z.of_nat (length (get groups c))))
                    <$> courses)).
Proof.
  induction 1 as [|c courses Hc _ IH]; intros acc.
  - by rewrite app_nil_r.
  - cbn [for_each]. rewrite add_gene_nonempty by done. cbn.
    rewrite IH, <- app_assoc. done.
Qed.

(** When [__init__] gets through its gene-space loop, to the line that
    requests the engine, and in which state. *)
Lemma construct_reaches_engine sid master regs params :
  ((∃ self log, construct sid master regs params = (Ok self, log))
   ↔ courses_of sid regs ≠ []
     ∧ ∀ c, c ∈ courses_of sid regs → offerings_of c master ≠ [])
  ∧ ∀ self log,
      construct sid master regs params = (Ok self, log) →
      log = []
      ∧ ga_params self = params
      ∧ num_genes self = length (courses_of sid regs)
      ∧ gene_space self
        = (fun c => mkBound 0 (Z.of_nat (length (offerings_of c master))))
            <$> courses_of sid regs.
Proof.
  assert (∀ self log,
            construct sid master regs params = (Ok self, log) →
            ∃ sd, prepare_student_data sid master regs = (Ok sd, log)
                  ∧ StudentSchedulerGA_init sd params = Ok self) as Hinv.
  { intros self log. unfold construct.
    destruct (prepare_student_data sid master regs) as [[sd|e] log'] eqn:Hprep;
      [|done].
    intros [= Hinit <-]. by exists sd. }
  split.
  - split.
    + intros (self & log & Hcon).
      destruct (Hinv _ _ Hcon) as (sd & Hprep & Hinit).
      destruct (prepare_Ok_inv _ _ _ _ _ Hprep) as (Hne & _ & Hcs & Hg & _).
      split; [done|]. intros c Hc.
      destruct (student_init_inv _ _ _ Hinit) as (_ & _ & Hgs).
      rewrite Hcs in Hgs.
      apply list_elem_of_lookup in Hc as [i Hi].
      destruct (Forall2_lookup_l _ _ _ _ _ Hgs Hi) as (b & _ & _ & Hnonempty).
      rewrite Hg, filter_registered in Hnonempty; [done|].
      by eapply list_elem_of_lookup_2.
    + intros [Hne Hall].
      destruct (prepare_student_data_spec sid master regs Hne)
        as (sd & Hprep & Hcs & Hg).
      fold (courses_of sid regs) in Hprep, Hcs, Hg.
      unfold construct. rewrite Hprep. cbn.
      unfold StudentSchedulerGA_init.
      rewrite (add_gene_loop_all (lecture_groups sd) (student_courses sd)).
      * cbn. eauto.
      * rewrite Hcs. apply Forall_forall. intros c Hc.
        rewrite Hg, filter_registered by done. by apply Hall.
  - intros self log Hcon.
    destruct (Hinv _ _ Hcon) as (sd & Hprep & Hinit).
    destruct (prepare_Ok_inv _ _ _ _ _ Hprep) as (Hne & _ & Hcs & Hg & Hlog).
    destruct (student_init_inv _ _ _ Hinit) as (_ & Hnum & Hgs).
    rewrite Hcs in Hgs, Hnum.
    assert (∀ c, c ∈ courses_of sid regs
                 → get (lecture_groups sd) c = offerings_of c master) as Hoff.
    { intros c Hc. by rewrite Hg, filter_registered. }
    split; [|split; [|split; [done|]]].
    + rewrite Hlog, filter_none; [done|]. intros c Hc Hempty.
      apply list_elem_of_lookup in Hc as [i Hi].
      by destruct (Forall2_lookup_l _ _ _ _ _ Hgs Hi) as (b & _ & _ & Hnonempty).
    + unfold StudentSchedulerGA_init in Hinit.
      apply bind_Ok_inv in Hinit as (gs & _ & [= <-]). done.
    + apply list_eq. intros i. rewrite list_lookup_fmap.
      destruct (courses_of sid regs !! i) as [c|] eqn:Hi; cbn.
      * destruct (Forall2_lookup_l _ _ _ _ _ Hgs Hi) as (b & -> & -> & _).
        rewrite Hoff; [done|]. by eapply list_elem_of_lookup_2.
      * apply lookup_ge_None. apply lookup_ge_None in Hi.
        apply Forall2_length in Hgs. lia.
Qed.


Lemma offered_or_not master courses :
  Forall (fun c => offerings_of c master ≠ []) courses
  ∨ Exists (fun c => offerings_of c master = []) courses.
Proof.
  induction courses as [|c courses [IH|IH]].
  - left. constructor.
  - destruct (offerings_of c master) as [|o os] eqn:Ho.
    + right. by left.
    + left. constructor; [by rewrite Ho | done].
  - right. by right.
Qed.

(** Without rows, or with a registered course that is not offered, the
    construction raises a ValueError before the engine is requested. *)
Lemma construct_with_guard {GA}
    (create_ga_instance : StudentSchedulerGA → Py.result GA)
    sid master regs params :
  ¬ (courses_of sid regs ≠ []
     ∧ ∀ c, c ∈ courses_of sid regs → offerings_of c master ≠ []) →
  ∃ msg log,
    Construction.construct_with create_ga_instance sid master regs params
    = (Raise (Py.ValueError msg), log).
Proof.
  intros Hnot. unfold Construction.construct_with.
  destruct (decide (courses_of sid regs = [])) as [Hnil|Hne].
  { rewrite prepare_no_rows by done. cbn. eauto. }
  destruct (offered_or_not master (courses_of sid regs)) as [Hall|Hex].
  { destruct Hnot. split; [done|]. intros c Hc.
    by apply (proj1 (Forall_forall _ _) Hall). }
  destruct (prepare_student_data_spec sid master regs Hne)
    as (sd & Hprep & Hcs & Hg).
  fold (courses_of sid regs) in Hprep, Hcs, Hg.
  destruct (add_gene_loop_raises (lecture_groups sd) (student_courses sd))
    with (acc := @nil GeneBound) as (c & Hrun & _).
  { rewrite Hcs. apply Exists_exists in Hex as (c & Hc & Hempty).
    apply Exists_exists. exists c. split; [done|].
    by rewrite Hg, filter_registered. }
  assert (StudentSchedulerGA_init sd params = Raise (no_lectures_error c))
    as Hinit.
  { unfold StudentSchedulerGA_init. by rewrite Hrun. }
  rewrite Hprep. cbn. unfold Construction.StudentSchedulerGA_new.
  rewrite Hinit. cbn. unfold no_lectures_error. eauto.
Qed.

(** X15: the constructor of the student scheduler, the engine's own
    constructor taken as an argument.  [__init__] gets to the line that
    requests the engine exactly when the student has registration rows and
    every registered course has an offering in the master schedule; then
    nothing was logged, and the state handed to the engine has the given
    parameters and, per registered course in order, the gene range from 0
    to the number of offerings of the course.  The scheduler is built
    exactly when, in addition, the engine's constructor accepts that state;
    what the engine's constructor raises is raised by the construction; and
    without rows or with an unoffered course the construction raises a
    ValueError whatever the engine's constructor would do. *)
Theorem scheduler_built_iff {GA}
    (create_ga_instance : StudentSchedulerGA → Py.result GA)
    sid master regs params :
  ((∃ self log, construct sid master regs params = (Ok self, log))
   ↔ courses_of sid regs ≠ []
     ∧ ∀ c, c ∈ courses_of sid regs → offerings_of c master ≠ [])
  ∧ (∀ self log,
       construct sid master regs params = (Ok self, log) →
       log = []
       ∧ ga_params self = params
       ∧ num_genes self = length (courses_of sid regs)
       ∧ gene_space self
         = (fun c => mkBound 0 (Z.of_nat (length (offerings_of c master))))
             <$> courses_of sid regs)
  ∧ (∀ self ga log,
       Construction.construct_with create_ga_instance sid master regs params
       = (Ok (self, ga), log)
       ↔ construct sid master regs params = (Ok self, log)
         ∧ create_ga_instance self = Ok ga)
  ∧ (∀ self log e,
       construct sid master regs params = (Ok self, log) →
       create_ga_instance self = Raise e →
       Construction.construct_with create_ga_instance sid master regs params
       = (Raise e, log))
  ∧ (¬ (courses_of sid regs ≠ []
        ∧ ∀ c, c ∈ courses_of sid regs → offerings_of c master ≠ []) →
     ∃ msg log,
       Construction.construct_with create_ga_instance sid master regs params
       = (Raise (Py.ValueError msg), log)).
Proof.
  destruct (construct_reaches_engine sid master regs params) as [Hiff Hthen].
  split; [exact Hiff|]. split; [exact Hthen|].
  split; [|split; [|apply construct_with_guard]].
  - intros self ga log.
    unfold Construction.construct_with, construct,
      Construction.StudentSchedulerGA_new.
    destruct (prepare_student_data sid master regs) as [[sd|e] log'];
      cbn; [|split; [done | by intros [? _]]].
    destruct (StudentSchedulerGA_init sd params) as [self'|e]; cbn;
      [|split; [done | by intros [? _]]].
    split.
    + destruct (create_ga_instance self') as [ga'|e] eqn:Hga; cbn; [|done].
      intros [= <- <- <-]. by split.
    + intros [[= <- <-] Hga]. by rewrite Hga.
  - intros self log e.
    unfold Construction.construct_with, construct,
      Construction.StudentSchedulerGA_new.
    destruct (prepare_student_data sid master regs) as [[sd|e'] log'];
      cbn; [|done].
    destruct (StudentSchedulerGA_init sd params) as [self'|e']; cbn; [|done].
    intros [= <- <-] Hga. by rewrite Hga.
Qed.

Lemma scheduler_built_iff_witness :
  (∃ self,
     Construction.construct_with Construction.check_population "S1"
       Sample.master_schedule Sample.registrations Sample.params
     = (Ok (self, ()), [])
     ∧ gene_space self = [mkBound 0 2; mkBound 0 1])
  ∧ Construction.construct_with Construction.check_population "S1"
      Sample.master_schedule Sample.registrations Construction.greedy_params
    = (Raise (Py.ValueError "parents_mating exceeds sol_per_pop"), [])
  ∧ ∃ msg log,
      Construction.construct_with Construction.check_population "S7"
        Sample.master_schedule Sample.registrations Sample.params
      = (Raise (Py.ValueError msg), log).
Proof.
  split; [|split].
  - destruct (scheduler_built_iff Construction.check_population "S1"
                Sample.master_schedule Sample.registrations Sample.params)
      as (Hiff & Hthen & Hbuilt & _).
    destruct (proj2 Hiff) as (self & log & Hcon).
    { split; [done|]. intros c Hc. cbn in Hc.
      repeat (apply elem_of_cons in Hc as [->|Hc]; [done|]).
      by apply elem_of_nil in Hc. }
    destruct (Hthen _ _ Hcon) as (-> & Hparams & _ & Hgs).
    exists self. split; [|rewrite Hgs; by vm_compute].
    apply Hbuilt. split; [exact Hcon|].
    unfold Construction.check_population. by rewrite Hparams.
  - destruct (scheduler_built_iff Construction.check_population "S1"
                Sample.master_schedule Sample.registrations
                Construction.greedy_params)
      as (Hiff & Hthen & _ & Hraise & _).
    destruct (proj2 Hiff) as (self & log & Hcon).
    { split; [done|]. intros c Hc. cbn in Hc.
      repeat (apply elem_of_cons in Hc as [->|Hc]; [done|]).
      by apply elem_of_nil in Hc. }
    destruct (Hthen _ _ Hcon) as (-> & Hparams & _).
    apply (Hraise _ _ _ Hcon).
    unfold Construction.check_population. by rewrite Hparams.
  - apply (scheduler_built_iff Construction.check_population "S7"
             Sample.master_schedule Sample.registrations Sample.params).
    intros [Hne _]. by apply Hne.
Defined.

(** X16: the schedule decoded for a student holds, position by position,
    an offering of the course registered at that position, whatever the
    chromosome. *)
Theorem student_schedule_follows_courses
    sid master regs params self log solution schedule :
  construct sid master regs params = (Ok self, log) →
  decode_solution self solution = Ok schedule →
  course_id <$> schedule = courses_of sid regs
  ∧ Forall (fun o => o ∈ master_schedule (student_data self)) schedule
  ∧ master_schedule (student_data self) = master.
Proof.
  intros Hcon Hdec. unfold construct in Hcon.
  destruct (prepare_student_data sid master regs) as [[sd|e] log'] eqn:Hprep;
    [|done].
  injection Hcon as Hinit <-.
  destruct (prepare_Ok_inv _ _ _ _ _ Hprep) as (Hne & _ & Hcs & Hg & _).
  destruct (student_init_inv _ _ _ Hinit) as (Hsd & _ & _).
  apply student_decode_inv in Hdec. rewrite Hsd, Hcs in Hdec.
  assert (master_schedule sd = master) as Hmaster.
  { revert Hprep. unfold prepare_student_data. cbn zeta.
    destruct (filter _ regs); [done|]. destruct (foldl check_course _ _).
    by intros [= <- _]. }
  rewrite Hsd, Hmaster. split; [|split; [|done]].
  - apply list_eq. intros i. rewrite list_lookup_fmap.
    destruct (courses_of sid regs !! i) as [c|] eqn:Hi.
    + destruct (Forall2_lookup_l _ _ _ _ _ Hdec Hi) as (o & -> & Ho).
      rewrite Hg in Ho. apply list_elem_of_filter in Ho as [[Hc _] _].
      cbn. by rewrite Hc.
    + apply Forall2_length in Hdec. apply lookup_ge_None in Hi.
      rewrite (lookup_ge_None_2 schedule) by lia. done.
  - eapply Forall2_Forall_r; [exact Hdec|]. apply Forall_forall.
    intros c _ o Ho. rewrite Hg in Ho.
    by apply list_elem_of_filter in Ho as [_ Ho].
Qed.

Lemma student_schedule_follows_courses_witness :
  ∃ self schedule,
    construct "S1" Sample.master_schedule Sample.registrations Sample.params
    = (Ok self, [])
    ∧ decode_solution self [(-1) # 1; 0 # 1] = Ok schedule
    ∧ course_id <$> schedule = ["CS101"; "MA201"].
Proof.
  eassert (construct "S1" Sample.master_schedule Sample.registrations
             Sample.params = (Ok _, [])) as Hcon
    by (vm_compute; reflexivity).
  match type of Hcon with
  | _ = (Ok ?self, _) =>
      eassert (decode_solution self [(-1) # 1; 0 # 1] = Ok _) as Hdec
        by (vm_compute; reflexivity)
  end.
  eexists. eexists. split; [exact Hcon|]. split; [exact Hdec|].
  by destruct (student_schedule_follows_courses _ _ _ _ _ _ _ _ Hcon Hdec)
    as (-> & _).
Defined.

End StudentConstruction.

Section StudentDecodeDomain.
Import Student StudentSpec Decoding.

Lemma student_decode_step_Raise self solution acc ic e :
  decode_step self solution acc ic = Raise e → e = Py.IndexError.
Proof.
  destruct ic as [i course]. unfold decode_step. intros Hstep.
  apply bind_Raise_inv in Hstep as [Hstep|(g & _ & Hstep)];
    [by eapply at_pos_Raise|].
  apply bind_Raise_inv in Hstep as [Hstep|(o & _ & Hstep)];
    [by eapply index_Raise|].
  discriminate.
Qed.

Lemma student_decode_Ok_iff self solution :
  (∃ schedule, decode_solution self solution = Ok schedule)
  ↔ student_readable self solution.
Proof.
  split.
  - intros [schedule Hdec] i course Hc. unfold decode_solution in Hdec.
    eapply for_each_inv
      with (P := fun (ic : nat * string) (_ : Offering) =>
                   ∃ g, solution !! ic.1 = Some g
                        ∧ indexable
                            (length (get (lecture_groups (student_data self))
                                         ic.2))
                            (Py.int g))
      in Hdec as (ys & _ & Hall).
    + destruct (Forall2_lookup_l _ _ _ i (i, course) Hall) as (o & _ & Ho);
        [|exact Ho].
      unfold enumerate. by rewrite list_lookup_imap, Hc.
    + intros [j c] acc r _ Hstep. unfold decode_step in Hstep.
      apply bind_Ok_inv in Hstep as (g & Hg%at_pos_Ok & Hstep).
      apply bind_Ok_inv in Hstep as (o & Ho & [= <-]).
      exists o. split; [done|]. exists g. split; [done|].
      apply index_Ok_iff. eauto.
  - intros Hread.
    destruct (for_each_total (decode_step self solution) (fun _ _ => True)
                (enumerate (student_courses (student_data self))))
      with (acc := @nil Offering) as (ys & Hrun & _); [|by exists ys].
    intros [i course] (i' & c' & [= -> ->] & Hc)%elem_of_lookup_imap.
    destruct (Hread _ _ Hc) as (g & Hg & [o Ho]%index_Ok_iff).
    exists o. split; [done|]. intros acc. unfold decode_step.
    rewrite (at_pos_Some _ _ _ Hg). cbn. by rewrite Ho.
Qed.

(** X17: the student decoder returns a schedule exactly for the chromosomes
    that hold a gene per registered course, each truncating to a position
    Python accepts among the offerings of the course, negative positions
    counting from the end; on every other chromosome it raises IndexError
    and nothing else. *)
Theorem student_decoder_accepts_exactly self solution :
  ((∃ schedule, decode_solution self solution = Ok schedule)
   ↔ student_readable self solution)
  ∧ (¬ student_readable self solution
     → decode_solution self solution = Raise Py.IndexError).
Proof.
  split; [apply student_decode_Ok_iff|]. intros Hnot.
  destruct (decode_solution self solution) as [schedule|e] eqn:Hdec.
  - exfalso. apply Hnot, student_decode_Ok_iff. eauto.
  - f_equal. revert Hdec. unfold decode_solution.
    apply (for_each_Raise _ (fun e => e = Py.IndexError)).
    intros acc ic e' _. apply student_decode_step_Raise.
Qed.

Lemma student_decoder_accepts_exactly_witness :
  ∃ self,
    construct "S1" Sample.master_schedule Sample.registrations Sample.params
    = (Ok self, [])
    ∧ decode_solution self [2 # 1; 0 # 1] = Raise Py.IndexError.
Proof.
  eassert (construct "S1" Sample.master_schedule Sample.registrations
             Sample.params = (Ok _, [])) as Hcon
    by (vm_compute; reflexivity).
  eexists. split; [exact Hcon|].
  apply student_decoder_accepts_exactly. intros Hread.
  destruct (Hread 0%nat "CS101" eq_refl) as (g & [= <-] & Hidx).
  vm_compute in Hidx. by destruct Hidx as [_ Hhi].
Defined.

End StudentDecodeDomain.

Section StudentPenaltyExtras.
Import Student StudentSpec Counting.

Lemma repeats_closed rest :
  ∀ earlier,
    (repeats earlier rest + distinct (timeslot <$> earlier ++ rest)
     = length rest + distinct (timeslot <$> earlier))%nat.
Proof.
  induction rest as [|l rest IH]; intros earlier.
  - rewrite app_nil_r. cbn. lia.
  - cbn [repeats length]. specialize (IH (earlier ++ [l])).
    rewrite <- app_assoc in IH. cbn [app] in IH.
    rewrite (fmap_app _ earlier [l]) in IH. cbn [fmap list_fmap] in IH.
    rewrite distinct_snoc in IH.
    case_bool_decide; case_decide; try done; lia.
Qed.

(** The penalty of a student schedule in closed form. *)
Lemma schedule_penalty_closed schedule :
  schedule_penalty schedule
  = 1000 * (Z.of_nat (length schedule)
            - Z.of_nat (distinct (timeslot <$> schedule)))
    + 10 * Z.of_nat (distinct (Day <$> schedule)).
Proof.
  rewrite schedule_penalty_formula.
  pose proof (repeats_closed schedule []) as Hrep. cbn in Hrep.
  unfold distinct_days, distinct in *. lia.
Qed.

(** X18: the penalty of a student schedule is 1000 for every lecture
    beyond the distinct timeslots plus 10 for every distinct day; hence it
    does not depend on the order of the courses. *)
Theorem student_penalty_counts schedule :
  schedule_penalty schedule
  = 1000 * (Z.of_nat (length schedule)
            - Z.of_nat (distinct (timeslot <$> schedule)))
    + 10 * Z.of_nat (distinct (Day <$> schedule))
  ∧ ∀ schedule', schedule ≡ₚ schedule' →
                 schedule_penalty schedule' = schedule_penalty schedule.
Proof.
  split; [apply schedule_penalty_closed|]. intros schedule' Hperm.
  rewrite !schedule_penalty_closed.
  rewrite (distinct_perm (timeslot <$> schedule) (timeslot <$> schedule'))
    by by apply fmap_Permutation.
  rewrite (distinct_perm (Day <$> schedule) (Day <$> schedule'))
    by by apply fmap_Permutation.
  by rewrite Hperm.
Qed.

Lemma student_penalty_counts_witness :
  schedule_penalty (reverse Sample.master_schedule)
  = schedule_penalty Sample.master_schedule.
Proof.
  apply student_penalty_counts. symmetry. apply reverse_Permutation.
Defined.

Lemma distinct_all_iff {A} `{Countable A} (l : list A) :
  distinct l = length l ↔ NoDup l.
Proof.
  unfold distinct. split.
  - induction l as [|x l IH]; [constructor|]. cbn [remove_dups].
    destruct (decide_rel elem_of x l) as [Hin|Hnot]; cbn [length].
    + intros Hlen. pose proof (distinct_le_length l) as Hle.
      unfold distinct in Hle. lia.
    + intros [= Hlen]. constructor; [done | by apply IH].
  - induction 1 as [|x l Hnot _ IH]; [done|]. cbn [remove_dups].
    destruct (decide_rel elem_of x l); [done|]. cbn. by rewrite IH.
Qed.

(** X19: a student schedule with at least one lecture has a penalty of at
    least 10, so its fitness never reaches that of penalty 0, and of at most
    [1010 * n - 1000]; the penalty is ten times the number of distinct days
    exactly when no two lectures share a timeslot. *)
Theorem student_penalty_bounds schedule :
  schedule ≠ [] →
  10 ≤ schedule_penalty schedule ≤ 1010 * Z.of_nat (length schedule) - 1000
  ∧ (fitness_of_penalty (schedule_penalty schedule) < fitness_of_penalty 0)%Q
  ∧ (schedule_penalty schedule = 10 * Z.of_nat (distinct (Day <$> schedule))
     ↔ NoDup (timeslot <$> schedule)).
Proof.
  intros Hne. rewrite schedule_penalty_closed.
  pose proof (distinct_le_length (timeslot <$> schedule)) as Hts.
  pose proof (distinct_le_length (Day <$> schedule)) as Hds.
  rewrite length_fmap in Hts, Hds.
  assert (timeslot <$> schedule ≠ []) as Hts1 by by destruct schedule.
  assert (Day <$> schedule ≠ []) as Hds1 by by destruct schedule.
  apply distinct_pos in Hts1, Hds1.
  split; [lia|]. split.
  - match goal with
    | |- (fitness_of_penalty ?p < _)%Q =>
        assert (10 ≤ p) as Hp by lia;
        apply (proj1 (fitness_of_penalty_lt 0 p ltac:(lia) ltac:(lia))); lia
    end.
  - rewrite <- distinct_all_iff, length_fmap. lia.
Qed.

Lemma student_penalty_bounds_witness :
  10 ≤ schedule_penalty Sample.master_overlap ≤ 1020
  ∧ ¬ NoDup (timeslot <$> Sample.master_overlap).
Proof.
  destruct (student_penalty_bounds Sample.master_overlap ltac:(done))
    as (Hrange & _ & Hiff).
  split; [cbn in Hrange; lia|].
  intros Hnd. apply Hiff in Hnd. by vm_compute in Hnd.
Defined.

End StudentPenaltyExtras.

Section GeneSpaceShape.
Import Institution InstitutionSpec.

(** X20: the gene space of the institution scheduler has [num_genes]
    entries, two per lecture: the range from 0 to the number of classrooms
    for the room gene, then the range from 0 to 45 for the timeslot gene;
    and a chromosome within the gene space has exactly [num_genes] genes. *)
Theorem gene_space_shape c r tc tp dp params :
  prepare_data c r tc tp = Ok dp →
  length (gene_space (SchedulerGA_init dp params))
  = num_genes (SchedulerGA_init dp params)
  ∧ num_genes (SchedulerGA_init dp params)
    = (2 * length (expected_requirements c tc))%nat
  ∧ (∀ i, (i < length (expected_requirements c tc))%nat →
          gene_space (SchedulerGA_init dp params) !! (i * 2)%nat
          = Some (mkBound 0 (Z.of_nat (length (classrooms dp))))
          ∧ gene_space (SchedulerGA_init dp params) !! (i * 2 + 1)%nat
            = Some (mkBound 0 45))
  ∧ ∀ solution,
      in_bounds (gene_space (SchedulerGA_init dp params)) solution →
      length solution = num_genes (SchedulerGA_init dp params).
Proof.
  intros Hdp.
  destruct (prepare_data_lectures _ _ _ _ _ Hdp) as [Hexp _].
  pose proof (prepare_data_timeslots _ _ _ _ _ Hdp) as Hslots.
  cbn [gene_space num_genes SchedulerGA_init]. rewrite <- Hexp.
  destruct (iter_pairs (mkBound 0 (Z.of_nat (length (classrooms dp))))
              (mkBound 0 (Z.of_nat (length (timeslots dp))))
              (length (lectures_to_schedule dp))) as [Hlen Hgs].
  cbn zeta in Hlen, Hgs.
  split; [done|]. split; [lia|]. split.
  - intros i Hi. destruct (Hgs i Hi) as [Hroom Hslot].
    split; [done|]. rewrite Hslot. by rewrite Hslots.
  - intros solution Hb. apply Forall2_length in Hb. by rewrite Hb.
Qed.

Lemma gene_space_shape_witness :
  ∃ dp,
    prepare_data Sample.courses Sample.classrooms Sample.teacher_courses
                 Sample.teacher_preferences = Ok dp
    ∧ length (gene_space (SchedulerGA_init dp Sample.params)) = 4%nat
    ∧ gene_space (SchedulerGA_init dp Sample.params) !! 3%nat
      = Some (mkBound 0 45).
Proof.
  eassert (prepare_data Sample.courses Sample.classrooms
             Sample.teacher_courses Sample.teacher_preferences = Ok _) as Hdp
    by (vm_compute; reflexivity).
  eexists. split; [exact Hdp|].
  destruct (gene_space_shape _ _ _ _ _ Sample.params Hdp)
    as (Hlen & Hnum & Hat & _).
  split.
  - rewrite Hlen, Hnum. by vm_compute.
  - destruct (Hat 1%nat) as [_ Hslot]; [vm_compute; lia | exact Hslot].
Defined.

End GeneSpaceShape.

Section NoPreferenceRows.
Import Institution InstitutionSpec Counting Prepared.

Lemma filter_length_le {A} (P Q : A → Prop) `{∀ x, Decision (P x)}
    `{∀ x, Decision (Q x)} (l : list A) :
  (∀ x, x ∈ l → P x → Q x) →
  (length (filter P l) ≤ length (filter Q l))%nat.
Proof.
  induction l as [|x l IH]; intros Himp; [done|].
  rewrite !filter_cons.
  assert (length (filter P l) ≤ length (filter Q l))%nat as Hle
    by (apply IH; intros y Hy; apply Himp; by right).
  destruct (decide (P x)) as [HP|HP], (decide (Q x)) as [HQ|HQ];
    cbn [length]; try lia.
  exfalso. apply HQ, Himp; [by left | done].
Qed.

Lemma windows_of_teacher tp teacher day :
  windows_of tp (teacher, day) ≠ [] → teacher ∈ p_teacher_id <$> tp.
Proof.
  unfold windows_of. intros Hne.
  destruct (filter _ tp) as [|row rows] eqn:Hf; [done|].
  assert (row ∈ filter (fun row => (p_teacher_id row, p_day row)
                                   = (teacher, day)) tp) as Hin
    by (rewrite Hf; by left).
  apply list_elem_of_filter in Hin as [[= <- _] Hin].
  by apply list_elem_of_fmap_2.
Qed.

(** X21: a teacher without any preference row is taken as never available:
    every lecture of such a teacher costs 500, whatever the chromosome. *)
Theorem no_preference_rows_cost c r tc tp dp params schedule p :
  prepare_data c r tc tp = Ok dp →
  calculate_penalty (SchedulerGA_init dp params) schedule = Ok p →
  500 * Z.of_nat (length (filter (fun l => teacher_id l ∉ p_teacher_id <$> tp)
                                 schedule))
  ≤ p.
Proof.
  intros Hdp Hp.
  assert (Forall well_slotted schedule) as Hall
    by by eapply calculate_penalty_Ok_slots.
  rewrite calculate_penalty_closed in Hp by done. injection Hp as <-.
  cbn [data_preparer SchedulerGA_init].
  pose proof (distinct_le_length (teacher_keys schedule)) as Ht.
  pose proof (distinct_le_length (room_keys schedule)) as Hr.
  unfold teacher_keys, room_keys in Ht, Hr. rewrite length_fmap in Ht, Hr.
  assert (length (filter (fun l => teacher_id l ∉ p_teacher_id <$> tp) schedule)
          ≤ outside_preference (teacher_pref_dict dp) schedule)%nat as Hout.
  { unfold outside_preference. apply filter_length_le.
    intros l _ Hnone (windows & s & e & Hlook & Hin & _).
    rewrite (preference_lookup_prepared _ _ _ _ _ _ _ Hdp) in Hlook.
    apply Hnone, (windows_of_teacher tp _ (slot_day (timeslot l))).
    by destruct (windows_of tp _). }
  unfold teacher_keys, room_keys. lia.
Qed.

Lemma no_preference_rows_cost_witness :
  ∃ dp p,
    prepare_data Sample.courses Sample.classrooms Sample.teacher_courses
                 Sample.teacher_preferences = Ok dp
    ∧ calculate_penalty (SchedulerGA_init dp Sample.params) Sample2.schedule
      = Ok p
    ∧ 500 ≤ p.
Proof.
  eassert (prepare_data Sample.courses Sample.classrooms
             Sample.teacher_courses Sample.teacher_preferences = Ok _) as Hdp
    by (vm_compute; reflexivity).
  match type of Hdp with
  | _ = Ok ?dp =>
      eassert (calculate_penalty (SchedulerGA_init dp Sample.params)
                 Sample2.schedule = Ok _) as Hp by (vm_compute; reflexivity)
  end.
  eexists. eexists. split; [exact Hdp|]. split; [exact Hp|].
  etransitivity; [|exact (no_preference_rows_cost _ _ _ _ _ _ _ _ Hdp Hp)].
  by vm_compute.
Defined.

End NoPreferenceRows.
